(** * Onboarding dialog and recommendation engine of viteezy-v2

    Shallow embedding of [app/services/chat_service.py] and
    [app/services/product_service.py].  Python strings are modelled as
    [String.string] over ASCII ([str.lower], [str.strip] and the regex
    classes [\s] and [\w] are the ASCII parts of their Unicode versions);
    Python dicts used as maps are stdpp [gmap]s; code that can raise returns
    [option], [None] standing for the raised exception. *)

From Stdlib Require Import String Ascii ZArith Lia Sorted Permutation.
From stdpp Require Import base gmap strings list.

Open Scope string_scope.

(* ------------------------------------------------------------------ *)
(** ** Python string primitives *)

Module Py.
Local Open Scope nat_scope.

Definition lower_char (c : ascii) : ascii :=
  let n := nat_of_ascii c in
  if (65 <=? n) && (n <=? 90) then ascii_of_nat (n + 32) else c.

(** [str.lower] *)
Fixpoint lower (s : string) : string :=
  match s with
  | EmptyString => EmptyString
  | String c t => String (lower_char c) (lower t)
  end.

(** [str.isspace] on one character: [\t\n\v\f\r], the separators
    [\x1c]-[\x1f] and the blank. *)
Definition is_space (c : ascii) : bool :=
  let n := nat_of_ascii c in
  ((9 <=? n) && (n <=? 13)) || ((28 <=? n) && (n <=? 32)).

(** The regex class [\w]: letters, digits and the underscore. *)
Definition is_word (c : ascii) : bool :=
  let n := nat_of_ascii c in
  ((48 <=? n) && (n <=? 57)) || ((65 <=? n) && (n <=? 90))
  || ((97 <=? n) && (n <=? 122)) || (n =? 95).

Definition is_digit (c : ascii) : bool :=
  let n := nat_of_ascii c in (48 <=? n) && (n <=? 57).

Fixpoint lstrip (s : string) : string :=
  match s with
  | String c t => if is_space c then lstrip t else s
  | EmptyString => EmptyString
  end.

Definition rev_str (s : string) : string :=
  string_of_list_ascii (rev (list_ascii_of_string s)).

(** [str.strip] *)
Definition strip (s : string) : string := rev_str (lstrip (rev_str (lstrip s))).

(** [needle in hay] *)
Fixpoint contains (needle hay : string) : bool :=
  String.prefix needle hay ||
  match hay with
  | EmptyString => false
  | String _ t => contains needle t
  end.

(** [re.sub]/[str.replace] driver: [m s] is the length of the match at the
    head of [s] (if any); after a match the matched characters are skipped. *)
Fixpoint sub_aux (m : string -> option nat) (rep : string) (skip : nat)
    (s : string) : string :=
  match s with
  | EmptyString => EmptyString
  | String c t =>
      match skip with
      | S k => sub_aux m rep k t
      | O =>
          match m s with
          | Some (S k) => rep ++ sub_aux m rep k t
          | _ => String c (sub_aux m rep 0 t)
          end
      end
  end.

Definition re_sub (m : string -> option nat) (rep s : string) : string :=
  sub_aux m rep 0 s.

(** [s.replace(old, new)] for a non-empty [old]. *)
Definition replace (old new s : string) : string :=
  re_sub (fun t => if String.prefix old t then Some (String.length old) else None)
    new s.

(** Length of the longest run of characters satisfying [p] at the head. *)
Fixpoint run (p : ascii -> bool) (s : string) : nat :=
  match s with
  | String c t => if p c then S (run p t) else O
  | EmptyString => O
  end.

Definition drop (n : nat) (s : string) : string := substring n (String.length s - n) s.

(** The regex [\s+/+\s*]. *)
Definition match_slash (s : string) : option nat :=
  let n1 := run is_space s in
  let n2 := run (fun c => Ascii.eqb c "/"%char) (drop n1 s) in
  let n3 := run is_space (drop (n1 + n2) s) in
  if (0 <? n1) && (0 <? n2) then Some (n1 + n2 + n3) else None.

(** The regex [\s+and\s+]. *)
Definition match_and (s : string) : option nat :=
  let n1 := run is_space s in
  let rest := drop n1 s in
  let n3 := run is_space (drop 3 rest) in
  if (0 <? n1) && String.prefix "and" rest && (0 <? n3) then Some (n1 + 3 + n3)
  else None.

(** [s.split(sep)] for a one-character separator. *)
Fixpoint split_aux (sep : ascii) (cur : string) (s : string) : list string :=
  match s with
  | EmptyString => [cur]
  | String c t =>
      if Ascii.eqb c sep then cur :: split_aux sep "" t
      else split_aux sep (cur ++ String c "") t
  end.

Definition split (sep : ascii) (s : string) : list string := split_aux sep "" s.

(** [sep.join(l)] *)
Fixpoint join (sep : string) (l : list string) : string :=
  match l with
  | [] => ""
  | [x] => x
  | x :: t => x ++ sep ++ join sep t
  end.

Definition str_in (x : string) (l : list string) : bool := existsb (String.eqb x) l.

(** [x in d] and [d[x]] for a dict literal kept as its list of items. *)
Fixpoint assoc {A} (x : string) (d : list (string * A)) : option A :=
  match d with
  | [] => None
  | (k, v) :: t => if String.eqb x k then Some v else assoc x t
  end.

End Py.

Import Py.

(* ------------------------------------------------------------------ *)
(** ** Response values

    The values stored in [onboarding.responses]: the normalizers return a
    string or (for [concern]) a list of strings; [concern_details] holds the
    per-concern follow-up answers as a dict of dicts. *)

Inductive nval :=
| NStr (s : string)
| NList (l : list string).

Inductive rval :=
| RStr (s : string)
| RList (l : list string)
| RDetails (d : gmap string (gmap string nval)).

Definition rval_of (v : nval) : rval :=
  match v with NStr s => RStr s | NList l => RList l end.

Definition truthy (v : rval) : bool :=
  match v with
  | RStr s => negb (String.eqb s "")
  | RList l => negb (bool_decide (l = []))
  | RDetails d => negb (bool_decide (d = ∅))
  end.

Abbreviation responses := (gmap string rval).

(** [(responses.get(k) or "")] compared with a string: never raises. *)
Definition get_or_empty_is (r : responses) (k v : string) : bool :=
  match r !! k with
  | Some (RStr s) => String.eqb s v
  | Some w => if truthy w then false else String.eqb "" v
  | None => String.eqb "" v
  end.

(** [(responses.get(k) or "").lower()]: raises on a non-empty non-string. *)
Definition get_lower (r : responses) (k : string) : option string :=
  match r !! k with
  | Some (RStr s) => Some (lower s)
  | Some w => if truthy w then None else Some ""
  | None => Some ""
  end.

(* ------------------------------------------------------------------ *)
(** ** Concern taxonomy ([ChatService.CONCERN_SYNONYMS],
    [ChatService.CONCERN_QUESTIONS]) *)

Definition CONCERN_SYNONYMS : list (string * string) :=
  [("sleep", "sleep"); ("stress", "stress"); ("energy", "energy");
   ("stomach", "stomach_intestines");
   ("stomach & intestines", "stomach_intestines");
   ("stomach and intestines", "stomach_intestines");
   ("intestines", "stomach_intestines"); ("gut", "stomach_intestines");
   ("skin", "skin"); ("resistance", "resistance"); ("immunity", "resistance");
   ("immune", "resistance"); ("immune system", "resistance");
   ("weight", "weight"); ("libido", "libido"); ("brain", "brain");
   ("hair", "hair_nails"); ("nails", "hair_nails"); ("hair & nails", "hair_nails");
   ("hair and nails", "hair_nails"); ("hair nails", "hair_nails");
   ("fitness", "fitness"); ("hormones", "hormones"); ("hormone", "hormones")].

(** Concern key -> (label, ordered follow-up question ids). *)
Definition CONCERN_QUESTIONS : list (string * (string * list string)) :=
  [("sleep", ("Sleep", ["fall_asleep"; "refreshed"; "hours"]));
   ("stress", ("Stress", ["busy_level"; "after_day"; "signals"]));
   ("energy", ("Energy", ["day_load"; "end_day"; "body_signals"]));
   ("stomach_intestines", ("Stomach & Intestines", ["bowel"; "improve"; "extra"]));
   ("skin", ("Skin", ["most_days"; "notices"; "dry"]));
   ("resistance", ("Resistance", ["low"; "intense_training"; "medical_care"]));
   ("weight", ("Weight", ["challenge"; "binge"; "sleep_hours"]));
   ("hormones", ("Hormones", ["cycle"; "physical_changes"; "emotions"]));
   ("libido", ("Libido", ["level"; "sleep_quality"; "pressure"]));
   ("brain", ("Brain", ["symptoms"; "mood"; "improve"]));
   ("hair_nails", ("Hair & Nails", ["hair"; "nails"; "extras"]));
   ("fitness", ("Fitness", ["frequency"; "training"; "priority"]))].

(** [sorted(keys, key=len, reverse=True)]: a stable sort, longest first. *)
Fixpoint insert_by_len (k : string) (l : list string) : list string :=
  match l with
  | [] => [k]
  | x :: t => if (String.length x <? String.length k)%nat then k :: l
              else x :: insert_by_len k t
  end.

Definition sort_by_len_desc (l : list string) : list string :=
  fold_left (fun acc k => insert_by_len k acc) l [].

Definition synonym_pattern_keys : list string :=
  sort_by_len_desc (map fst CONCERN_SYNONYMS).

Definition word_opt (c : option ascii) : bool :=
  match c with Some c => is_word c | None => false end.

Definition head_opt (s : string) : option ascii :=
  match s with String c _ => Some c | EmptyString => None end.

Definition last_opt (s : string) : option ascii :=
  head_opt (rev_str s).

(** The alternative of [\b(k1|k2|...)\b] that matches at the head of [s]
    ([prev] is the character before it): the first key, in pattern order,
    that is a prefix of [s] and is followed by a word boundary. *)
Definition match_key (keys : list string) (prev : option ascii) (s : string)
    : option string :=
  if Bool.eqb (word_opt prev) (word_opt (head_opt s)) then None
  else find (fun k => String.prefix k s &&
               negb (Bool.eqb (word_opt (last_opt k))
                              (word_opt (head_opt (drop (String.length k) s)))))
         keys.

(** [if x not in acc: acc.append(x)] *)
Definition add_new (acc : list string) (x : string) : list string :=
  if str_in x acc then acc else acc ++ [x].

(** The [re.finditer] loop of [_extract_concern_tokens]. *)
Fixpoint scan_tokens (prev : option ascii) (skip : nat) (s : string)
    (acc : list string) : list string :=
  match s with
  | EmptyString => acc
  | String c t =>
      match skip with
      | S k => scan_tokens (Some c) k t acc
      | O =>
          match match_key synonym_pattern_keys prev s with
          | Some key =>
              let acc := match assoc key CONCERN_SYNONYMS with
                         | Some canon => add_new acc canon
                         | None => acc
                         end in
              scan_tokens (Some c) (String.length key - 1) t acc
          | None => scan_tokens (Some c) 0 t acc
          end
      end
  end.

Definition _extract_concern_tokens (text : string) : list string :=
  if String.eqb text "" then [] else scan_tokens None 0 text [].

Definition concern_parts (normalized : string) : list string :=
  filter (fun p => negb (String.eqb p "")) (map strip (split "," normalized)).

Definition concern_normalize_text (raw : string) : string :=
  let n := lower raw in
  let n := replace "stomach and intestines" "stomach & intestines" n in
  let n := replace "hair and nails" "hair & nails" n in
  let n := replace "hair nails" "hair & nails" n in
  let n := re_sub match_slash "," n in
  let n := replace ";" "," n in
  let n := replace "|" "," n in
  re_sub match_and "," n.

(** One iteration of the [for part in parts] loop of [_parse_concerns]. *)
Definition parse_part (selections : list string) (part : string) : list string :=
  match assoc part CONCERN_SYNONYMS with
  | Some canonical => add_new selections canonical
  | None => fold_left add_new (_extract_concern_tokens part) selections
  end.

Definition _parse_concerns (raw : string) : list string :=
  if String.eqb raw "" then [] else
  let normalized := concern_normalize_text raw in
  let selections := fold_left parse_part (concern_parts normalized) [] in
  match selections with
  | [] => _extract_concern_tokens normalized
  | _ => selections
  end.

(** [_normalize_concerns]: a list is parsed item by item and deduplicated,
    a string is parsed, anything else gives []. *)
Definition _normalize_concerns (raw : option rval) : list string :=
  match raw with
  | Some (RList items) => fold_left add_new (flat_map _parse_concerns items) []
  | Some (RStr s) => _parse_concerns s
  | _ => []
  end.

Definition _concern_field_key (concern question_id : string) : string :=
  "concern|" ++ concern ++ "|" ++ question_id.

Definition _concern_followup_steps (concerns : list string) : list string :=
  flat_map (fun c => match assoc c CONCERN_QUESTIONS with
                     | Some (_, ids) => map (_concern_field_key c) ids
                     | None => []
                     end) concerns.

(* ------------------------------------------------------------------ *)
(** ** [ChatService._ordered_steps] *)

Definition female_genders : list string := ["woman"; "female"; "gender neutral"].

Definition _ordered_steps (r : responses) (has_previous_sessions : bool)
    (should_ask_previous_concern_followup : bool) : option (list string) :=
  (let hp := has_previous_sessions in
  let steps := (if hp then [] else ["name"]) ++ ["for_whom"] in
  let steps := if get_or_empty_is r "for_whom" "family"
               then steps ++ ["family_name"; "relation"] else steps in
  let steps := steps ++ ["age"] in
  let steps :=
    if hp && get_or_empty_is r "for_whom" "me" then steps ++ ["protein"]
    else
      let steps := if hp then steps else steps ++ ["email"; "knowledge"; "vitamin_count"] in
      let steps := steps ++ ["protein"] in
      if hp then steps else steps ++ ["gender"] in
  gender ← get_lower r "gender";
  steps ← (if str_in gender female_genders then
             let steps := steps ++ ["conceive"] in
             conceive ← get_lower r "conceive";
             Some (if String.eqb conceive "yes" then steps ++ ["situation"] else steps)
           else Some (if String.eqb gender "male" then steps ++ ["children"] else steps));
  let steps := steps ++ ["concern"] in
  let steps := steps ++ _concern_followup_steps (_normalize_concerns (r !! "concern")) in
  let steps := steps ++ ["lifestyle_status"; "fruit_intake"; "vegetable_intake";
                         "dairy_intake"; "fiber_intake"; "protein_intake"; "eating_habits"] in
  eating_habits ← get_lower r "eating_habits";
  let steps := if str_in eating_habits ["vegetarian"; "vegan"] then steps
               else steps ++ ["meat_intake"; "fish_intake"] in
  let steps := steps ++ ["drinks_alcohol"] in
  drinks_alcohol ← get_lower r "drinks_alcohol";
  let steps := if str_in drinks_alcohol ["yes"; "y"; "yeah"; "yep"]
               then steps ++ ["alcohol_daily"; "alcohol_weekly"] else steps in
  let steps := steps ++ ["coffee_intake"; "smokes"] in
  let steps := steps ++ ["allergies"; "dietary_preferences"; "sunlight_exposure";
                         "iron_advised"; "ayurveda_view"; "new_product_attitude"] in
  let steps := if should_ask_previous_concern_followup
               then steps ++ ["previous_concern_followup"] else steps in
  Some (steps ++ ["medical_treatment"]))%list.




(* ------------------------------------------------------------------ *)
(** ** Answer validation ([ChatService._validate_response]) *)

(** [str(v)] of a stored value, used when it is formatted into a message
    (lists as their repr without quote escaping; dicts by their keys). *)
Definition py_str (v : rval) : string :=
  match v with
  | RStr s => s
  | RList l => "[" ++ join ", " (map (fun x => "'" ++ x ++ "'") l) ++ "]"
  | RDetails d => "{" ++ join ", " (map (fun k => "'" ++ k ++ "': {...}") (map fst (map_to_list d))) ++ "}"
  end.

(** [responses.get("name") or "friend"] *)
Definition name_or_friend (r : responses) : string :=
  match r !! "name" with
  | Some v => if truthy v then py_str v else "friend"
  | None => "friend"
  end.

Definition string_of_digit (d : nat) : string := String (ascii_of_nat (48 + d)) "".

Fixpoint decimal_aux (fuel n : nat) : string :=
  match fuel with
  | O => ""
  | S f => if (n <? 10)%nat then string_of_digit n
           else decimal_aux f (n / 10) ++ string_of_digit (n mod 10)
  end.

(** [str(n)] for a natural number. *)
Definition decimal (n : nat) : string := decimal_aux (S n) n.

(** [s.isdigit()] *)
Definition isdigit (s : string) : bool :=
  negb (String.eqb s "") && forallb is_digit (list_ascii_of_string s).

(** [int(s)] for a string of decimal digits. *)
Definition int_of_digits (s : string) : Z :=
  fold_left (fun acc c => 10 * acc + Z.of_nat (nat_of_ascii c - 48))%Z
    (list_ascii_of_string s) 0%Z.

(** [s.split(sep)[-1]] *)
Definition last_piece (sep : ascii) (s : string) : string :=
  default "" (last (split sep s)).

(** [field.split("|", 2)] when it has three parts: the two fields after
    the first separator. *)
Fixpoint split_bar_once (acc s : string) : option (string * string) :=
  match s with
  | EmptyString => None
  | String c t => if Ascii.eqb c "|" then Some (acc, t)
                  else split_bar_once (acc ++ String c "") t
  end.

Definition _parse_concern_field (field : string) : option (string * string) :=
  if String.prefix "concern|" field
  then split_bar_once "" (drop 8 field)
  else None.

Definition FOR_WHOM_ALLOWED : list (string * string) :=
  [("me", "self"); ("myself", "self"); ("self", "self"); ("for me", "self");
   ("no", "self"); ("family", "family"); ("family member", "family");
   ("for family", "family"); ("for my family", "family"); ("friend", "family");
   ("partner", "family"); ("spouse", "family"); ("yes", "family")].

Definition KNOWLEDGE_ALLOWED : list (string * string) :=
  [("well informed", "well informed"); ("well-informed", "well informed");
   ("informed", "well informed"); ("curious", "curious");
   ("skeptical", "skeptical"); ("sceptical", "skeptical")].

Definition VITAMIN_COUNT_ALLOWED : list (string * string) :=
  [("no", "0"); ("none", "0"); ("0", "0"); ("1", "1 to 3"); ("2", "1 to 3");
   ("3", "1 to 3"); ("1 to 3", "1 to 3"); ("1-3", "1 to 3"); ("4", "4+");
   ("4+", "4+"); ("5", "4+"); ("5+", "4+"); ("many", "4+")].

Definition GENDER_ALLOWED : list (string * string) :=
  [("male", "male"); ("man", "male"); ("m", "male"); ("woman", "female");
   ("women", "female"); ("female", "female"); ("f", "female");
   ("gender neutral", "gender neutral"); ("neutral", "gender neutral");
   ("non-binary", "gender neutral"); ("nonbinary", "gender neutral")].

Definition SITUATION_ALLOWED : list (string * string) :=
  [("to get pregnant in the next 2 years", "planning (2 years)");
   ("planning", "planning (2 years)"); ("next 2 years", "planning (2 years)");
   ("i am pregnant now", "pregnant"); ("pregnant", "pregnant");
   ("breastfeeding", "breastfeeding")].

Definition LIFESTYLE_ALLOWED : list (string * string) :=
  [("been doing well for a long time", "been doing well for a long time");
   ("doing well", "been doing well for a long time");
   ("nice on the way", "nice on the way"); ("on the way", "nice on the way");
   ("ready to start", "ready to start"); ("starting", "ready to start")].

Definition INTAKE_ALLOWED : list (string * string) :=
  [("hardly", "hardly"); ("rarely", "hardly"); ("seldom", "hardly");
   ("one time", "one time"); ("once", "one time"); ("1", "one time");
   ("twice or more", "twice or more"); ("twice", "twice or more");
   ("2", "twice or more"); ("more", "twice or more"); ("multiple", "twice or more")].

Definition EATING_ALLOWED : list (string * string) :=
  [("no preference", "no preference"); ("none", "no preference");
   ("flexitarian", "flexitarian"); ("vegetarian", "vegetarian");
   ("veg", "vegetarian"); ("vegan", "vegan")].

Definition MEAT_FISH_ALLOWED : list (string * string) :=
  [("never", "never"); ("no", "never"); ("once or twice", "once or twice");
   ("once", "once or twice"); ("twice", "once or twice"); ("1-2", "once or twice");
   ("three times or more", "three times or more"); ("three", "three times or more");
   ("3", "three times or more"); ("more", "three times or more")].

Definition ALLERGIES_ALLOWED : list (string * string) :=
  [("no", "no"); ("none", "no"); ("milk", "milk"); ("egg", "egg"); ("eggs", "egg");
   ("fish", "fish"); ("shellfish and crustaceans", "shellfish and crustaceans");
   ("shellfish", "shellfish and crustaceans");
   ("crustaceans", "shellfish and crustaceans"); ("peanut", "peanut");
   ("peanuts", "peanut"); ("nuts", "nuts"); ("soy", "soy"); ("gluten", "gluten");
   ("wheat", "wheat"); ("pollen", "pollen")].

Definition DIETARY_ALLOWED : list (string * string) :=
  [("no preference", "no preference"); ("none", "no preference");
   ("lactose-free", "lactose-free"); ("lactose free", "lactose-free");
   ("gluten free", "gluten free"); ("gluten-free", "gluten free"); ("paleo", "paleo")].

Definition AYURVEDA_ALLOWED : list (string * string) :=
  [("i am convinced", "i am convinced"); ("convinced", "i am convinced");
   ("we can learn a lot from ancient medicine", "we can learn a lot from ancient medicine");
   ("learn from ancient medicine", "we can learn a lot from ancient medicine");
   ("ancient medicine", "we can learn a lot from ancient medicine");
   ("i am open to it", "i am open to it"); ("open to it", "i am open to it");
   ("open", "i am open to it");
   ("more information needed for an opinion", "more information needed for an opinion");
   ("need more information", "more information needed for an opinion");
   ("i am skeptical", "i am skeptical"); ("skeptical", "i am skeptical");
   ("alternative medicine is nonsense", "alternative medicine is nonsense");
   ("nonsense", "alternative medicine is nonsense")].

Definition ATTITUDE_ALLOWED : list (string * string) :=
  [("to be the first", "to be the first"); ("first", "to be the first");
   ("you are at the forefront of new products", "you are at the forefront of new products");
   ("forefront", "you are at the forefront of new products");
   ("learn more", "learn more");
   ("you are cautiously optimistic", "you are cautiously optimistic");
   ("cautiously optimistic", "you are cautiously optimistic");
   ("waiting for now", "waiting for now"); ("waiting", "waiting for now");
   ("scientific research takes time", "scientific research takes time");
   ("research takes time", "scientific research takes time")].

Definition YES_NO_FIELDS : list string :=
  ["drinks_alcohol"; "alcohol_daily"; "alcohol_weekly"; "coffee_intake"; "smokes";
   "sunlight_exposure"; "iron_advised"; "medical_treatment"; "previous_concern_followup"].

Definition INTAKE_FIELDS : list string :=
  ["fruit_intake"; "vegetable_intake"; "dairy_intake"; "fiber_intake"; "protein_intake"].

(** [(valid, normalized_value, error_message)] *)
Abbreviation validation := (bool * nval * string)%type.

(** Table lookup of the lowered answer. *)
Definition by_table (tbl : list (string * string)) (val err : string) : validation :=
  match assoc (lower val) tbl with
  | Some v => (true, NStr v, "")
  | None => (false, NStr val, err)
  end.

Definition yes_no (yes no : list string) (val err : string) : validation :=
  let normalized := lower val in
  if str_in normalized yes then (true, NStr "yes", "")
  else if str_in normalized no then (true, NStr "no", "")
  else (false, NStr val, err).

Definition upper_char (c : ascii) : ascii :=
  let n := nat_of_ascii c in
  if ((97 <=? n) && (n <=? 122))%nat then ascii_of_nat (n - 32) else c.

Definition is_cased (c : ascii) : bool :=
  (let n := nat_of_ascii c in ((65 <=? n) && (n <=? 90)) || ((97 <=? n) && (n <=? 122)))%nat.

(** [str.title] *)
Fixpoint title_aux (prev_cased : bool) (s : string) : string :=
  match s with
  | EmptyString => EmptyString
  | String c t =>
      String (if prev_cased then lower_char c else upper_char c) (title_aux (is_cased c) t)
  end.

Definition str_title (s : string) : string := title_aux false s.

Section Validate.

(** [ChatService._question_by_key]: the (personalised) prompt of a concern
    follow-up; it only enters the error message of an empty follow-up
    answer. *)
Variable _question_by_key : string -> string -> responses -> option string.

Definition _validate_response (field raw_value : string) (r : responses) : validation :=
  let val := strip raw_value in
  let name := name_or_friend r in
  if String.eqb field "name" then
    if (String.length val <? 2)%nat
    then (false, NStr val, "I want to remember you, can you share a name with at least 2 letters? 😊")
    else (true, NStr val, "")
  else if String.eqb field "for_whom" then
    by_table FOR_WHOM_ALLOWED val "Is this for you or for a family member? Just say 'me' or 'family'."
  else if String.eqb field "family_name" then
    if (String.length val <? 2)%nat
    then (false, NStr val, "Tell me their name with at least 2 letters so I can personalize it. 😊")
    else (true, NStr val, "")
  else if String.eqb field "relation" then
    if (String.length val <? 3)%nat
    then (false, NStr val, "How are you related? (e.g., spouse, parent, sibling, friend)")
    else (true, NStr val, "")
  else if String.eqb field "age" then
    if negb (isdigit val)
    then (false, NStr val, name ++ ", can you share your age as a number (e.g., 27)?")
    else
      let age := int_of_digits val in
      if ((age <=? 0) || (100 <? age))%Z
      then (false, NStr val, name ++ ", that age feels off. Mind giving me a real number between 1 and 100?")
      else (true, NStr (decimal (Z.to_nat age)), "")
  else if String.eqb field "protein" then
    yes_no ["yes"; "y"; "yeah"; "yep"; "sure"; "taking"; "i do"] ["no"; "n"; "nope"; "nah"; "not"] val
      (name ++ ", just a quick yes or no, are you taking protein powder or shakes right now?")
  else if String.eqb field "knowledge" then
    by_table KNOWLEDGE_ALLOWED val (name ++ ", choose one: Well informed, Curious, or Skeptical.")
  else if String.eqb field "vitamin_count" then
    by_table VITAMIN_COUNT_ALLOWED val (name ++ ", pick one: No, 1 to 3, or 4+.")
  else if String.eqb field "gender" then
    by_table GENDER_ALLOWED val (name ++ ", choose one: male, woman, or gender neutral.")
  else if String.eqb field "conceive" then
    yes_no ["yes"; "y"; "yeah"; "yep"] ["no"; "n"; "nope"; "nah"] val
      (name ++ ", a simple yes or no works, are you pregnant or breastfeeding?")
  else if String.eqb field "situation" then
    by_table SITUATION_ALLOWED val
      (name ++ ", pick one: To get pregnant in the next 2 years / I am pregnant now / Breastfeeding.")
  else if String.eqb field "children" then
    yes_no ["yes"; "y"; "yeah"; "yep"] ["no"; "n"; "nope"; "nah"] val
      (name ++ ", just a yes or no, planning for kids in the coming years?")
  else if String.eqb field "email" then
    if contains "@" val && contains "." (last_piece "@" val) && (5 <? String.length val)%nat
    then (true, NStr val, "")
    else (false, NStr val, name ++ ", could you share a real email like youremail@example.com? Promise I’ll keep it safe.")
  else if String.eqb field "concern" then
    match _parse_concerns val with
    | [] => (false, NStr val,
             name ++ ", pick one or a few from: Sleep / Stress / Energy / Stomach & Intestines / "
             ++ "Skin / Resistance / Weight / Libido / Brain / Hair & nails / Fitness (Hormones if relevant). "
             ++ "You can separate choices with commas.")
    | parsed => (true, NList parsed, "")
    end
  else match _parse_concern_field field with
  | Some (concern_key, question_id) =>
      let question := _question_by_key concern_key question_id r in
      let label := match assoc concern_key CONCERN_QUESTIONS with
                   | Some (l, _) => l
                   | None => str_title concern_key
                   end in
      if String.eqb val ""
      then (false, NStr val, "Quick one about " ++ label ++ ": "
                             ++ match question with
                                | Some q => if String.eqb q "" then "can you share a short answer?" else q
                                | None => "can you share a short answer?"
                                end)
      else (true, NStr val, "")
  | None =>
  if String.eqb field "lifestyle_status" then
    by_table LIFESTYLE_ALLOWED val
      (name ++ ", pick one: Been doing well for a long time / Nice on the way / Ready to start")
  else if str_in field INTAKE_FIELDS then
    by_table INTAKE_ALLOWED val (name ++ ", pick one: Hardly / One time / Twice or more")
  else if String.eqb field "eating_habits" then
    by_table EATING_ALLOWED val (name ++ ", pick one: No preference / Flexitarian / Vegetarian / Vegan")
  else if str_in field ["meat_intake"; "fish_intake"] then
    by_table MEAT_FISH_ALLOWED val (name ++ ", pick one: Never / Once or twice / Three times or more")
  else if str_in field YES_NO_FIELDS then
    yes_no ["yes"; "y"; "yeah"; "yep"; "sure"] ["no"; "n"; "nope"; "nah"; "not"] val
      (name ++ ", just a quick yes or no works here.")
  else if String.eqb field "allergies" then
    let normalized := lower val in
    let err := name ++ ", pick from: No / Milk / Egg / Fish / Shellfish and crustaceans / Peanut / Nuts / Soy / Gluten / Wheat / Pollen" in
    let valid_parts := if contains "," normalized
                       then omap (fun p => assoc p ALLERGIES_ALLOWED)
                                 (map strip (split "," normalized))
                       else [] in
    match valid_parts with
    | _ :: _ => (true, NStr (join ", " valid_parts), "")
    | [] => by_table ALLERGIES_ALLOWED val err
    end
  else if String.eqb field "dietary_preferences" then
    by_table DIETARY_ALLOWED val (name ++ ", pick one: No preference / Lactose-free / Gluten free / Paleo")
  else if String.eqb field "ayurveda_view" then
    by_table AYURVEDA_ALLOWED val
      (name ++ ", pick one: I am convinced / We can learn a lot from ancient medicine / I am open to it / More information needed for an opinion / I am skeptical / Alternative medicine is nonsense")
  else if String.eqb field "new_product_attitude" then
    by_table ATTITUDE_ALLOWED val
      (name ++ ", pick one: To be the first / You are at the forefront of new products / Learn more / You are cautiously optimistic / Waiting for now / Scientific research takes time")
  else (true, NStr val, "")
  end.

End Validate.


(* ------------------------------------------------------------------ *)
(** ** [ChatService._save_response] (raises when [concern_details] holds
    something that is not a dict) *)

Definition _save_response (field : string) (normalized : nval) (r : responses)
    : option responses :=
  if String.eqb field "concern" then
    let v := match normalized with
             | NList l => _normalize_concerns (Some (RList l))
             | NStr s => _normalize_concerns (Some (RStr s))
             end in
    Some (<["concern" := RList v]> r)
  else match _parse_concern_field field with
  | Some (concern_key, question_id) =>
      match r !! "concern_details" with
      | None =>
          Some (<["concern_details" := RDetails {[concern_key := {[question_id := normalized]}]}]> r)
      | Some (RDetails details) =>
          let bucket := default ∅ (details !! concern_key) in
          Some (<["concern_details" :=
                   RDetails (<[concern_key := <[question_id := normalized]> bucket]> details)]> r)
      | Some _ => None
      end
  | None => Some (<[field := rval_of normalized]> r)
  end.




(* ------------------------------------------------------------------ *)
(** ** Product documents ([ProductService]) *)

Module Catalog.

(** A multilingual text field: a string, a dict language -> text, or
    absent/[None]. *)
Inductive mtext :=
| MStr (s : string)
| MDict (d : list (string * string))
| MNone.

(** [status]: [true]/[false], a string such as ["Active"], or absent. *)
Inductive pstatus :=
| SBool (b : bool)
| SStr (s : string)
| SNone.

(** The fields of a catalog document the service reads (list items already
    converted with [str]); [certification] is [sourceInfo.certification]. *)
Record doc := {
  title : mtext;
  description : mtext;
  shortDescription : string;
  benefits : list string;
  healthGoals : list string;
  ingredients : list string;
  nutritionInfo : mtext;
  certification : list string;
  status : pstatus;
  isDeleted : bool
}.

(** The [Product] schema object, reduced to the fields the engine reads. *)
Record Product := { p_title : string; p_description : string }.

(** [d.get("en", d.get(first_key if d else "", dflt))] *)
Definition dict_en (d : list (string * string)) (dflt : string) : string :=
  match assoc "en" d with
  | Some v => v
  | None => match d with (_, v) :: _ => v | [] => dflt end
  end.

(** The text a multilingual field contributes ([] when falsy). *)
Definition mtext_part (m : mtext) : list string :=
  match m with
  | MStr s => [s]
  | MDict d => let v := dict_en d "" in if String.eqb v "" then [] else [v]
  | MNone => []
  end.

Definition nonempty (l : list string) : list string :=
  filter (fun s => negb (String.eqb s "")) l.

(** [_get_product_text] *)
Definition _get_product_text (p : doc) : string :=
  join " " (nonempty (mtext_part (title p) ++ mtext_part (description p)
                      ++ [shortDescription p] ++ benefits p ++ healthGoals p
                      ++ ingredients p)).

(** The nutrition text of [_get_all_product_text_for_allergen_check]. *)
Definition nutrition_part (m : mtext) : list string :=
  match m with
  | MStr s => [s]
  | MDict [] => []
  | MDict d => [dict_en d ""]
  | MNone => []
  end.

(** [_get_all_product_text_for_allergen_check] *)
Definition _get_all_product_text_for_allergen_check (p : doc) : string :=
  join " " ([_get_product_text p] ++ ingredients p ++ nutrition_part (nutritionInfo p)
            ++ certification p).

(** [_get_product_text_for_analysis] *)
Definition _get_product_text_for_analysis (p : doc) : string :=
  join " " (nonempty (mtext_part (title p) ++ mtext_part (description p)
                      ++ benefits p ++ healthGoals p ++ mtext_part (nutritionInfo p))).

(** [_mongo_to_product] (title and description). *)
Definition _mongo_to_product (p : doc) : Product :=
  {| p_title := match title p with
                | MStr s => s
                | MDict d => dict_en d "Unknown Product"
                | MNone => "Unknown Product"
                end;
     p_description := match description p with
                      | MStr s => s
                      | MDict d => dict_en d ""
                      | MNone => ""
                      end |}.

Definition any_in (terms : list string) (text : string) : bool :=
  existsb (fun t => contains t text) terms.

(** [ALLERGEN_MAP] of [_product_contains_allergens]. *)
Definition allergen_map : list (string * list string) :=
  [("milk", ["milk"; "lactose"; "dairy"; "casein"; "whey"; "butter"; "cream"]);
   ("egg", ["egg"; "albumin"; "ovalbumin"; "lecithin"; "eggs"]);
   ("fish", ["fish"; "gelatin"; "fish oil"; "omega-3"; "dha"; "epa"; "cod"; "salmon"; "tuna"]);
   ("shellfish", ["shellfish"; "crustacean"; "shrimp"; "crab"; "lobster"; "prawn"]);
   ("crustaceans", ["shellfish"; "crustacean"; "shrimp"; "crab"; "lobster"; "prawn"]);
   ("peanut", ["peanut"; "peanuts"; "arachis"]);
   ("nuts", ["nut"; "almond"; "walnut"; "hazelnut"; "cashew"; "pistachio"; "pecan"; "macadamia"; "brazil nut"]);
   ("soy", ["soy"; "soya"; "soybean"; "soy bean"; "tofu"; "tempeh"; "miso"]);
   ("gluten", ["gluten"; "wheat"; "barley"; "rye"; "triticale"; "spelt"; "kamut"]);
   ("wheat", ["wheat"; "gluten"; "flour"; "semolina"; "durum"]);
   ("pollen", ["pollen"; "bee pollen"; "flower pollen"])].

(** [_product_contains_allergens] *)
Definition _product_contains_allergens (p : doc) (user_allergies : string) : bool :=
  let allergies_str := replace "shellfish and crustaceans" "shellfish,crustaceans"
                         (lower user_allergies) in
  let allergies_list := map strip (split "," allergies_str) in
  let all_product_text := lower (_get_all_product_text_for_allergen_check p) in
  existsb (fun a =>
             if String.eqb a "" || String.eqb a "no" then false
             else
               let to_check := match assoc a allergen_map with
                               | Some ((_ :: _) as l) => l
                               | _ => [a]
                               end in
               any_in to_check all_product_text)
    allergies_list.

(** [_product_matches_dietary_preferences] *)
Definition _product_matches_dietary_preferences (p : doc) (prefs : string) : bool :=
  let text := lower (_get_all_product_text_for_allergen_check p) in
  let certs := map lower (certification p) in
  if (contains "lactose-free" prefs || contains "lactose free" prefs)
     && any_in ["lactose"; "dairy"; "milk"; "whey"; "casein"; "butter"; "cream"] text
  then false
  else if (contains "gluten free" prefs || contains "gluten-free" prefs)
          && (str_in "gluten-free" certs || str_in "gluten free" certs)
  then true
  else if (contains "gluten free" prefs || contains "gluten-free" prefs)
          && any_in ["gluten"; "wheat"; "barley"; "rye"] text
  then false
  else if contains "paleo" prefs
          && any_in ["wheat"; "barley"; "rye"; "rice"; "soy"; "soya"; "bean"; "peanut";
                     "dairy"; "milk"; "lactose"] text
  then false
  else true.

Definition empty_ctx (ctx : responses) : bool := bool_decide (ctx = ∅).

(** [_is_safe_and_suitable]; [None] when a context value that is read as a
    string is a non-empty non-string (the [.lower()] call raises). *)
Definition _is_safe_and_suitable (p : doc) (ctx : responses) : option bool :=
  if empty_ctx ctx then Some true else
  eating_habits ← get_lower ctx "eating_habits";
  let vegan_reject :=
    String.eqb eating_habits "vegan"
    && any_in ["gelatin"; "fish"; "shellfish"; "milk"; "dairy"; "whey"; "casein"]
              (lower (_get_product_text p))
    && negb (contains "vegan" (lower (join " " (certification p)))) in
  if vegan_reject then Some false else
  let allergies :=
    match ctx !! "allergies" with
    | None => Some false
    | Some (RStr a) =>
        Some (negb (String.eqb a "") && negb (String.eqb (lower a) "no")
              && _product_contains_allergens p a)
    | Some w => if truthy w then None else Some false
    end in
  match allergies with
  | None => None
  | Some true => Some false
  | Some false =>
      match get_lower ctx "dietary_preferences" with
      | None => None
      | Some prefs =>
          if negb (String.eqb prefs "") && negb (String.eqb prefs "no preference")
             && negb (_product_matches_dietary_preferences p prefs)
          then Some false
          else Some true
      end
  end.

(** [_should_exclude_ayurveda] *)
Definition _should_exclude_ayurveda (ctx : responses) : option bool :=
  if empty_ctx ctx then Some false else
  view ← get_lower ctx "ayurveda_view";
  Some (str_in view ["more information needed for an opinion"; "i am skeptical";
                     "alternative medicine is nonsense"]).

(** [_is_ayurveda_product] *)
Definition _is_ayurveda_product (p : doc) : bool :=
  let text := lower (_get_product_text p) in
  any_in ["ayurveda"; "ayurvedic"; "ayurved"; "traditional indian medicine";
          "ancient indian medicine"] text
  || any_in ["ashwagandha"; "ashwagandha root"; "ashwagandha extract"; "withania somnifera";
             "turmeric"; "curcumin"; "holy basil"; "tulsi"; "ocimum sanctum"; "triphala";
             "amla"; "amalaki"; "brahmi"; "bacopa monnieri"; "guggul"; "commiphora mukul";
             "shilajit"; "guduchi"; "tinospora cordifolia"; "neem"; "azadirachta indica";
             "ginger"; "zingiber officinale"; "licorice"; "glycyrrhiza glabra"; "gotu kola";
             "centella asiatica"; "boswellia"; "frankincense"; "boswellia serrata"] text.

(** *** Scoring *)

Definition CONCERN_TO_KEYWORDS : list (string * list string) :=
  [("sleep", ["sleep"; "rest"; "relaxation"; "tiredness"; "fatigue"; "calm"]);
   ("stress", ["stress"; "anxiety"; "calm"; "relaxation"; "psychological"]);
   ("energy", ["energy"; "fatigue"; "tiredness"; "vitality"; "metabolism"]);
   ("stomach_intestines", ["digestion"; "gut"; "stomach"; "intestines"; "bowel"; "digestive"]);
   ("skin", ["skin"; "collagen"; "complexion"; "elasticity"; "aging"]);
   ("resistance", ["immune"; "immunity"; "resistance"; "immune system"]);
   ("weight", ["weight"; "metabolism"; "energy metabolism"]);
   ("libido", ["libido"; "sexual"; "hormone"; "hormonal"]);
   ("brain", ["brain"; "memory"; "concentration"; "cognitive"; "mental"; "focus"; "learning"]);
   ("hair_nails", ["hair"; "nails"; "hair growth"; "nail health"]);
   ("fitness", ["fitness"; "muscle"; "performance"; "recovery"; "exercise"; "strength"]);
   ("hormones", ["hormone"; "hormonal"; "menstrual"; "cycle"; "libido"])].

(** A value of [CONCERN_TO_HEALTH_GOALS]: one goal or a list of goals. *)
Inductive goals := GOne (g : string) | GMany (l : list string).

Definition CONCERN_TO_HEALTH_GOALS : list (string * goals) :=
  [("sleep", GOne "Sleep"); ("stress", GOne "Stress Management");
   ("energy", GOne "Energy Support");
   ("stomach_intestines", GMany ["Digestive Health"; "Gut Health"]);
   ("skin", GOne "Skin Health"); ("resistance", GOne "Immune Support");
   ("weight", GOne "Weight Management"); ("libido", GOne "Libido");
   ("brain", GOne "Brain Health"); ("hair_nails", GMany ["Hair Health"; "Nail Health"]);
   ("fitness", GOne "Fitness"); ("hormones", GOne "Hormone Balance")].

Definition concern_key_of (s : string) : string :=
  replace "&" "_" (replace " " "_" (lower s)).

(** [_extract_concerns] *)
Definition _extract_concerns (ctx : responses) : list string :=
  match ctx !! "concern" with
  | Some (RStr s) => if String.eqb s "" then [] else [concern_key_of s]
  | Some (RList l) => map concern_key_of l
  | _ => []
  end.

Definition is_letter (c : ascii) : bool :=
  let n := nat_of_ascii c in
  ((65 <=? n) && (n <=? 90))%nat || ((97 <=? n) && (n <=? 122))%nat.

Fixpoint letter_runs (cur : string) (s : string) : list string :=
  match s with
  | EmptyString => [cur]
  | String c t => if is_letter c then letter_runs (cur ++ String c "") t
                  else cur :: letter_runs "" t
  end.

(** [_extract_terms]: [re.findall(r"[a-zA-Z]{3,}", message.lower())] *)
Definition _extract_terms (message : string) : list string :=
  filter (fun w => (3 <=? String.length w)%nat) (letter_runs "" (lower message)).

(** [_extract_keywords] (a set: duplicates dropped). *)
Definition _extract_keywords (concerns : list string) (message : option string) : list string :=
  fold_left add_new
    (flat_map (fun c => default [] (assoc c CONCERN_TO_KEYWORDS)) concerns
     ++ match message with Some m => _extract_terms m | None => [] end)%list [].

(** [_concerns_to_health_goals] *)
Definition _concerns_to_health_goals (concerns : list string) : list string :=
  flat_map (fun c => match assoc c CONCERN_TO_HEALTH_GOALS with
                     | Some (GOne g) => [g]
                     | Some (GMany l) => l
                     | None => []
                     end) concerns.

Definition goal_hit (g : string) (pgoals : list string) : bool :=
  existsb (fun pg => contains (lower g) (lower pg)) pgoals.

(** [_score_product], in half points (every increment of the source is a
    multiple of 0.5); [None] when [eating_habits] is a non-string. *)
Definition _score_product (p : doc) (keywords concerns : list string) (ctx : responses)
    : option nat :=
  let product_text := lower (_get_product_text p) in
  let s_kw := 2 * length (filter (fun k => contains k product_text) keywords) in
  let goals_text := join " " (map lower (healthGoals p)) in
  let per_concern c :=
    let direct := match assoc c CONCERN_TO_HEALTH_GOALS with
                  | Some (GMany l) => if existsb (fun g => goal_hit g (healthGoals p)) l then 4 else 0
                  | Some (GOne g) => if goal_hit g (healthGoals p) then 4 else 0
                  | None => 0
                  end in
    let kw := if existsb (fun k => contains k goals_text || contains k product_text)
                         (default [] (assoc c CONCERN_TO_KEYWORDS)) then 3 else 0 in
    (direct + kw)%nat in
  let s_concerns := list_sum (map per_concern concerns) in
  let high := length (filter (fun k => str_in k keywords && contains k product_text)
                        ["fatigue"; "energy"; "immune"; "memory"; "concentration"]) in
  s_diet ← (if empty_ctx ctx then Some 0%nat else
            eating ← get_lower ctx "eating_habits";
            let cert_text := lower (join " " (certification p)) in
            Some (if String.eqb eating "vegan" then
                    (if contains "vegan" product_text || contains "vegan" cert_text then 4 else 0)
                  else if String.eqb eating "vegetarian" then
                    (if contains "vegetarian" product_text || contains "vegetarian" cert_text then 3 else 0)
                  else 0)%nat);
  Some (s_kw + s_concerns + s_diet + high)%nat.

(** The status gate of the scoring loop. *)
Definition is_active (p : doc) : bool :=
  match status p with
  | SBool true => negb (isDeleted p)
  | SStr s => String.eqb s "Active" && negb (isDeleted p)
  | _ => false
  end.

(** The score a document enters the ranking with: [_score_product], raised
    to 0.5 when it is 0 and the search used criteria (or there were neither
    keywords nor concerns). *)
Definition effective_score (p : doc) (keywords concerns : list string) (ctx : responses)
    (search_used_criteria : bool) : option nat :=
  score ← _score_product p keywords concerns ctx;
  Some (if (score =? 0)%nat
        then (if search_used_criteria then 1
              else match keywords, concerns with [], [] => 1 | _, _ => 0 end)
        else score)%nat.

(** The [for product in mongo_products] scoring loop. *)
Fixpoint score_products (mongo : list doc) (keywords concerns : list string) (ctx : responses)
    (crit : bool) : option (list (nat * doc)) :=
  match mongo with
  | [] => Some []
  | p :: t =>
      if negb (is_active p) then score_products t keywords concerns ctx crit else
      match effective_score p keywords concerns ctx crit with
      | None => None
      | Some score =>
          rest ← score_products t keywords concerns ctx crit;
          Some (if (0 <? score)%nat then (score, p) :: rest else rest)
      end
  end.

(** [scored_products.sort(key=score, reverse=True)]: stable, highest first. *)
Fixpoint insert_desc (x : nat * doc) (l : list (nat * doc)) : list (nat * doc) :=
  match l with
  | [] => [x]
  | y :: t => if (fst y <? fst x)%nat then x :: l else y :: insert_desc x t
  end.

Definition sort_desc (l : list (nat * doc)) : list (nat * doc) :=
  fold_right insert_desc [] (rev l).

(** The [for score, product in scored_products] filtering loop. *)
Fixpoint filter_products (l : list (nat * doc)) (ctx : responses)
    (include_titles : option (list string)) (exclude_titles : list string)
    (exclude_ayurveda : bool) (acc : list Product) : option (list Product) :=
  match l with
  | [] => Some acc
  | (score, p) :: t =>
      if (score <? 1)%nat then
        (if (1 <=? length acc)%nat then Some acc
         else filter_products t ctx include_titles exclude_titles exclude_ayurveda acc)
      else
        let po := _mongo_to_product p in
        let skip := filter_products t ctx include_titles exclude_titles exclude_ayurveda acc in
        if match include_titles with Some inc => negb (str_in (p_title po) inc) | None => false end
        then skip
        else if str_in (p_title po) exclude_titles then skip
        else if exclude_ayurveda && _is_ayurveda_product p then skip
        else match _is_safe_and_suitable p ctx with
             | None => None
             | Some false => skip
             | Some true =>
                 let acc := (acc ++ [po])%list in
                 if (3 <=? length acc)%nat then Some acc
                 else filter_products t ctx include_titles exclude_titles exclude_ayurveda acc
             end
  end.

Section Find.

(** The catalog search collaborator ([ProductRepository.search]):
    message terms, health goals, limit, include-only titles; [None] when it
    raises. *)
Variable search : list string -> list string -> nat -> option (list string) -> option (list doc).

(** [ProductService.find_relevant_products]; the [try]/[except] turns every
    raised exception into [([], {})]. *)
Definition find_relevant_products (message : option string) (ctx : responses)
    (limit : option nat) (exclude_product_titles : list string)
    (include_product_titles : option (list string))
    : list Product * gmap string doc :=
  let concerns := _extract_concerns ctx in
  let keywords := _extract_keywords concerns message in
  let health_goals := _concerns_to_health_goals concerns in
  let message_terms := match message with Some m => if String.eqb m "" then [] else _extract_terms m | None => [] end in
  let search_limit := match limit with Some (S n) => S n | _ => 20%nat end in
  let include_titles := match include_product_titles with
                        | Some ((_ :: _) as l) => Some l
                        | _ => None
                        end in
  match search message_terms health_goals (2 * search_limit) include_product_titles with
  | None => ([], ∅)
  | Some [] => ([], ∅)
  | Some mongo_products =>
      let crit := negb (bool_decide (health_goals = [])) || negb (bool_decide (message_terms = []))
                  || match include_titles with Some _ => true | None => false end in
      match score_products mongo_products keywords concerns ctx crit with
      | None => ([], ∅)
      | Some scored =>
          let scored := sort_desc scored in
          match _should_exclude_ayurveda ctx with
          | None => ([], ∅)
          | Some excl =>
              match filter_products scored ctx include_titles exclude_product_titles excl [] with
              | None => ([], ∅)
              | Some filtered =>
                  (firstn 3 filtered,
                   fold_left (fun m sd => <[p_title (_mongo_to_product (snd sd)) := snd sd]> m)
                     scored ∅)
              end
          end
      end
  end.

End Find.

(** *** Safety warnings *)

(** [_detect_pregnancy_concerns]; its [return warnings] sits inside the
    [if "high dose" ... or "megadose" ...] block, so it returns [None]
    (Python's [None]) when neither phrase occurs. *)
Definition _detect_pregnancy_concerns (product_text ingredients_text : string)
    : option (list string) :=
  let combined := product_text ++ " " ++ ingredients_text in
  let w_vit := if any_in ["retinol"; "vitamin a"; "retinyl"; "high dose vitamin a"] combined
                  && negb (contains "beta-carotene" (lower combined))
               then ["This product contains Vitamin A (retinol). High doses of Vitamin A can be harmful during pregnancy. Please consult your healthcare provider before use."]
               else [] in
  let herbs := [("black cohosh", "may affect hormone levels");
                ("dong quai", "may cause uterine contractions");
                ("goldenseal", "may cause uterine contractions");
                ("blue cohosh", "may cause uterine contractions");
                ("pennyroyal", "may cause miscarriage");
                ("saw palmetto", "may affect hormone levels");
                ("yohimbe", "may affect blood pressure");
                ("ephedra", "may affect blood pressure and heart rate")] in
  let w_herbs := flat_map (fun hr =>
                   if contains (fst hr) combined
                   then ["This product contains " ++ fst hr ++ ", which " ++ snd hr
                         ++ " during pregnancy. Please consult your healthcare provider before use."]
                   else []) herbs in
  if contains "high dose" combined || contains "megadose" combined then
    let w_min := if any_in ["iron"; "zinc"; "selenium"] combined
                 then ["This product contains high doses of minerals. Please consult your healthcare provider to ensure the dosage is appropriate during pregnancy or breastfeeding."]
                 else [] in
    Some (w_vit ++ w_herbs ++ w_min)%list
  else None.

(** [_detect_allergens] *)
Definition _detect_allergens (product_text ingredients_text : string) : list string :=
  let combined := product_text ++ " " ++ ingredients_text in
  map fst (filter (fun ai => any_in (snd ai) combined)
    [("milk", ["milk"; "lactose"; "casein"; "whey"; "dairy"]);
     ("egg", ["egg"; "albumin"; "lecithin"; "ovalbumin"]);
     ("fish", ["fish"; "fish oil"; "omega-3"; "dha"; "epa"; "cod liver"]);
     ("shellfish", ["shellfish"; "shrimp"; "crab"; "lobster"; "crustacean"]);
     ("peanut", ["peanut"; "arachis"]);
     ("tree nuts", ["almond"; "walnut"; "hazelnut"; "cashew"; "pistachio"; "pecan"; "macadamia"]);
     ("soy", ["soy"; "soya"; "soybean"; "tofu"]);
     ("gluten", ["wheat"; "barley"; "rye"; "gluten"])]).

(** [_detect_age_concerns] *)
Definition _detect_age_concerns (product_text ingredients_text : string) : list string :=
  let combined := product_text ++ " " ++ ingredients_text in
  ((if any_in ["high dose"; "megadose"; "exceeds"; "above recommended"] combined
    then ["This product contains high doses that may not be suitable for individuals under 18. Please consult a healthcare provider before use."] else [])
   ++ (if any_in ["caffeine"; "guarana"; "yerba mate"; "green tea extract"] combined
       then ["This product contains stimulants. Use caution if you are under 18, and consult a healthcare provider."] else [])
   ++ (if any_in ["weight loss"; "fat burner"; "metabolism booster"] combined
       then ["Weight management supplements are generally not recommended for individuals under 18. Please consult a healthcare provider."] else []))%list.

Definition MEDICAL_NOTICE : string :=
  "Please consult with your healthcare provider before starting any new supplements, especially if you're currently undergoing medical treatment.".

(** [ProductService.get_safety_warnings]; [None] when a context value that
    is read as a string is a non-empty non-string. *)
Definition get_safety_warnings (p : doc) (ctx : responses) : option (list string) :=
  let product_text := lower (_get_product_text_for_analysis p) in
  let ingredients_text := join " " (map lower (ingredients p)) in
  let all_text := lower (product_text ++ " " ++ ingredients_text) in
  let has_ctx := negb (empty_ctx ctx) in
  gender_str ← (if has_ctx then get_lower ctx "gender" else Some "");
  let is_male := str_in gender_str ["male"; "man"; "m"] in
  age_ok ← (if has_ctx then
              match ctx !! "age" with
              | Some (RStr a) => Some (if isdigit a then Some (int_of_digits a) else None)
              | Some w => if truthy w then None else Some None
              | None => Some None
              end
            else Some None);
  situation ← (if has_ctx then get_lower ctx "situation" else Some "");
  medical ← (if has_ctx then get_lower ctx "medical_treatment" else Some "");
  let is_pregnant := has_ctx && (match ctx !! "conceive" with
                                 | Some (RStr c) => String.eqb c "yes"
                                 | _ => false
                                 end || contains "pregnant" situation) in
  let is_breastfeeding := has_ctx && contains "breastfeeding" situation in
  let w_preg := if negb is_male && (is_pregnant || is_breastfeeding)
                then default [] (_detect_pregnancy_concerns all_text ingredients_text)
                else [] in
  let detected := _detect_allergens all_text ingredients_text in
  user_allergies ← (if has_ctx && negb (bool_decide (detected = []))
                    then get_lower ctx "allergies" else Some "");
  let relevant := filter (fun a => contains (lower a) user_allergies) detected in
  let w_allergy := if negb (String.eqb user_allergies "") && negb (String.eqb user_allergies "no")
                      && negb (bool_decide (relevant = []))
                   then ["This product may contain " ++ join ", " relevant
                         ++ ". Please check the ingredient list and consult with your healthcare provider if you have allergies."]
                   else [] in
  let w_age := match age_ok with
               | Some a => if ((0 <? a) && (a <? 18))%Z then _detect_age_concerns all_text ingredients_text else []
               | None => []
               end in
  let w_med := if has_ctx && String.eqb medical "yes" then [MEDICAL_NOTICE] else [] in
  Some (w_preg ++ w_allergy ++ w_age ++ w_med)%list.

End Catalog.

(* ------------------------------------------------------------------ *)
(** ** The onboarding dialog ([ChatService.handle_message]) *)

Module Chat.
Import Catalog.

Record ChatMessage := mkMsg { role : string; content : option string }.

(** [len] of a string: its code points, i.e. the bytes of its UTF-8
    encoding that are not continuation bytes. *)
Definition py_len (s : string) : nat :=
  length (List.filter (fun c => negb ((128 <=? nat_of_ascii c) && (nat_of_ascii c <? 192))%nat)
            (list_ascii_of_string s)).

(** The bounds [Field(min_length=1, max_length=2000)] of [ChatMessage.content]. *)
Definition valid_content (c : string) : bool := ((1 <=? py_len c) && (py_len c <=? 2000))%nat.

(** [ChatMessage(role=..., content=...)]; [None] when pydantic raises its
    ValidationError. *)
Definition chat_message (role : string) (content : option string) : option ChatMessage :=
  match content with
  | Some c => if valid_content c then Some (mkMsg role (Some c)) else None
  | None => Some (mkMsg role None)
  end.

Record QuestionOption := mkOpt { opt_value : string; opt_label : string }.

(** [ChatResponse] without its [session_id]; [reply] is [ChatMessage | None]. *)
Record ChatResponse := mkResp {
  reply : option ChatMessage;
  options : option (list QuestionOption);
  question_type : option string;
  redirect_url : option string;
  isRegistered : bool }.

(** The dict [session.metadata["onboarding"]].  The first eight fields are
    the keys that [_get_onboarding_state] keeps; the others are written by
    [handle_message] during a turn (and stored with the state) but are not
    read back by [_get_onboarding_state]. *)
Record onboarding := {
  step : nat;
  awaiting_answer : bool;
  awaiting_registration_confirmation : bool;
  ob_responses : responses;
  complete : bool;
  last_answer : option nval;
  last_field : option string;
  first_question_shown : bool;
  recommendations_shown : bool;
  recommended_product_titles : list string;
  previous_concern_followup_checked : bool;
  previous_concern_followup_response : option nval;
  should_ask_previous_concern_followup : bool;
  previous_concerns : list string;
  previous_products : list string;
  previous_concern_checked : bool;
  awaiting_previous_concern_response : bool;
  previous_concern_resolved : option bool;
  awaiting_login_check : bool }.

(** [onboarding_state[key] = v] *)
Definition set_step (v : nat) (st : onboarding) : onboarding :=
  {| step := v; awaiting_answer := st.(awaiting_answer); awaiting_registration_confirmation :=
     st.(awaiting_registration_confirmation); ob_responses := st.(ob_responses); complete :=
     st.(complete); last_answer := st.(last_answer); last_field := st.(last_field);
     first_question_shown := st.(first_question_shown); recommendations_shown :=
     st.(recommendations_shown); recommended_product_titles := st.(recommended_product_titles);
     previous_concern_followup_checked := st.(previous_concern_followup_checked);
     previous_concern_followup_response := st.(previous_concern_followup_response);
     should_ask_previous_concern_followup := st.(should_ask_previous_concern_followup);
     previous_concerns := st.(previous_concerns); previous_products := st.(previous_products);
     previous_concern_checked := st.(previous_concern_checked);
     awaiting_previous_concern_response := st.(awaiting_previous_concern_response);
     previous_concern_resolved := st.(previous_concern_resolved); awaiting_login_check :=
     st.(awaiting_login_check) |}.

Definition set_awaiting_answer (v : bool) (st : onboarding) : onboarding :=
  {| step := st.(step); awaiting_answer := v; awaiting_registration_confirmation :=
     st.(awaiting_registration_confirmation); ob_responses := st.(ob_responses); complete :=
     st.(complete); last_answer := st.(last_answer); last_field := st.(last_field);
     first_question_shown := st.(first_question_shown); recommendations_shown :=
     st.(recommendations_shown); recommended_product_titles := st.(recommended_product_titles);
     previous_concern_followup_checked := st.(previous_concern_followup_checked);
     previous_concern_followup_response := st.(previous_concern_followup_response);
     should_ask_previous_concern_followup := st.(should_ask_previous_concern_followup);
     previous_concerns := st.(previous_concerns); previous_products := st.(previous_products);
     previous_concern_checked := st.(previous_concern_checked);
     awaiting_previous_concern_response := st.(awaiting_previous_concern_response);
     previous_concern_resolved := st.(previous_concern_resolved); awaiting_login_check :=
     st.(awaiting_login_check) |}.

Definition set_awaiting_registration_confirmation (v : bool) (st : onboarding) : onboarding :=
  {| step := st.(step); awaiting_answer := st.(awaiting_answer);
     awaiting_registration_confirmation := v; ob_responses := st.(ob_responses); complete :=
     st.(complete); last_answer := st.(last_answer); last_field := st.(last_field);
     first_question_shown := st.(first_question_shown); recommendations_shown :=
     st.(recommendations_shown); recommended_product_titles := st.(recommended_product_titles);
     previous_concern_followup_checked := st.(previous_concern_followup_checked);
     previous_concern_followup_response := st.(previous_concern_followup_response);
     should_ask_previous_concern_followup := st.(should_ask_previous_concern_followup);
     previous_concerns := st.(previous_concerns); previous_products := st.(previous_products);
     previous_concern_checked := st.(previous_concern_checked);
     awaiting_previous_concern_response := st.(awaiting_previous_concern_response);
     previous_concern_resolved := st.(previous_concern_resolved); awaiting_login_check :=
     st.(awaiting_login_check) |}.

Definition set_ob_responses (v : responses) (st : onboarding) : onboarding :=
  {| step := st.(step); awaiting_answer := st.(awaiting_answer);
     awaiting_registration_confirmation := st.(awaiting_registration_confirmation); ob_responses
     := v; complete := st.(complete); last_answer := st.(last_answer); last_field :=
     st.(last_field); first_question_shown := st.(first_question_shown); recommendations_shown
     := st.(recommendations_shown); recommended_product_titles :=
     st.(recommended_product_titles); previous_concern_followup_checked :=
     st.(previous_concern_followup_checked); previous_concern_followup_response :=
     st.(previous_concern_followup_response); should_ask_previous_concern_followup :=
     st.(should_ask_previous_concern_followup); previous_concerns := st.(previous_concerns);
     previous_products := st.(previous_products); previous_concern_checked :=
     st.(previous_concern_checked); awaiting_previous_concern_response :=
     st.(awaiting_previous_concern_response); previous_concern_resolved :=
     st.(previous_concern_resolved); awaiting_login_check := st.(awaiting_login_check) |}.

Definition set_complete (v : bool) (st : onboarding) : onboarding :=
  {| step := st.(step); awaiting_answer := st.(awaiting_answer);
     awaiting_registration_confirmation := st.(awaiting_registration_confirmation); ob_responses
     := st.(ob_responses); complete := v; last_answer := st.(last_answer); last_field :=
     st.(last_field); first_question_shown := st.(first_question_shown); recommendations_shown
     := st.(recommendations_shown); recommended_product_titles :=
     st.(recommended_product_titles); previous_concern_followup_checked :=
     st.(previous_concern_followup_checked); previous_concern_followup_response :=
     st.(previous_concern_followup_response); should_ask_previous_concern_followup :=
     st.(should_ask_previous_concern_followup); previous_concerns := st.(previous_concerns);
     previous_products := st.(previous_products); previous_concern_checked :=
     st.(previous_concern_checked); awaiting_previous_concern_response :=
     st.(awaiting_previous_concern_response); previous_concern_resolved :=
     st.(previous_concern_resolved); awaiting_login_check := st.(awaiting_login_check) |}.

Definition set_last_answer (v : option nval) (st : onboarding) : onboarding :=
  {| step := st.(step); awaiting_answer := st.(awaiting_answer);
     awaiting_registration_confirmation := st.(awaiting_registration_confirmation); ob_responses
     := st.(ob_responses); complete := st.(complete); last_answer := v; last_field :=
     st.(last_field); first_question_shown := st.(first_question_shown); recommendations_shown
     := st.(recommendations_shown); recommended_product_titles :=
     st.(recommended_product_titles); previous_concern_followup_checked :=
     st.(previous_concern_followup_checked); previous_concern_followup_response :=
     st.(previous_concern_followup_response); should_ask_previous_concern_followup :=
     st.(should_ask_previous_concern_followup); previous_concerns := st.(previous_concerns);
     previous_products := st.(previous_products); previous_concern_checked :=
     st.(previous_concern_checked); awaiting_previous_concern_response :=
     st.(awaiting_previous_concern_response); previous_concern_resolved :=
     st.(previous_concern_resolved); awaiting_login_check := st.(awaiting_login_check) |}.

Definition set_last_field (v : option string) (st : onboarding) : onboarding :=
  {| step := st.(step); awaiting_answer := st.(awaiting_answer);
     awaiting_registration_confirmation := st.(awaiting_registration_confirmation); ob_responses
     := st.(ob_responses); complete := st.(complete); last_answer := st.(last_answer);
     last_field := v; first_question_shown := st.(first_question_shown); recommendations_shown
     := st.(recommendations_shown); recommended_product_titles :=
     st.(recommended_product_titles); previous_concern_followup_checked :=
     st.(previous_concern_followup_checked); previous_concern_followup_response :=
     st.(previous_concern_followup_response); should_ask_previous_concern_followup :=
     st.(should_ask_previous_concern_followup); previous_concerns := st.(previous_concerns);
     previous_products := st.(previous_products); previous_concern_checked :=
     st.(previous_concern_checked); awaiting_previous_concern_response :=
     st.(awaiting_previous_concern_response); previous_concern_resolved :=
     st.(previous_concern_resolved); awaiting_login_check := st.(awaiting_login_check) |}.

Definition set_first_question_shown (v : bool) (st : onboarding) : onboarding :=
  {| step := st.(step); awaiting_answer := st.(awaiting_answer);
     awaiting_registration_confirmation := st.(awaiting_registration_confirmation); ob_responses
     := st.(ob_responses); complete := st.(complete); last_answer := st.(last_answer);
     last_field := st.(last_field); first_question_shown := v; recommendations_shown :=
     st.(recommendations_shown); recommended_product_titles := st.(recommended_product_titles);
     previous_concern_followup_checked := st.(previous_concern_followup_checked);
     previous_concern_followup_response := st.(previous_concern_followup_response);
     should_ask_previous_concern_followup := st.(should_ask_previous_concern_followup);
     previous_concerns := st.(previous_concerns); previous_products := st.(previous_products);
     previous_concern_checked := st.(previous_concern_checked);
     awaiting_previous_concern_response := st.(awaiting_previous_concern_response);
     previous_concern_resolved := st.(previous_concern_resolved); awaiting_login_check :=
     st.(awaiting_login_check) |}.

Definition set_recommendations_shown (v : bool) (st : onboarding) : onboarding :=
  {| step := st.(step); awaiting_answer := st.(awaiting_answer);
     awaiting_registration_confirmation := st.(awaiting_registration_confirmation); ob_responses
     := st.(ob_responses); complete := st.(complete); last_answer := st.(last_answer);
     last_field := st.(last_field); first_question_shown := st.(first_question_shown);
     recommendations_shown := v; recommended_product_titles := st.(recommended_product_titles);
     previous_concern_followup_checked := st.(previous_concern_followup_checked);
     previous_concern_followup_response := st.(previous_concern_followup_response);
     should_ask_previous_concern_followup := st.(should_ask_previous_concern_followup);
     previous_concerns := st.(previous_concerns); previous_products := st.(previous_products);
     previous_concern_checked := st.(previous_concern_checked);
     awaiting_previous_concern_response := st.(awaiting_previous_concern_response);
     previous_concern_resolved := st.(previous_concern_resolved); awaiting_login_check :=
     st.(awaiting_login_check) |}.

Definition set_recommended_product_titles (v : list string) (st : onboarding) : onboarding :=
  {| step := st.(step); awaiting_answer := st.(awaiting_answer);
     awaiting_registration_confirmation := st.(awaiting_registration_confirmation); ob_responses
     := st.(ob_responses); complete := st.(complete); last_answer := st.(last_answer);
     last_field := st.(last_field); first_question_shown := st.(first_question_shown);
     recommendations_shown := st.(recommendations_shown); recommended_product_titles := v;
     previous_concern_followup_checked := st.(previous_concern_followup_checked);
     previous_concern_followup_response := st.(previous_concern_followup_response);
     should_ask_previous_concern_followup := st.(should_ask_previous_concern_followup);
     previous_concerns := st.(previous_concerns); previous_products := st.(previous_products);
     previous_concern_checked := st.(previous_concern_checked);
     awaiting_previous_concern_response := st.(awaiting_previous_concern_response);
     previous_concern_resolved := st.(previous_concern_resolved); awaiting_login_check :=
     st.(awaiting_login_check) |}.

Definition set_previous_concern_followup_checked (v : bool) (st : onboarding) : onboarding :=
  {| step := st.(step); awaiting_answer := st.(awaiting_answer);
     awaiting_registration_confirmation := st.(awaiting_registration_confirmation); ob_responses
     := st.(ob_responses); complete := st.(complete); last_answer := st.(last_answer);
     last_field := st.(last_field); first_question_shown := st.(first_question_shown);
     recommendations_shown := st.(recommendations_shown); recommended_product_titles :=
     st.(recommended_product_titles); previous_concern_followup_checked := v;
     previous_concern_followup_response := st.(previous_concern_followup_response);
     should_ask_previous_concern_followup := st.(should_ask_previous_concern_followup);
     previous_concerns := st.(previous_concerns); previous_products := st.(previous_products);
     previous_concern_checked := st.(previous_concern_checked);
     awaiting_previous_concern_response := st.(awaiting_previous_concern_response);
     previous_concern_resolved := st.(previous_concern_resolved); awaiting_login_check :=
     st.(awaiting_login_check) |}.

Definition set_previous_concern_followup_response (v : option nval) (st : onboarding) : onboarding :=
  {| step := st.(step); awaiting_answer := st.(awaiting_answer);
     awaiting_registration_confirmation := st.(awaiting_registration_confirmation); ob_responses
     := st.(ob_responses); complete := st.(complete); last_answer := st.(last_answer);
     last_field := st.(last_field); first_question_shown := st.(first_question_shown);
     recommendations_shown := st.(recommendations_shown); recommended_product_titles :=
     st.(recommended_product_titles); previous_concern_followup_checked :=
     st.(previous_concern_followup_checked); previous_concern_followup_response := v;
     should_ask_previous_concern_followup := st.(should_ask_previous_concern_followup);
     previous_concerns := st.(previous_concerns); previous_products := st.(previous_products);
     previous_concern_checked := st.(previous_concern_checked);
     awaiting_previous_concern_response := st.(awaiting_previous_concern_response);
     previous_concern_resolved := st.(previous_concern_resolved); awaiting_login_check :=
     st.(awaiting_login_check) |}.

Definition set_should_ask_previous_concern_followup (v : bool) (st : onboarding) : onboarding :=
  {| step := st.(step); awaiting_answer := st.(awaiting_answer);
     awaiting_registration_confirmation := st.(awaiting_registration_confirmation); ob_responses
     := st.(ob_responses); complete := st.(complete); last_answer := st.(last_answer);
     last_field := st.(last_field); first_question_shown := st.(first_question_shown);
     recommendations_shown := st.(recommendations_shown); recommended_product_titles :=
     st.(recommended_product_titles); previous_concern_followup_checked :=
     st.(previous_concern_followup_checked); previous_concern_followup_response :=
     st.(previous_concern_followup_response); should_ask_previous_concern_followup := v;
     previous_concerns := st.(previous_concerns); previous_products := st.(previous_products);
     previous_concern_checked := st.(previous_concern_checked);
     awaiting_previous_concern_response := st.(awaiting_previous_concern_response);
     previous_concern_resolved := st.(previous_concern_resolved); awaiting_login_check :=
     st.(awaiting_login_check) |}.

Definition set_previous_concerns (v : list string) (st : onboarding) : onboarding :=
  {| step := st.(step); awaiting_answer := st.(awaiting_answer);
     awaiting_registration_confirmation := st.(awaiting_registration_confirmation); ob_responses
     := st.(ob_responses); complete := st.(complete); last_answer := st.(last_answer);
     last_field := st.(last_field); first_question_shown := st.(first_question_shown);
     recommendations_shown := st.(recommendations_shown); recommended_product_titles :=
     st.(recommended_product_titles); previous_concern_followup_checked :=
     st.(previous_concern_followup_checked); previous_concern_followup_response :=
     st.(previous_concern_followup_response); should_ask_previous_concern_followup :=
     st.(should_ask_previous_concern_followup); previous_concerns := v; previous_products :=
     st.(previous_products); previous_concern_checked := st.(previous_concern_checked);
     awaiting_previous_concern_response := st.(awaiting_previous_concern_response);
     previous_concern_resolved := st.(previous_concern_resolved); awaiting_login_check :=
     st.(awaiting_login_check) |}.

Definition set_previous_products (v : list string) (st : onboarding) : onboarding :=
  {| step := st.(step); awaiting_answer := st.(awaiting_answer);
     awaiting_registration_confirmation := st.(awaiting_registration_confirmation); ob_responses
     := st.(ob_responses); complete := st.(complete); last_answer := st.(last_answer);
     last_field := st.(last_field); first_question_shown := st.(first_question_shown);
     recommendations_shown := st.(recommendations_shown); recommended_product_titles :=
     st.(recommended_product_titles); previous_concern_followup_checked :=
     st.(previous_concern_followup_checked); previous_concern_followup_response :=
     st.(previous_concern_followup_response); should_ask_previous_concern_followup :=
     st.(should_ask_previous_concern_followup); previous_concerns := st.(previous_concerns);
     previous_products := v; previous_concern_checked := st.(previous_concern_checked);
     awaiting_previous_concern_response := st.(awaiting_previous_concern_response);
     previous_concern_resolved := st.(previous_concern_resolved); awaiting_login_check :=
     st.(awaiting_login_check) |}.

Definition set_previous_concern_checked (v : bool) (st : onboarding) : onboarding :=
  {| step := st.(step); awaiting_answer := st.(awaiting_answer);
     awaiting_registration_confirmation := st.(awaiting_registration_confirmation); ob_responses
     := st.(ob_responses); complete := st.(complete); last_answer := st.(last_answer);
     last_field := st.(last_field); first_question_shown := st.(first_question_shown);
     recommendations_shown := st.(recommendations_shown); recommended_product_titles :=
     st.(recommended_product_titles); previous_concern_followup_checked :=
     st.(previous_concern_followup_checked); previous_concern_followup_response :=
     st.(previous_concern_followup_response); should_ask_previous_concern_followup :=
     st.(should_ask_previous_concern_followup); previous_concerns := st.(previous_concerns);
     previous_products := st.(previous_products); previous_concern_checked := v;
     awaiting_previous_concern_response := st.(awaiting_previous_concern_response);
     previous_concern_resolved := st.(previous_concern_resolved); awaiting_login_check :=
     st.(awaiting_login_check) |}.

Definition set_awaiting_previous_concern_response (v : bool) (st : onboarding) : onboarding :=
  {| step := st.(step); awaiting_answer := st.(awaiting_answer);
     awaiting_registration_confirmation := st.(awaiting_registration_confirmation); ob_responses
     := st.(ob_responses); complete := st.(complete); last_answer := st.(last_answer);
     last_field := st.(last_field); first_question_shown := st.(first_question_shown);
     recommendations_shown := st.(recommendations_shown); recommended_product_titles :=
     st.(recommended_product_titles); previous_concern_followup_checked :=
     st.(previous_concern_followup_checked); previous_concern_followup_response :=
     st.(previous_concern_followup_response); should_ask_previous_concern_followup :=
     st.(should_ask_previous_concern_followup); previous_concerns := st.(previous_concerns);
     previous_products := st.(previous_products); previous_concern_checked :=
     st.(previous_concern_checked); awaiting_previous_concern_response := v;
     previous_concern_resolved := st.(previous_concern_resolved); awaiting_login_check :=
     st.(awaiting_login_check) |}.

Definition set_previous_concern_resolved (v : option bool) (st : onboarding) : onboarding :=
  {| step := st.(step); awaiting_answer := st.(awaiting_answer);
     awaiting_registration_confirmation := st.(awaiting_registration_confirmation); ob_responses
     := st.(ob_responses); complete := st.(complete); last_answer := st.(last_answer);
     last_field := st.(last_field); first_question_shown := st.(first_question_shown);
     recommendations_shown := st.(recommendations_shown); recommended_product_titles :=
     st.(recommended_product_titles); previous_concern_followup_checked :=
     st.(previous_concern_followup_checked); previous_concern_followup_response :=
     st.(previous_concern_followup_response); should_ask_previous_concern_followup :=
     st.(should_ask_previous_concern_followup); previous_concerns := st.(previous_concerns);
     previous_products := st.(previous_products); previous_concern_checked :=
     st.(previous_concern_checked); awaiting_previous_concern_response :=
     st.(awaiting_previous_concern_response); previous_concern_resolved := v;
     awaiting_login_check := st.(awaiting_login_check) |}.

Definition set_awaiting_login_check (v : bool) (st : onboarding) : onboarding :=
  {| step := st.(step); awaiting_answer := st.(awaiting_answer);
     awaiting_registration_confirmation := st.(awaiting_registration_confirmation); ob_responses
     := st.(ob_responses); complete := st.(complete); last_answer := st.(last_answer);
     last_field := st.(last_field); first_question_shown := st.(first_question_shown);
     recommendations_shown := st.(recommendations_shown); recommended_product_titles :=
     st.(recommended_product_titles); previous_concern_followup_checked :=
     st.(previous_concern_followup_checked); previous_concern_followup_response :=
     st.(previous_concern_followup_response); should_ask_previous_concern_followup :=
     st.(should_ask_previous_concern_followup); previous_concerns := st.(previous_concerns);
     previous_products := st.(previous_products); previous_concern_checked :=
     st.(previous_concern_checked); awaiting_previous_concern_response :=
     st.(awaiting_previous_concern_response); previous_concern_resolved :=
     st.(previous_concern_resolved); awaiting_login_check := v |}.

(** The part of a stored session the dialog reads and writes: its messages
    and the metadata keys [user_id], [is_registered],
    [has_previous_sessions] and [onboarding]. *)
Record session := mkSession {
  session_id : string;
  messages : list ChatMessage;
  md_user_id : option string;
  md_is_registered : option bool;
  md_has_previous_sessions : bool;
  md_onboarding : option onboarding }.

(** [session_repo.append_messages] *)
Definition append_messages (s : session) (msgs : list ChatMessage) : session :=
  {| session_id := s.(session_id); messages := (s.(messages) ++ msgs)%list;
     md_user_id := s.(md_user_id); md_is_registered := s.(md_is_registered);
     md_has_previous_sessions := s.(md_has_previous_sessions); md_onboarding := s.(md_onboarding) |}.

(** [session_repo.update_metadata(metadata={**session.metadata, "onboarding": st})] *)
Definition update_metadata (s : session) (st : onboarding) : session :=
  {| session_id := s.(session_id); messages := s.(messages);
     md_user_id := s.(md_user_id); md_is_registered := s.(md_is_registered);
     md_has_previous_sessions := s.(md_has_previous_sessions); md_onboarding := Some st |}.

(** [_get_onboarding_state] *)
Definition _get_onboarding_state (s : session) : onboarding :=
  match s.(md_onboarding) with
  | Some st =>
      {| step := st.(step); awaiting_answer := st.(awaiting_answer);
         awaiting_registration_confirmation := st.(awaiting_registration_confirmation);
         ob_responses := st.(ob_responses); complete := st.(complete);
         last_answer := st.(last_answer); last_field := st.(last_field);
         first_question_shown := st.(first_question_shown);
         recommendations_shown := false; recommended_product_titles := [];
         previous_concern_followup_checked := false; previous_concern_followup_response := None;
         should_ask_previous_concern_followup := false; previous_concerns := []; previous_products := [];
         previous_concern_checked := false; awaiting_previous_concern_response := false;
         previous_concern_resolved := None; awaiting_login_check := false |}
  | None =>
      {| step := 0%nat; awaiting_answer := false; awaiting_registration_confirmation := false;
         ob_responses := ∅; complete := false; last_answer := None; last_field := None;
         first_question_shown := false;
         recommendations_shown := false; recommended_product_titles := [];
         previous_concern_followup_checked := false; previous_concern_followup_response := None;
         should_ask_previous_concern_followup := false; previous_concerns := []; previous_products := [];
         previous_concern_checked := false; awaiting_previous_concern_response := false;
         previous_concern_resolved := None; awaiting_login_check := false |}
  end.

(** [_get_is_registered_from_session] *)
Definition _get_is_registered_from_session (s : session) : bool :=
  match s.(md_is_registered) with
  | Some b => b
  | None => match s.(md_user_id) with Some _ => true | None => false end
  end.

(** Truthiness of [user_id]. *)
Definition uid_truthy (uid : option string) : bool :=
  match uid with Some u => negb (String.eqb u "") | None => false end.

(** [ChatMessage(role="assistant", content=c)] *)
Definition assistant (c : string) : option ChatMessage := chat_message "assistant" (Some c).

Definition yes_no_options : list QuestionOption := [mkOpt "yes" "Yes"; mkOpt "no" "No"].

(** [CONCERN_QUESTIONS.get(c, {}).get("label", c.replace("_", " ").title()).lower()] *)
Definition concern_label_lower (c : string) : string :=
  lower (match assoc c CONCERN_QUESTIONS with
         | Some (label, _) => label
         | None => str_title (replace "_" " " c)
         end).

(** [s[-n:]] *)
Definition last_n {A} (n : nat) (l : list A) : list A :=
  if (n =? 0)%nat then l else skipn (length l - n) l.

Section Dialog.

Variable _question_by_key : string -> string -> responses -> option string.
Variable _build_prompt : string -> responses -> string.
Variable _friendly_question : string -> nat -> option nval -> option string -> responses -> string.
Variable _get_question_options : string -> option (list QuestionOption) * option string.
Variable _get_empathetic_acknowledgment : string -> nval -> responses -> option string.
(** Reads of the user's other sessions: the arguments are the user id and
    the current session id. *)
Variable _check_if_major_concern_same : string -> string -> list string -> bool.
Variable _get_previous_session_concerns_and_products : string -> string -> list string * list string.
(** [product_service.find_relevant_products] (for instance
    [Catalog.find_relevant_products] over a product repository); it catches
    its own exceptions. *)
Variable find_relevant_products : option string -> responses -> option nat -> list string ->
  option (list string) -> list Product * gmap string doc.
Variable _format_product_recommendations : list Product -> responses -> gmap string doc ->
  option bool -> list string -> list string -> string.
(** [ai_service.generate_reply]; [None] when it raises. *)
Variable generate_reply : list ChatMessage -> string -> responses -> list Product -> option string.
Variable max_history_turns product_context_limit : nat.
(** Iteration order of the Python set [set(previous) & set(current)]. *)
Variable set_intersection_order : list string -> list string -> list string.

(** The three [find_relevant_products] calls after the interview (shared by
    the [medical_treatment] branch and the completion branch). *)
Definition find_recommendations (profile_context : responses) (previous_products : list string)
    (previous_concern_resolved : option bool) : list Product * gmap string doc :=
  let resolved_false := match previous_concern_resolved with Some false => true | _ => false end in
  let '(ps, docs) := find_relevant_products None profile_context (Some 10%nat)
                       (if resolved_false then previous_products else []) None in
  let '(ps, docs) :=
    if bool_decide (ps = []) && negb (bool_decide (previous_products = [])) && resolved_false
    then find_relevant_products None profile_context (Some 3%nat) [] (Some previous_products)
    else (ps, docs) in
  if bool_decide (ps = []) then find_relevant_products None profile_context (Some 3%nat) [] None
  else (ps, docs).

(** Lines 1107-1207: recommendations after a completed interview. *)
Definition show_recommendations (s : session) (uid : option string) (is_registered : bool)
    (st : onboarding) : session * option ChatResponse :=
  let profile_context := st.(ob_responses) in
  let previous_products := st.(previous_products) in
  let previous_concern_resolved := st.(previous_concern_resolved) in
  let previous_concerns := st.(previous_concerns) in
  let '(recommended_products, product_documents) :=
    find_recommendations profile_context previous_products previous_concern_resolved in
  let recommendation_message :=
    _format_product_recommendations recommended_products profile_context product_documents
      previous_concern_resolved previous_concerns
      (match previous_concern_resolved with Some false => previous_products | _ => [] end) in
  match assistant recommendation_message with
  | None => (s, None)
  | Some recommendation_reply =>
      let s := append_messages s [recommendation_reply] in
      let st := set_complete true st in
      let st := set_recommendations_shown true st in
      let st := set_recommended_product_titles (map p_title recommended_products) st in
      let s := update_metadata s st in
      (s, Some (mkResp (Some recommendation_reply) None None None is_registered))
  end.

(** Lines 960-1207: the interview has no step left. *)
Definition finish_onboarding (s : session) (message : string) (user_message : ChatMessage)
    (uid : option string) (is_registered : bool) (st : onboarding)
    : session * option ChatResponse :=
  let st := set_complete true st in
  let s := update_metadata s st in
  let '(s, st) := if st.(awaiting_login_check)
                  then let st := set_awaiting_login_check false st in (update_metadata s st, st)
                  else (s, st) in
  let has_previous_sessions := s.(md_has_previous_sessions) in
  let checked :=
    match uid with
    | Some u =>
        if has_previous_sessions && negb (String.eqb u "") && negb st.(previous_concern_checked) then
          let '(previous_concerns, previous_products) :=
            _get_previous_session_concerns_and_products u s.(session_id) in
          let current_concerns := _normalize_concerns (st.(ob_responses) !! "concern") in
          if negb (bool_decide (previous_concerns = [])) && negb (bool_decide (current_concerns = [])) then
            let concerns_overlap := set_intersection_order previous_concerns current_concerns in
            if negb (bool_decide (concerns_overlap = [])) then
              let concerns_text := join ", " (map concern_label_lower concerns_overlap) in
              let products_text := if bool_decide (previous_products = []) then ""
                                   else " (including " ++ join ", " (firstn 2 previous_products) ++ ")" in
              let question_message :=
                "I notice you're still experiencing " ++ concerns_text ++ " concerns. "
                ++ "Having taken the previous recommended products" ++ products_text
                ++ ", has the issue been resolved? " ++ "Please answer yes or no." in
              let st := set_previous_concern_checked true st in
              let st := set_awaiting_previous_concern_response true st in
              let st := set_previous_concerns concerns_overlap st in
              let st := set_previous_products previous_products st in
              let s := update_metadata s st in
              match assistant question_message with
              | None => inl (s, None)
              | Some question_reply =>
                  let s := append_messages s [user_message; question_reply] in
                  inl (s, Some (mkResp (Some question_reply) (Some yes_no_options) (Some "yes_no") None is_registered))
              end
            else inr st
          else if negb (bool_decide (previous_concerns = [])) then
            let concerns_text := join ", " (map concern_label_lower previous_concerns) in
            let question_message :=
              "I see you previously had concerns about " ++ concerns_text ++ ". "
              ++ "Have those issues been resolved? Please answer yes or no." in
            let st := set_previous_concern_checked true st in
            let st := set_awaiting_previous_concern_response true st in
            let st := set_previous_concerns previous_concerns st in
            let s := update_metadata s st in
            match assistant question_message with
            | None => inl (s, None)
            | Some question_reply =>
                let s := append_messages s [user_message; question_reply] in
                inl (s, Some (mkResp (Some question_reply) (Some yes_no_options) (Some "yes_no") None is_registered))
            end
          else inr (set_previous_concern_checked true st)
        else inr st
    | None => inr st
    end in
  match checked with
  | inl result => result
  | inr st =>
      if st.(awaiting_previous_concern_response) then
        let user_response_lower := lower (strip message) in
        let answered :=
          if str_in user_response_lower ["yes"; "yep"; "yeah"; "y"] then
            Some (set_awaiting_previous_concern_response false (set_previous_concern_resolved (Some true) st))
          else if str_in user_response_lower ["no"; "nope"; "nah"; "n"] then
            Some (set_awaiting_previous_concern_response false (set_previous_concern_resolved (Some false) st))
          else None in
        match answered with
        | None =>
            match assistant "Please answer 'yes' or 'no'. Has the previous issue been resolved?" with
            | None => (s, None)
            | Some error_reply =>
                let s := append_messages s [user_message; error_reply] in
                let s := update_metadata s st in
                (s, Some (mkResp (Some error_reply) (Some yes_no_options) (Some "yes_no") None is_registered))
            end
        | Some st =>
            let s := append_messages s [user_message] in
            let s := update_metadata s st in
            show_recommendations s uid is_registered st
        end
      else show_recommendations s uid is_registered st
  end.

(** Lines 816-894: the answer to [medical_treatment] has been saved. *)
Definition medical_treatment_answered (s : session) (user_message : ChatMessage)
    (is_registered : bool) (st : onboarding) : session * option ChatResponse :=
  let st := set_complete true st in
  let s := append_messages s [user_message] in
  let profile_context := st.(ob_responses) in
  let previous_products := st.(previous_products) in
  let previous_concern_resolved := st.(previous_concern_resolved) in
  let previous_concerns := st.(previous_concerns) in
  let '(recommended_products, product_documents) :=
    find_recommendations profile_context previous_products previous_concern_resolved in
  let appended :=
    if negb (bool_decide (recommended_products = [])) then
      let recommendation_message :=
        _format_product_recommendations recommended_products profile_context product_documents
          previous_concern_resolved previous_concerns
          (match previous_concern_resolved with Some false => previous_products | _ => [] end) in
      match assistant recommendation_message with
      | None => None
      | Some recommendation_reply => Some (append_messages s [recommendation_reply])
      end
    else Some s in
  match appended with
  | None => (s, None)
  | Some s =>
      let st := set_recommendations_shown true st in
      let st := set_recommended_product_titles (map p_title recommended_products) st in
      let s := update_metadata s st in
      (s, Some (mkResp None None None None is_registered))
  end.

(** Lines 896-1207: the previous-concern check, then the next question or
    the end of the interview. *)
Definition ask_next_or_finish (s : session) (message : string) (user_message : ChatMessage)
    (uid : option string) (is_registered : bool) (has_previous_sessions : bool)
    (acknowledgment : option string) (st : onboarding) : session * option ChatResponse :=
  let '(should_ask, st) :=
    match uid with
    | Some u =>
        if negb (String.eqb u "") && has_previous_sessions && negb st.(previous_concern_followup_checked) then
          let current_concerns := _normalize_concerns (st.(ob_responses) !! "concern") in
          if negb (bool_decide (current_concerns = [])) then
            let b := _check_if_major_concern_same u s.(session_id) current_concerns in
            (b, set_should_ask_previous_concern_followup b st)
          else (st.(should_ask_previous_concern_followup), st)
        else (st.(should_ask_previous_concern_followup), st)
    | None => (st.(should_ask_previous_concern_followup), st)
    end in
  match _ordered_steps st.(ob_responses) has_previous_sessions should_ask with
  | None => (s, None)
  | Some ordered_steps =>
      match nth_error ordered_steps st.(step) with
      | Some next_field =>
          let next_prompt := _build_prompt next_field st.(ob_responses) in
          let question_content := _friendly_question next_prompt st.(step) st.(last_answer)
                                    st.(last_field) st.(ob_responses) in
          let reply_content := match acknowledgment with
                               | Some a => if String.eqb a "" then question_content
                                           else a ++ String "010" (String "010" question_content)
                               | None => question_content
                               end in
          match assistant reply_content with
          | None => (s, None)
          | Some rep =>
              let st := set_awaiting_answer true st in
              let '(opts, qtype) := _get_question_options next_field in
              let s := append_messages s [user_message; rep] in
              let s := update_metadata s st in
              (s, Some (mkResp (Some rep) opts qtype None is_registered))
          end
      | None => finish_onboarding s message user_message uid is_registered st
      end
  end.

(** Lines 1209-1348: free chat once the interview is over. *)
Definition free_chat (s : session) (history : list ChatMessage) (message : string)
    (context : option responses) (user_message : ChatMessage) (is_registered : bool) (st : onboarding)
    : session * option ChatResponse :=
  let profile_context := st.(ob_responses) in
  let combined_context := match context with
                          | Some c => c ∪ profile_context
                          | None => profile_context
                          end in
  let trimmed_history := last_n (max_history_turns * 2) history in
  let '(products, _) := find_relevant_products (Some message) combined_context
                          (Some product_context_limit) [] None in
  match generate_reply trimmed_history message combined_context products with
  | None => (s, None)
  | Some reply_text =>
      match assistant reply_text with
      | None => (s, None)
      | Some assistant_message =>
          let s := append_messages s [user_message; assistant_message] in
          (s, Some (mkResp (Some assistant_message) None None None is_registered))
      end
  end.

Definition registration_message : string :=
  "I understand you'd like to get recommendations for a family member. "
  ++ "For the best personalized experience, I'd recommend creating a separate registration "
  ++ "for your family member at https://viteezy.nl/login so they can have their own "
  ++ "personalized product recommendations." ++ String "010" (String "010" "")
  ++ "Would you like to do that?".

(** Lines 709-894: validate and store the answer to the current field.
    [inl] is the end of the turn, [inr] continues with the next question. *)
Definition answer_current_field (s : session) (message : string) (user_message : ChatMessage)
    (uid : option string) (is_registered : bool) (current_field : string) (st : onboarding)
    : (session * option ChatResponse) + (session * onboarding * option string) :=
  let '(is_valid, normalized, error_reply) :=
    _validate_response _question_by_key current_field (strip message) st.(ob_responses) in
  if negb is_valid then
    match assistant error_reply with
    | None => inl (s, None)
    | Some rep =>
        let '(opts, qtype) := _get_question_options current_field in
        let s := append_messages s [user_message; rep] in
        let s := update_metadata s st in
        inl (s, Some (mkResp (Some rep) opts qtype None is_registered))
    end
  else
    match _save_response current_field normalized st.(ob_responses) with
    | None => inl (s, None)
    | Some r =>
        let st := set_ob_responses r st in
        let st := set_last_answer (Some normalized) st in
        let st := set_last_field (Some current_field) st in
        if String.eqb current_field "for_whom"
           && match normalized with NStr v => String.eqb v "family" | NList _ => false end then
          match assistant registration_message with
          | None => inl (s, None)
          | Some rep =>
              let st := set_awaiting_registration_confirmation true st in
              let st := set_awaiting_answer false st in
              let s := append_messages s [user_message; rep] in
              let s := update_metadata s st in
              inl (s, Some (mkResp (Some rep) (Some yes_no_options) (Some "yes_no") None false))
          end
        else
          let st := set_step (S st.(step)) st in
          let st := set_awaiting_answer false st in
          let acknowledgment := _get_empathetic_acknowledgment current_field normalized st.(ob_responses) in
          let '(s, st) :=
            if String.eqb current_field "previous_concern_followup" then
              let st := set_previous_concern_followup_checked true st in
              let st := set_previous_concern_followup_response (Some normalized) st in
              let st := set_ob_responses (<["previous_concern_followup" := rval_of normalized]> st.(ob_responses)) st in
              let st := match uid with
                        | Some u => if String.eqb u "" then st else
                            let '(pc, pp) := _get_previous_session_concerns_and_products u s.(session_id) in
                            set_previous_products pp (set_previous_concerns pc st)
                        | None => st
                        end in
              (update_metadata s st, st)
            else (s, st) in
          if String.eqb current_field "medical_treatment" then
            inl (medical_treatment_answered s user_message is_registered st)
          else inr (s, st, acknowledgment)
    end.

(** [ChatService.handle_message] on an existing session: the session after
    the turn's writes, and the response ([None] when an exception escapes). *)
Definition handle_message (s : session) (message : string) (context : option responses)
    : session * option ChatResponse :=
  let uid := s.(md_user_id) in
  let is_registered := _get_is_registered_from_session s in
  match chat_message "user" (Some message) with
  | None => (s, None)
  | Some user_message =>
  let st := _get_onboarding_state s in
  let has_previous_sessions := s.(md_has_previous_sessions) in
  let history := s.(messages) in
  let first :=
    if (length s.(messages) =? 0)%nat && negb st.(complete) && negb st.(first_question_shown)
       && (st.(step) =? 0)%nat && negb st.(awaiting_answer) then
      match _ordered_steps st.(ob_responses) has_previous_sessions false with
      | None => Some (s, None)
      | Some [] => None
      | Some (first_field :: _) =>
          let first_prompt := _build_prompt first_field st.(ob_responses) in
          let question_content := _friendly_question first_prompt 0%nat None None st.(ob_responses) in
          let s := append_messages s [user_message] in
          match assistant question_content with
          | None => Some (s, None)
          | Some first_reply =>
              let '(opts, qtype) := _get_question_options first_field in
              let st := set_step 0%nat st in
              let st := set_awaiting_answer true st in
              let s := append_messages s [first_reply] in
              let s := update_metadata s st in
              Some (s, Some (mkResp (Some first_reply) opts qtype None is_registered))
          end
      end
    else None in
  match first with
  | Some result => result
  | None =>
  if st.(complete) && st.(recommendations_shown) then
    match assistant "Thank you for completing the quiz! Your personalized recommendations have been provided above. If you have any questions, please feel free to reach out to our support team. Have a great day! 😊" with
    | None => (s, None)
    | Some end_message =>
        let s := append_messages s [user_message; end_message] in
        (s, Some (mkResp (Some end_message) None None None is_registered))
    end
  else
  match _ordered_steps st.(ob_responses) has_previous_sessions false with
  | None => (s, None)
  | Some ordered_steps =>
      let registration :=
        if st.(awaiting_registration_confirmation) then
          let user_response_lower := lower (strip message) in
          if str_in user_response_lower ["okay"; "ok"; "yes"; "yep"; "yeah"; "sure"; "alright"; "y"] then
            match assistant "Perfect! I'll redirect you to create a separate registration. This will give your family member the best personalized experience! 🎯" with
            | None => inl (s, None)
            | Some rep =>
                let s := append_messages s [user_message; rep] in
                let st := set_awaiting_registration_confirmation false st in
                let s := update_metadata s st in
                inl (s, Some (mkResp (Some rep) None None (Some "https://viteezy.nl/login") is_registered))
            end
          else if str_in user_response_lower ["no"; "nope"; "nah"; "n"] then
            let st := set_awaiting_registration_confirmation false st in
            let st := set_step (S st.(step)) st in
            let st := set_awaiting_answer false st in
            let s := append_messages s [user_message] in
            let s := update_metadata s st in
            inr (s, st, Some "No problem! Let's continue with the quiz for your family member here. 😊")
          else
            match assistant "Please choose 'Yes' to redirect to registration or 'No' to continue here." with
            | None => inl (s, None)
            | Some error_reply =>
                let s := append_messages s [user_message; error_reply] in
                let s := update_metadata s st in
                inl (s, Some (mkResp (Some error_reply) (Some yes_no_options) (Some "yes_no") None is_registered))
            end
        else inr (s, st, None) in
      match registration with
      | inl result => result
      | inr (s, st, acknowledgment) =>
          if (st.(step) <? length ordered_steps)%nat then
            let answered :=
              if st.(awaiting_answer) then
                match nth_error ordered_steps st.(step) with
                | Some current_field =>
                    answer_current_field s message user_message uid is_registered current_field st
                | None => inr (s, st, acknowledgment)
                end
              else inr (s, st, acknowledgment) in
            match answered with
            | inl result => result
            | inr (s, st, acknowledgment) =>
                ask_next_or_finish s message user_message uid is_registered has_previous_sessions
                  acknowledgment st
            end
          else free_chat s history message context user_message is_registered st
      end
  end
  end
  end.

End Dialog.

End Chat.

(* ------------------------------------------------------------------ *)
(** ** Definitions the properties are stated with *)

(** The items of [l] in order of first appearance, each once ([seen]: the
    items already kept). *)
Fixpoint dedup_first_aux (seen : list string) (l : list string) : list string :=
  match l with
  | [] => []
  | x :: t => if str_in x seen then dedup_first_aux seen t
              else x :: dedup_first_aux (seen ++ [x]) t
  end.

Definition dedup_first (l : list string) : list string := dedup_first_aux [] l.

(** The canonical concerns that the [re.finditer] scan of
    [_extract_concern_tokens] meets, in text order, repeats included. *)
Fixpoint scan_mentions (prev : option ascii) (skip : nat) (s : string) : list string :=
  match s with
  | EmptyString => []
  | String c t =>
      match skip with
      | S k => scan_mentions (Some c) k t
      | O =>
          match match_key synonym_pattern_keys prev s with
          | Some key =>
              match assoc key CONCERN_SYNONYMS with
              | Some canon => [canon]
              | None => []
              end ++ scan_mentions (Some c) (String.length key - 1) t
          | None => scan_mentions (Some c) 0 t
          end
      end
  end.

(** The canonical concerns one comma-separated part of the answer mentions:
    its own synonym, or those found in its text. *)
Definition part_mentions (part : string) : list string :=
  match assoc part CONCERN_SYNONYMS with
  | Some canonical => [canonical]
  | None => if String.eqb part "" then [] else scan_mentions None 0 part
  end.

(** The canonical concerns an answer mentions, in order: part by part, or,
    when no part mentions one, in the whole normalised text. *)
Definition concern_mentions (raw : string) : list string :=
  if String.eqb raw "" then [] else
  let normalized := concern_normalize_text raw in
  match flat_map part_mentions (concern_parts normalized) with
  | [] => if String.eqb normalized "" then [] else scan_mentions None 0 normalized
  | l => l
  end.

(** The [gender] part of [_ordered_steps]: the steps it adds after the
    prefix ([None] when a read raises). *)
Definition gender_segment (r : responses) : option (list string) :=
  gender ← get_lower r "gender";
  if str_in gender female_genders then
    conceive ← get_lower r "conceive";
    Some ("conceive" :: (if String.eqb conceive "yes" then ["situation"] else []))
  else Some (if String.eqb gender "male" then ["children"] else []).

(** The steps of [_ordered_steps] before the gender part. *)
Definition steps_prefix (has_previous_sessions family me : bool) : list string :=
  (let hp := has_previous_sessions in
  let steps := (if hp then [] else ["name"]) ++ ["for_whom"] in
  let steps := if family then steps ++ ["family_name"; "relation"] else steps in
  let steps := steps ++ ["age"] in
  if hp && me then steps ++ ["protein"]
  else
    let steps := if hp then steps else steps ++ ["email"; "knowledge"; "vitamin_count"] in
    let steps := steps ++ ["protein"] in
    if hp then steps else steps ++ ["gender"])%list.

(** The steps of [_ordered_steps] from [concern] on, after [steps]. *)
Definition steps_rest (steps concerns : list string) (veg drinks sa : bool) : list string :=
  (let steps := steps ++ ["concern"] in
  let steps := steps ++ _concern_followup_steps concerns in
  let steps := steps ++ ["lifestyle_status"; "fruit_intake"; "vegetable_intake";
                         "dairy_intake"; "fiber_intake"; "protein_intake"; "eating_habits"] in
  let steps := if veg then steps else steps ++ ["meat_intake"; "fish_intake"] in
  let steps := steps ++ ["drinks_alcohol"] in
  let steps := if drinks then steps ++ ["alcohol_daily"; "alcohol_weekly"] else steps in
  let steps := steps ++ ["coffee_intake"; "smokes"] in
  let steps := steps ++ ["allergies"; "dietary_preferences"; "sunlight_exposure";
                         "iron_advised"; "ayurveda_view"; "new_product_attitude"] in
  let steps := if sa then steps ++ ["previous_concern_followup"] else steps in
  steps ++ ["medical_treatment"])%list.

(** The steps after the concern follow-ups. *)
Definition steps_tail (veg drinks sa : bool) : list string :=
  (["lifestyle_status"; "fruit_intake"; "vegetable_intake"; "dairy_intake"; "fiber_intake";
    "protein_intake"; "eating_habits"]
   ++ (if veg then [] else ["meat_intake"; "fish_intake"]) ++ ["drinks_alcohol"]
   ++ (if drinks then ["alcohol_daily"; "alcohol_weekly"] else [])
   ++ ["coffee_intake"; "smokes"; "allergies"; "dietary_preferences"; "sunlight_exposure";
       "iron_advised"; "ayurveda_view"; "new_product_attitude"]
   ++ (if sa then ["previous_concern_followup"] else []) ++ ["medical_treatment"])%list.

(** The response keys [_ordered_steps] reads. *)
Definition read_keys : list string :=
  ["for_whom"; "gender"; "conceive"; "concern"; "eating_habits"; "drinks_alcohol"].

Import Chat.

(** The part of an onboarding state the interview invariant is about. *)
Record core_t := mkCore {
  c_step : nat; c_awaiting : bool; c_registration : bool; c_responses : responses; c_complete : bool }.

Definition core (st : onboarding) : core_t :=
  mkCore st.(step) st.(awaiting_answer) st.(awaiting_registration_confirmation)
    st.(ob_responses) st.(complete).

(** The stored state of a session as [handle_message] loads it, with the
    session's [has_previous_sessions]. *)
Definition summary (s : session) : bool * core_t :=
  (s.(md_has_previous_sessions), core (_get_onboarding_state s)).

(** The interview invariant: the cursor stays within the step list (strictly
    while a registration confirmation is pending, at its end once complete),
    and a complete interview awaits no answer. *)
Definition core_ok (hp : bool) (c : core_t) : Prop :=
  (forall L, _ordered_steps c.(c_responses) hp false = Some L ->
     c.(c_step) <= length L /\
     (c.(c_registration) = true -> c.(c_step) < length L) /\
     (c.(c_complete) = true -> length L <= c.(c_step))) /\
  (c.(c_complete) = true -> c.(c_awaiting) = false).

Definition good (n : nat) (x : bool * core_t) : Prop := core_ok x.1 x.2 /\ n <= x.2.(c_step).

Section Runs.
Variable _question_by_key : string -> string -> responses -> option string.
Variable _build_prompt : string -> responses -> string.
Variable _friendly_question : string -> nat -> option nval -> option string -> responses -> string.
Variable _get_question_options : string -> option (list QuestionOption) * option string.
Variable _get_empathetic_acknowledgment : string -> nval -> responses -> option string.
Variable _check_if_major_concern_same : string -> string -> list string -> bool.
Variable _get_previous_session_concerns_and_products : string -> string -> list string * list string.
Variable find_relevant_products : option string -> responses -> option nat -> list string ->
  option (list string) -> list Catalog.Product * gmap string Catalog.doc.
Variable _format_product_recommendations : list Catalog.Product -> responses -> gmap string Catalog.doc ->
  option bool -> list string -> list string -> string.
Variable generate_reply : list ChatMessage -> string -> responses -> list Catalog.Product -> option string.
Variable max_history_turns product_context_limit : nat.
Variable set_intersection_order : list string -> list string -> list string.

(** A session whose interview has not started: cursor 0, no pending answer
    or confirmation, not complete. *)
Definition fresh_session (s : session) : Prop :=
  let st := _get_onboarding_state s in
  st.(step) = 0%nat /\ st.(awaiting_answer) = false /\
  st.(awaiting_registration_confirmation) = false /\ st.(complete) = false.

(** The sessions one interview passes through: a fresh session, and the
    session stored by each further [handle_message] turn. *)
Inductive reachable : session -> Prop :=
| reachable_fresh s : fresh_session s -> reachable s
| reachable_turn s message context :
    reachable s ->
    reachable (fst (handle_message _question_by_key _build_prompt _friendly_question
      _get_question_options _get_empathetic_acknowledgment _check_if_major_concern_same
      _get_previous_session_concerns_and_products find_relevant_products
      _format_product_recommendations generate_reply max_history_turns product_context_limit
      set_intersection_order s message context)).

End Runs.

(** The [concern_details] dict of the responses ([{}] when absent). *)
Definition details_of (r : responses) : gmap string (gmap string nval) :=
  match r !! "concern_details" with Some (RDetails d) => d | _ => ∅ end.

(** ** Example inputs *)

(** Collaborators of the dialog for running examples: no prompt
    rewriting, no options or acknowledgements, no earlier sessions, the
    product titles joined as the recommendation message. *)
Definition demo_question_by_key (c q : string) (r : responses) : option string := None.
Definition demo_build_prompt (field : string) (r : responses) : string := field.
Definition demo_friendly_question (prompt : string) (n : nat) (last_answer : option nval)
    (last_field : option string) (r : responses) : string := prompt.
Definition demo_question_options (field : string) : option (list QuestionOption) * option string :=
  (None, None).
Definition demo_acknowledgment (field : string) (v : nval) (r : responses) : option string := None.
Definition demo_major_concern_same (uid sid : string) (cs : list string) : bool := false.
Definition demo_previous_session (uid sid : string) : list string * list string := ([], []).
Definition demo_format_recommendations (ps : list Catalog.Product) (r : responses)
    (docs : gmap string Catalog.doc) (resolved : option bool) (pc pp : list string) : string :=
  join ", " (map Catalog.p_title ps).
Definition demo_generate_reply (h : list ChatMessage) (m : string) (r : responses)
    (ps : list Catalog.Product) : option string := None.
Definition demo_intersection (a b : list string) : list string := filter (fun x => str_in x b) a.

(** A product search that finds nothing, and one that finds one product. *)
Definition no_products (m : option string) (r : responses) (lim : option nat) (exc : list string)
    (inc : option (list string)) : list Catalog.Product * gmap string Catalog.doc := ([], ∅).

Definition demo_handle_message
    (frp : option string -> responses -> option nat -> list string ->
           option (list string) -> list Catalog.Product * gmap string Catalog.doc)
    : session -> string -> option responses -> session * option ChatResponse :=
  handle_message demo_question_by_key demo_build_prompt demo_friendly_question
    demo_question_options demo_acknowledgment demo_major_concern_same demo_previous_session
    frp demo_format_recommendations demo_generate_reply 10%nat 5%nat demo_intersection.

(** A session without onboarding state; one waiting for the answer to the
    first question ([name]); one waiting for the answer to
    [medical_treatment], the 28th step for empty responses. *)
Definition new_session : session := mkSession "demo" [] None None false None.
Definition name_question_session : session :=
  mkSession "demo" [] None None false
    (Some (set_awaiting_answer true (_get_onboarding_state new_session))).

(** [c * n] *)
Fixpoint repeat_char (c : ascii) (n : nat) : string :=
  match n with
  | O => EmptyString
  | S k => String c (repeat_char c k)
  end.

(** A name of 1990 letters, and a session of a first-time user with that
    name who has said it is for themselves and is asked their age. *)
Definition long_name : string := repeat_char "a" 1990.
Definition long_name_age_session : session :=
  mkSession "demo" [] None None false
    (Some (set_ob_responses (<["for_whom" := RStr "self"]> (<["name" := RStr long_name]> ∅))
             (set_step 2%nat (set_awaiting_answer true (_get_onboarding_state new_session))))).

(** The step list of empty responses for a first session. *)
Definition empty_steps : list string :=
  match _ordered_steps ∅ false false with Some L => L | None => [] end.

(** A vitamin A product, and the context of a pregnant woman. *)
Definition retinol_supplement : Catalog.doc :=
  {| Catalog.title := Catalog.MStr "Vitamin A Complex"; Catalog.description := Catalog.MNone;
     Catalog.shortDescription := ""; Catalog.benefits := []; Catalog.healthGoals := [];
     Catalog.ingredients := ["Retinol"]; Catalog.nutritionInfo := Catalog.MNone;
     Catalog.certification := []; Catalog.status := Catalog.SBool true;
     Catalog.isDeleted := false |}.

Definition high_dose_retinol_supplement : Catalog.doc :=
  {| Catalog.title := Catalog.MStr "Vitamin A Complex"; Catalog.description := Catalog.MStr "high dose";
     Catalog.shortDescription := ""; Catalog.benefits := []; Catalog.healthGoals := [];
     Catalog.ingredients := ["Retinol"]; Catalog.nutritionInfo := Catalog.MNone;
     Catalog.certification := []; Catalog.status := Catalog.SBool true;
     Catalog.isDeleted := false |}.

Definition pregnant_context : responses :=
  <["gender" := RStr "woman"]> (<["conceive" := RStr "yes"]> ∅).

(** The [ALLERGEN_MAP] terms of [shellfish] (and of [crustaceans]). *)
Definition SHELLFISH_TERMS : list string :=
  ["shellfish"; "crustacean"; "shrimp"; "crab"; "lobster"; "prawn"].

Definition shrimp_product : Catalog.doc :=
  {| Catalog.title := Catalog.MStr "Omega Complex"; Catalog.description := Catalog.MNone;
     Catalog.shortDescription := ""; Catalog.benefits := []; Catalog.healthGoals := [];
     Catalog.ingredients := ["Shrimp oil"]; Catalog.nutritionInfo := Catalog.MNone;
     Catalog.certification := []; Catalog.status := Catalog.SBool true;
     Catalog.isDeleted := false |}.

Definition shellfish_allergy_context : responses :=
  <["allergies" := RStr "shellfish and crustaceans"]> ∅.

(* ------------------------------------------------------------------ *)
(** ** Input validation ([app/utils/validation.py]) *)

Module Validation.

(** The values of an error's [details] dict. *)
Inductive dval :=
| DStr (s : string)
| DInt (n : Z).

(** [ValidationError(message, field=..., details=...)]: error code
    ["VALIDATION_ERROR"], details [{"field": field, **details}]. *)
Record ValidationError := mkValidationError {
  ve_message : string;
  ve_error_code : string;
  ve_details : list (string * dval) }.

Definition validation_error (message field : string) (details : list (string * dval))
    : ValidationError :=
  mkValidationError message "VALIDATION_ERROR" (("field", DStr field) :: details).

(** A validator either returns its value or raises [ValidationError]. *)
Inductive checked :=
| Ok (v : string)
| Err (e : ValidationError).

(** The character class [[a-fA-F0-9]]. *)
Definition is_hex (c : ascii) : bool :=
  let n := nat_of_ascii c in
  ((48 <=? n) && (n <=? 57))%nat || ((65 <=? n) && (n <=? 70))%nat
  || ((97 <=? n) && (n <=? 102))%nat.

Definition all_hex (s : string) : bool := forallb is_hex (list_ascii_of_string s).

(** [re.match(r"^[a-fA-F0-9]{n}$", s)]: [$] also matches before a final
    newline. *)
Definition match_hex (n : nat) (s : string) : bool :=
  ((String.length s =? n)%nat && all_hex s)
  || ((String.length s =? S n)%nat && all_hex (substring 0 n s)
      && String.eqb (substring n 1 s) (String "010"%char "")).

(** [str(n)] of an int. *)
Definition str_of_Z (z : Z) : string :=
  if (z <? 0)%Z then "-" ++ decimal (Z.to_nat (- z)) else decimal (Z.to_nat z).

(** [validate_session_id] *)
Definition validate_session_id (session_id : string) : checked :=
  if String.eqb session_id "" then
    Err (validation_error "Session ID cannot be empty" "session_id" [])
  else
  let session_id := strip session_id in
  if String.eqb session_id "" then
    Err (validation_error "Session ID cannot be empty" "session_id" [])
  else if negb (match_hex 24 session_id) && negb (match_hex 32 session_id) then
    Err (validation_error
           "Invalid session ID format. Must be a 24 or 32-character hexadecimal string."
           "session_id"
           [("session_id", DStr (if (20 <? String.length session_id)%nat
                                 then substring 0 20 session_id ++ "..."
                                 else session_id))])
  else Ok (lower session_id).

(** [validate_user_id] *)
Definition validate_user_id (user_id : string) : checked :=
  if String.eqb user_id "" then
    Err (validation_error "User ID cannot be empty" "user_id" [])
  else
  let user_id := strip user_id in
  if negb (match_hex 24 user_id) then
    Err (validation_error "Invalid user ID format. Must be a valid ObjectId." "user_id"
           [("user_id", DStr user_id)])
  else Ok (lower user_id).

(** [normalize_user_id] ([str(user_id)] of a string is the string). *)
Definition normalize_user_id (user_id : option string) : option string :=
  match user_id with
  | None => None
  | Some u =>
      if String.eqb u "" then None else
      let u := strip u in
      if String.eqb u "" then None
      else if match_hex 24 u then Some (lower u)
      else Some u
  end.

(** The character class [[\x00-\x08\x0B-\x0C\x0E-\x1F\x7F]]. *)
Definition is_control (c : ascii) : bool :=
  let n := nat_of_ascii c in
  (n <=? 8)%nat || ((11 <=? n) && (n <=? 12))%nat || ((14 <=? n) && (n <=? 31))%nat
  || (n =? 127)%nat.

(** [sanitize_message(message, max_length=2000)] *)
Definition sanitize_message (message : string) (max_length : Z) : checked :=
  if String.eqb message "" then
    Err (validation_error "Message cannot be empty" "message" [])
  else
  let message := strip message in
  if (max_length <? Z.of_nat (String.length message))%Z then
    Err (validation_error
           ("Message exceeds maximum length of " ++ str_of_Z max_length ++ " characters")
           "message"
           [("length", DInt (Z.of_nat (String.length message))); ("max_length", DInt max_length)])
  else
  Ok (re_sub (fun t => match t with
                       | String c _ => if is_control c then Some 1%nat else None
                       | EmptyString => None
                       end) "" message).

(** The character class [[\w\s-]]. *)
Definition is_search_char (c : ascii) : bool :=
  is_word c || is_space c || Ascii.eqb c "-".

(** [validate_search_word(word, min_length=1, max_length=100)] *)
Definition validate_search_word (word : string) (min_length max_length : Z) : checked :=
  if String.eqb word "" then
    Err (validation_error "Search word cannot be empty" "word" [])
  else
  let word := strip word in
  if (Z.of_nat (String.length word) <? min_length)%Z then
    Err (validation_error
           ("Search word must be at least " ++ str_of_Z min_length ++ " character(s)")
           "word"
           [("length", DInt (Z.of_nat (String.length word))); ("min_length", DInt min_length)])
  else if (max_length <? Z.of_nat (String.length word))%Z then
    Err (validation_error
           ("Search word exceeds maximum length of " ++ str_of_Z max_length ++ " characters")
           "word"
           [("length", DInt (Z.of_nat (String.length word))); ("max_length", DInt max_length)])
  else
  Ok (re_sub (fun t => match t with
                       | String c _ => if is_search_char c then None else Some 1%nat
                       | EmptyString => None
                       end) "" word).

End Validation.

(* ------------------------------------------------------------------ *)
(** ** [retry_async] ([app/utils/error_handler.py]) *)

Module Retry.

(** What one awaited call of [func] does: return a value or raise. *)
Inductive outcome (A E : Type) :=
| Returned (v : A)
| Raised (e : E).
Arguments Returned {A E} v.
Arguments Raised {A E} e.

(** What [retry_async] does, in order: call [func] (the attempt number),
    sleep [delay * backoff ** attempt] seconds after a failed attempt. *)
Inductive event := Call (attempt : nat) | Sleep (attempt : nat).

(** How [retry_async] ends: the value of [func], the exception it
    re-raises, or the [RuntimeError] after a loop of no attempts. *)
Inductive result (A E : Type) :=
| Value (v : A)
| Reraised (e : E)
| RuntimeError.
Arguments Value {A E} v.
Arguments Reraised {A E} e.
Arguments RuntimeError {A E}.

Section Loop.
Context {A E : Type}.

(** [func]: the outcome of its [n]-th call; [caught]: whether an exception
    is an instance of the [exceptions] tuple. *)
Variable func : nat -> outcome A E.
Variable caught : E -> bool.
Variable max_retries : Z.

(** The loop [for attempt in range(max_retries + 1)], from [attempt] on
    with [fuel] iterations left; [last_exception] is the last caught one. *)
Fixpoint retry_loop (fuel attempt : nat) (last_exception : option E)
    : list event * result A E :=
  match fuel with
  | O => ([], match last_exception with Some e => Reraised e | None => RuntimeError end)
  | S f =>
      match func attempt with
      | Returned v => ([Call attempt], Value v)
      | Raised e =>
          if negb (caught e) then ([Call attempt], Reraised e)
          else if (Z.of_nat attempt <? max_retries)%Z then
            let '(tr, r) := retry_loop f (S attempt) (Some e) in
            (Call attempt :: Sleep attempt :: tr, r)
          else ([Call attempt], Reraised e)
      end
  end.

(** [retry_async(func, max_retries, ...)]: the events and the result. *)
Definition retry_async : list event * result A E :=
  retry_loop (Z.to_nat (max_retries + 1)) 0 None.

End Loop.

End Retry.

(* ------------------------------------------------------------------ *)
(** ** [ChatService._tone_from_answer] *)

Definition severe_concerns : list string :=
  ["less than 5"; "less than 7"; "still tired"; "totally gone"; "gone"; "exhausted";
   "drained"; "sleepy"; "hardly"].

Definition positive_tokens : list string :=
  ["good"; "great"; "pretty good"; "energized"; "7+"; "7 +"; "high"; "performance";
   "health"; "fine"; "balanced"; "strong"; "clear"; "better"; "improving"; "refreshed";
   "solid"; "steady"].

Definition supportive_tokens : list string :=
  ["no"; "none"; "nah"; "nope"; "not really"; "yes"; "yep"; "yeah"; "low"; "little";
   "less"; "tired"; "drained"; "pimples"; "dry"; "sensitive"; "bloating"; "balloon";
   "irregular"; "worried"; "stress"; "cravings"; "trouble"; "hard"; "difficulty";
   "struggle"; "pain"; "aching"; "aging"; "lines"; "breakouts"; "fatigue"; "bloated";
   "tight"; "pressure"; "tense"; "poor"; "very poor"; "very high"; "high pressure";
   "sleepy"; "still tired"; "totally gone"; "gone"; "exhausted"; "hardly"].

Definition sensitive_fields : list string :=
  ["weight"; "sleep"; "stress"; "energy"; "brain"; "stomach"; "intestines"; "skin";
   "resistance"; "libido"; "hormones"; "hair"; "nails"; "fitness"; "concern"].

(** [_tone_from_answer(answer, field)]; [answer] is [str(answer)] of a
    non-[None] answer. *)
Definition _tone_from_answer (answer : option string) (field : option string) : string :=
  match answer with
  | None => "neutral"
  | Some a =>
      let text := lower a in
      if Catalog.any_in severe_concerns text then "supportive" else
      let is_sensitive := existsb (fun key => contains key (default "" field)) sensitive_fields in
      if Catalog.any_in positive_tokens text then
        (if is_sensitive && str_in (strip text) ["yes"; "yeah"; "yep"; "y"]
         then "supportive" else "celebrate")
      else if Catalog.any_in supportive_tokens text then "supportive"
      else if is_sensitive then "supportive"
      else "neutral"
  end.

(* ------------------------------------------------------------------ *)
(** ** Stored sessions across a turn *)

(** [s'] keeps everything [s] stored: the earlier messages (new ones are
    appended after them), the session id and the user metadata. *)
Definition session_extends (s s' : session) : Prop :=
  (exists msgs, messages s' = (messages s ++ msgs)%list) /\
  session_id s' = session_id s /\ md_user_id s' = md_user_id s /\
  md_is_registered s' = md_is_registered s /\
  md_has_previous_sessions s' = md_has_previous_sessions s.

(** A session whose interview is over and whose recommendations were shown. *)
Definition completed_session : session :=
  mkSession "demo" [] None None false
    (Some (set_recommendations_shown true
             (set_complete true (set_step 28%nat (_get_onboarding_state new_session))))).

(** A product search that returns the omega and the vitamin A products. *)
Definition catalog_search (terms goals : list string) (n : nat) (inc : option (list string))
    : option (list Catalog.doc) :=
  Some [shrimp_product; retinol_supplement].

(** The context of someone under medical treatment. *)
Definition medical_treatment_context : responses :=
  <["medical_treatment" := RStr "Yes"]> ∅.

(** A call that times out twice, then returns. *)
Definition flaky_call (i : nat) : Retry.outcome nat string :=
  if (i <? 2)%nat then Retry.Raised "timeout" else Retry.Returned 42%nat.

(** A call that times out once, then fails with an error no retry is for. *)
Definition rejecting_call (i : nat) : Retry.outcome nat string :=
  if (i =? 0)%nat then Retry.Raised "timeout" else Retry.Raised "invalid".

(** A call that always times out. *)
Definition failing_call (i : nat) : Retry.outcome nat string := Retry.Raised "timeout".

(** The shape [str.strip] leaves: empty, or non-blank at both ends. *)
Definition trimmed (s : string) : Prop :=
  s = "" \/ exists c t x d, s = String c t /\ s = x ++ String d "" /\
                           is_space c = false /\ is_space d = false.

(* ------------------------------------------------------------------ *)
(** * Properties *)

Example parse_concerns_try :
  _parse_concerns "Stomach and Intestines, Hair & Nails" = ["stomach_intestines"; "hair_nails"].
Proof. vm_compute. reflexivity. Qed.

Example parse_concerns_try2 :
  _parse_concerns "I sleep badly / gut issues and hair" = ["sleep"; "stomach_intestines"; "hair_nails"].
Proof. vm_compute. reflexivity. Qed.

Example steps_try :
  option_map (@length string) (_ordered_steps (<["concern" := RList ["sleep"]]> ∅) false false) = Some 31%nat.
Proof. vm_compute. reflexivity. Qed.

Example validate_try1 :
  _validate_response (fun _ _ _ => None) "age" " 007 " ∅ = (true, NStr "7", "").
Proof. vm_compute. reflexivity. Qed.

Example validate_try2 :
  _validate_response (fun _ _ _ => None) "allergies" "Milk, shellfish, foo" ∅
  = (true, NStr "milk, shellfish and crustaceans", "").
Proof. vm_compute. reflexivity. Qed.

Example validate_try3 :
  fst (fst (_validate_response (fun _ _ _ => None) "email" "a@b" ∅)) = false.
Proof. vm_compute. reflexivity. Qed.


(** ** Concern parsing *)

Lemma str_in_In (x : string) (l : list string) : str_in x l = true <-> In x l.
Proof.
  unfold str_in. rewrite existsb_exists. split.
  - intros (y & Hy & E). apply String.eqb_eq in E. subst. exact Hy.
  - intros H. exists x. split; [exact H | apply String.eqb_refl].
Qed.

Lemma str_in_false (x : string) (l : list string) : str_in x l = false <-> ~ In x l.
Proof.
  rewrite <- str_in_In. destruct (str_in x l); split; congruence || tauto.
Qed.

Lemma fold_add_new (l acc : list string) :
  fold_left add_new l acc = (acc ++ dedup_first_aux acc l)%list.
Proof.
  revert acc; induction l as [|x t IH]; intros acc; simpl.
  - rewrite app_nil_r. reflexivity.
  - unfold add_new at 2. destruct (str_in x acc).
    + apply IH.
    + rewrite IH, <- app_assoc. reflexivity.
Qed.

Lemma dedup_first_aux_sub (s s' l : list string) :
  (forall y, In y s' -> In y s) ->
  dedup_first_aux s (dedup_first_aux s' l) = dedup_first_aux s l.
Proof.
  revert s s'; induction l as [|x t IH]; intros s s' Hsub; simpl; [reflexivity|].
  destruct (str_in x s') eqn:E'.
  - apply str_in_In, Hsub, str_in_In in E'. rewrite E'. apply IH, Hsub.
  - simpl. destruct (str_in x s) eqn:E.
    + apply IH. intros y Hy. apply in_app_or in Hy as [Hy|[<-|[]]].
      * apply Hsub, Hy.
      * apply str_in_In, E.
    + f_equal. apply IH. intros y Hy. apply in_app_or in Hy as [Hy|Hy]; apply in_or_app; auto.
Qed.

Lemma fold_add_new_dedup (l acc : list string) :
  fold_left add_new (dedup_first l) acc = fold_left add_new l acc.
Proof.
  rewrite !fold_add_new. f_equal. apply dedup_first_aux_sub. intros y [].
Qed.

Lemma dedup_first_aux_spec (l seen : list string) :
  NoDup (dedup_first_aux seen l) /\
  forall x, In x (dedup_first_aux seen l) -> ~ In x seen /\ In x l.
Proof.
  revert seen; induction l as [|y t IH]; intros seen; simpl.
  - split; [constructor | intros _ []].
  - destruct (str_in y seen) eqn:E.
    + destruct (IH seen) as [H1 H2]. split; [exact H1|].
      intros x Hx. destruct (H2 x Hx). auto.
    + destruct (IH (seen ++ [y])%list) as [H1 H2]. apply str_in_false in E. split.
      * constructor; [|exact H1]. rewrite list_elem_of_In. intros Hy. destruct (H2 y Hy) as [Hn _].
        apply Hn, in_or_app. right. left. reflexivity.
      * intros x [<-|Hx]; [auto|]. destruct (H2 x Hx) as [Hn Hin]. split; [|auto].
        intros Hs. apply Hn, in_or_app. left. exact Hs.
Qed.

Lemma scan_tokens_mentions (prev : option ascii) (skip : nat) (s : string) (acc : list string) :
  scan_tokens prev skip s acc = fold_left add_new (scan_mentions prev skip s) acc.
Proof.
  revert prev skip acc; induction s as [|c t IH]; intros prev skip acc;
    cbn [scan_tokens scan_mentions]; [reflexivity|].
  destruct skip as [|k]; [|apply IH].
  destruct (match_key synonym_pattern_keys prev (String c t)) as [key|]; [|apply IH].
  destruct (assoc key CONCERN_SYNONYMS); apply IH.
Qed.

Lemma extract_concern_tokens_mentions (text : string) :
  _extract_concern_tokens text
  = dedup_first (if String.eqb text "" then [] else scan_mentions None 0 text).
Proof.
  unfold _extract_concern_tokens. destruct (String.eqb text ""); [reflexivity|].
  rewrite scan_tokens_mentions, fold_add_new. reflexivity.
Qed.

Lemma parse_part_mentions (selections : list string) (part : string) :
  parse_part selections part = fold_left add_new (part_mentions part) selections.
Proof.
  unfold parse_part, part_mentions. destruct (assoc part CONCERN_SYNONYMS); [reflexivity|].
  rewrite extract_concern_tokens_mentions, fold_add_new_dedup. reflexivity.
Qed.

Lemma fold_parse_part (parts selections : list string) :
  fold_left parse_part parts selections
  = fold_left add_new (flat_map part_mentions parts) selections.
Proof.
  revert selections; induction parts as [|p t IH]; intros sel; simpl; [reflexivity|].
  rewrite fold_left_app, <- parse_part_mentions. apply IH.
Qed.

Lemma parse_concerns_mentions (raw : string) :
  _parse_concerns raw = dedup_first (concern_mentions raw).
Proof.
  unfold _parse_concerns, concern_mentions. destruct (String.eqb raw ""); [reflexivity|].
  rewrite fold_parse_part, fold_add_new. simpl.
  destruct (flat_map part_mentions (concern_parts (concern_normalize_text raw))) as [|x t].
  - apply extract_concern_tokens_mentions.
  - reflexivity.
Qed.

Lemma assoc_In_snd {A} (x : string) (d : list (string * A)) (v : A) :
  assoc x d = Some v -> In v (map snd d).
Proof.
  induction d as [|[k w] t IH]; simpl; [discriminate|].
  destruct (String.eqb x k); [intros [= ->]; left; reflexivity | intros H; right; auto].
Qed.

Lemma scan_mentions_canonical (prev : option ascii) (skip : nat) (s : string) (x : string) :
  In x (scan_mentions prev skip s) -> In x (map snd CONCERN_SYNONYMS).
Proof.
  revert prev skip; induction s as [|c t IH]; intros prev skip;
    cbn [scan_mentions]; [intros []|].
  destruct skip as [|k]; [|apply IH].
  destruct (match_key synonym_pattern_keys prev (String c t)) as [key|]; [|apply IH].
  destruct (assoc key CONCERN_SYNONYMS) eqn:E.
  - intros [<-|H]; [eapply assoc_In_snd; exact E | eapply IH; exact H].
  - apply IH.
Qed.

Lemma concern_mentions_canonical (raw x : string) :
  In x (concern_mentions raw) -> In x (map snd CONCERN_SYNONYMS).
Proof.
  unfold concern_mentions. destruct (String.eqb raw ""); [intros []|].
  assert (Hparts : forall parts, In x (flat_map part_mentions parts) -> In x (map snd CONCERN_SYNONYMS)).
  { intros parts Hx. apply in_flat_map in Hx as (p & _ & Hp). unfold part_mentions in Hp.
    destruct (assoc p CONCERN_SYNONYMS) eqn:E.
    - destruct Hp as [<-|[]]. eapply assoc_In_snd; exact E.
    - destruct (String.eqb p ""); [destruct Hp|]. eapply scan_mentions_canonical; exact Hp. }
  destruct (flat_map part_mentions (concern_parts (concern_normalize_text raw))) as [|y t] eqn:E.
  - destruct (String.eqb (concern_normalize_text raw) ""); [intros []|].
    apply scan_mentions_canonical.
  - rewrite <- E. apply Hparts.
Qed.

(** C8: on "Stomach and Intestines, Hair & Nails" [_parse_concerns] returns
    [["stomach_intestines"; "hair_nails"]]; in general it returns the
    canonical concerns the answer mentions, in order of first appearance and
    without repeats: the [dedup_first] of [concern_mentions raw]; the result
    has no duplicate and holds canonical keys only. *)
Theorem parse_concerns_first_appearance :
  _parse_concerns "Stomach and Intestines, Hair & Nails" = ["stomach_intestines"; "hair_nails"] /\
  forall raw : string,
    _parse_concerns raw = dedup_first (concern_mentions raw) /\
    NoDup (_parse_concerns raw) /\
    Forall (fun c => In c (map snd CONCERN_SYNONYMS)) (_parse_concerns raw).
Proof.
  split; [vm_compute; reflexivity|]. intros raw.
  rewrite parse_concerns_mentions. unfold dedup_first.
  destruct (dedup_first_aux_spec (concern_mentions raw) []) as [Hnd Hin].
  split; [reflexivity|]. split; [exact Hnd|].
  apply Forall_forall. intros x Hx. rewrite list_elem_of_In in Hx.
  apply (concern_mentions_canonical raw), (Hin x Hx).
Qed.

(** ** The step list of [_ordered_steps] *)

Lemma ordered_steps_shape r hp sa steps :
  _ordered_steps r hp sa = Some steps ->
  exists gseg eh da,
    gender_segment r = Some gseg /\ get_lower r "eating_habits" = Some eh /\
    get_lower r "drinks_alcohol" = Some da /\
    steps = steps_rest (steps_prefix hp (get_or_empty_is r "for_whom" "family")
                          (get_or_empty_is r "for_whom" "me") ++ gseg)%list
              (_normalize_concerns (r !! "concern")) (str_in eh ["vegetarian"; "vegan"])
              (str_in da ["yes"; "y"; "yeah"; "yep"]) sa.
Proof.
  unfold _ordered_steps, gender_segment.
  destruct (get_lower r "gender") as [g|]; [|discriminate]. cbn [mbind option_bind].
  destruct (str_in g female_genders).
  - destruct (get_lower r "conceive") as [c|]; [|discriminate]. cbn [mbind option_bind].
    destruct (get_lower r "eating_habits") as [eh|]; [|discriminate]. cbn [mbind option_bind].
    destruct (get_lower r "drinks_alcohol") as [da|]; [|discriminate]. cbn [mbind option_bind].
    intros [= <-]. do 3 eexists. split; [reflexivity|]. split; [reflexivity|]. split; [reflexivity|].
    destruct (c =? "yes").
    + rewrite <- (app_assoc _ ["conceive"] ["situation"]). reflexivity.
    + reflexivity.
  - destruct (get_lower r "eating_habits") as [eh|]; [|discriminate]. cbn [mbind option_bind].
    destruct (get_lower r "drinks_alcohol") as [da|]; [|discriminate]. cbn [mbind option_bind].
    intros [= <-]. do 3 eexists. split; [reflexivity|]. split; [reflexivity|]. split; [reflexivity|].
    destruct (g =? "male").
    + reflexivity.
    + rewrite app_nil_r. reflexivity.
Qed.

Lemma steps_rest_split S cs veg drinks sa :
  steps_rest S cs veg drinks sa
  = (S ++ "concern" :: _concern_followup_steps cs ++ steps_tail veg drinks sa)%list.
Proof.
  unfold steps_rest, steps_tail. destruct veg, drinks, sa; rewrite <- !app_assoc; reflexivity.
Qed.

Lemma prefix_app (s t : string) : String.prefix s (s ++ t) = true.
Proof.
  induction s as [|a s IH]; simpl; [destruct t; reflexivity|].
  destruct (ascii_dec a a); [exact IH|congruence].
Qed.

Lemma followup_steps_prefix cs x :
  In x (_concern_followup_steps cs) -> String.prefix "concern|" x = true.
Proof.
  unfold _concern_followup_steps. intros Hx. apply in_flat_map in Hx as (c & _ & Hc).
  destruct (assoc c CONCERN_QUESTIONS) as [[label ids]|]; [|destruct Hc].
  apply in_map_iff in Hc as (q & <- & _). apply prefix_app.
Qed.

Lemma gender_segment_cases r g :
  gender_segment r = Some g ->
  g = ["conceive"; "situation"] \/ g = ["conceive"] \/ g = ["children"] \/ g = [].
Proof.
  unfold gender_segment. destruct (get_lower r "gender") as [gd|]; [|discriminate]. cbn [mbind option_bind].
  destruct (str_in gd female_genders).
  - destruct (get_lower r "conceive") as [c|]; [|discriminate]. cbn [mbind option_bind].
    destruct (c =? "yes"); intros [= <-]; auto.
  - destruct (gd =? "male"); intros [= <-]; auto.
Qed.

Lemma idx_cons (x k : string) (L L' : list string) :
  x <> k -> (forall j, nth_error L j = Some k -> j < length L') ->
  forall i, nth_error (x :: L) i = Some k -> i < length (x :: L').
Proof.
  intros Hx H [|i]; simpl; [intros [= E]; congruence|]. intros Hi. apply H in Hi. lia.
Qed.

Lemma idx_app (A L L' : list string) (k : string) :
  ~ In k A -> (forall j, nth_error L j = Some k -> j < length L') ->
  forall i, nth_error (A ++ L) i = Some k -> i < length (A ++ L').
Proof.
  intros HA H i Hi. rewrite length_app. destruct (decide (i < length A)) as [Hlt|Hge].
  - rewrite nth_error_app1 in Hi by exact Hlt. apply nth_error_In in Hi. contradiction.
  - rewrite nth_error_app2 in Hi by lia. apply H in Hi. lia.
Qed.

Lemma idx_hit (k : string) (L L' : list string) :
  ~ In k L -> forall i, nth_error (k :: L) i = Some k -> i < length (k :: L').
Proof.
  intros Hk [|i]; simpl; [lia|]. intros Hi. apply nth_error_In in Hi. contradiction.
Qed.

Lemma idx_absent (k : string) (L L' : list string) :
  ~ In k L -> forall i, nth_error L i = Some k -> i < length L'.
Proof.
  intros Hk i Hi. apply nth_error_In in Hi. contradiction.
Qed.

Ltac notin_steps :=
  let H := fresh "H" in
  intros H;
  repeat match goal with
  | H : In _ (_ ++ _) |- _ => apply in_app_or in H; destruct H as [H|H]
  | H : In _ (_ :: _) |- _ => destruct H as [H|H]; [discriminate H|]
  | H : In _ [] |- _ => destruct H
  | H : In _ (steps_tail _ _ _) |- _ => unfold steps_tail in H
  | H : In _ (steps_prefix _ _ _) |- _ => unfold steps_prefix in H; cbn [andb app] in H
  | H : In _ (if ?b then _ else _) |- _ => destruct b
  | H : In _ (_concern_followup_steps _) |- _ =>
      apply followup_steps_prefix in H; vm_compute in H; discriminate H
  end.

Ltac idx_steps :=
  repeat first
    [ apply idx_hit; notin_steps
    | apply idx_cons; [discriminate|]
    | apply idx_app; [notin_steps|] ].


Ltac idx_steps_all :=
  repeat first
    [ apply idx_hit; notin_steps
    | apply idx_cons; [discriminate|]
    | apply idx_app; [notin_steps|]
    | apply idx_absent; notin_steps ].

Lemma ordered_steps_ext r r' hp sa :
  (forall x, In x read_keys -> r' !! x = r !! x) ->
  _ordered_steps r' hp sa = _ordered_steps r hp sa.
Proof.
  intros H. unfold _ordered_steps, get_lower, get_or_empty_is.
  rewrite !H by (cbn; tauto). reflexivity.
Qed.

Lemma gender_segment_ext r r' :
  r' !! "gender" = r !! "gender" -> r' !! "conceive" = r !! "conceive" ->
  gender_segment r' = gender_segment r.
Proof. intros H1 H2. unfold gender_segment, get_lower. rewrite H1, H2. reflexivity. Qed.

Lemma gender_segment_conceive r r' g g' :
  r' !! "gender" = r !! "gender" ->
  gender_segment r = Some g -> gender_segment r' = Some g' ->
  (g = ["conceive"; "situation"] \/ g = ["conceive"]) /\
  (g' = ["conceive"; "situation"] \/ g' = ["conceive"])
  \/ g = ["children"] \/ g = [].
Proof.
  intros Hgd Hg Hg'.
  assert (E : get_lower r' "gender" = get_lower r "gender")
    by (unfold get_lower; rewrite Hgd; reflexivity).
  unfold gender_segment in Hg, Hg'. rewrite E in Hg'.
  destruct (get_lower r "gender") as [gd|]; [|discriminate].
  cbn [mbind option_bind] in Hg, Hg'.
  destruct (str_in gd female_genders).
  - destruct (get_lower r "conceive") as [c|]; [|discriminate].
    destruct (get_lower r' "conceive") as [c'|]; [|discriminate].
    cbn [mbind option_bind] in Hg, Hg'. injection Hg as <-. injection Hg' as <-.
    left. split; destruct (_ =? _); auto.
  - right. injection Hg as <-. destruct (gd =? "male"); auto.
Qed.

Lemma answered_index_in_range r r' hp L L' i k :
  _ordered_steps r hp false = Some L -> nth_error L i = Some k ->
  (forall x, In x read_keys -> x <> k -> r' !! x = r !! x) ->
  _ordered_steps r' hp false = Some L' -> i < length L'.
Proof.
  intros HL Hi Hagree HL'.
  destruct (decide (In k read_keys)) as [Hk|Hk].
  2:{ rewrite (ordered_steps_ext r r') in HL'
        by (intros x Hx; apply Hagree; [exact Hx|intros ->; contradiction]).
      rewrite HL in HL'. injection HL' as <-. apply nth_error_Some. congruence. }
  apply ordered_steps_shape in HL as (g & eh & da & Hg & Heh & Hda & ->).
  apply ordered_steps_shape in HL' as (g' & eh' & da' & Hg' & Heh' & Hda' & ->).
  rewrite !steps_rest_split, <- !app_assoc in *.
  revert i Hi.
  assert (Hfw : k <> "for_whom" -> forall v,
            get_or_empty_is r' "for_whom" v = get_or_empty_is r "for_whom" v).
  { intros Hne v. unfold get_or_empty_is. rewrite Hagree; [reflexivity|cbn; tauto|congruence]. }
  assert (Hgs : k <> "gender" -> k <> "conceive" -> g' = g).
  { intros H1 H2. rewrite (gender_segment_ext r r') in Hg'
      by (apply Hagree; [cbn; tauto|congruence]). congruence. }
  assert (Hcs : k <> "concern" -> r' !! "concern" = r !! "concern").
  { intros Hne. apply Hagree; [cbn; tauto|congruence]. }
  cbn in Hk. destruct Hk as [<-|[<-|[<-|[<-|[<-|[<-|[]]]]]]].
  - apply gender_segment_cases in Hg. destruct Hg as [Hg|[Hg|[Hg|Hg]]]; subst g;
    destruct hp, (get_or_empty_is r "for_whom" "family"), (get_or_empty_is r "for_whom" "me"),
      (get_or_empty_is r' "for_whom" "family"), (get_or_empty_is r' "for_whom" "me");
    cbn [steps_prefix app]; idx_steps_all.
  - rewrite !Hfw by discriminate.
    apply gender_segment_cases in Hg. destruct Hg as [Hg|[Hg|[Hg|Hg]]]; subst g;
    destruct hp, (get_or_empty_is r "for_whom" "family"), (get_or_empty_is r "for_whom" "me");
    cbn [steps_prefix app]; idx_steps_all.
  - rewrite !Hfw by discriminate.
    assert (Hgender : r' !! "gender" = r !! "gender") by (apply Hagree; [cbn; tauto|discriminate]).
    destruct (gender_segment_conceive r r' g g' Hgender Hg Hg')
      as [[[Hg1|Hg1] [Hg2|Hg2]]|[Hg1|Hg1]]; subst g; try subst g';
    destruct hp, (get_or_empty_is r "for_whom" "family"), (get_or_empty_is r "for_whom" "me");
    cbn [steps_prefix app]; idx_steps_all.
  - rewrite !Hfw by discriminate. rewrite Hgs by discriminate.
    apply gender_segment_cases in Hg. destruct Hg as [Hg|[Hg|[Hg|Hg]]]; subst g;
    destruct hp, (get_or_empty_is r "for_whom" "family"), (get_or_empty_is r "for_whom" "me");
    cbn [steps_prefix app]; idx_steps_all.
  - rewrite !Hfw by discriminate. rewrite Hgs by discriminate. rewrite Hcs by discriminate.
    apply gender_segment_cases in Hg. destruct Hg as [Hg|[Hg|[Hg|Hg]]]; subst g;
    destruct hp, (get_or_empty_is r "for_whom" "family"), (get_or_empty_is r "for_whom" "me");
    cbn [steps_prefix steps_tail app]; idx_steps_all.
  - rewrite !Hfw by discriminate. rewrite Hgs by discriminate. rewrite Hcs by discriminate.
    assert (Heq : eh' = eh).
    { unfold get_lower in Heh, Heh'. rewrite Hagree in Heh' by (cbn; tauto || discriminate).
      congruence. }
    subst eh'.
    apply gender_segment_cases in Hg. destruct Hg as [Hg|[Hg|[Hg|Hg]]]; subst g;
    destruct hp, (get_or_empty_is r "for_whom" "family"), (get_or_empty_is r "for_whom" "me"),
      (str_in eh ["vegetarian"; "vegan"]);
    cbn [steps_prefix steps_tail app]; idx_steps_all.
Qed.

(** ** The interview state across turns *)

Lemma save_agree k v r r' :
  _save_response k v r = Some r' ->
  forall x, In x read_keys -> x <> k -> r' !! x = r !! x.
Proof.
  unfold _save_response. intros Hs x Hx Hne.
  assert (Hcd : x <> "concern_details")
    by (intros ->; cbn in Hx; repeat (destruct Hx as [Hx|Hx]; [discriminate Hx|]); exact Hx).
  destruct (String.eqb_spec k "concern") as [->|Hk].
  - injection Hs as <-. apply lookup_insert_ne. congruence.
  - destruct (_parse_concern_field k) as [[c q]|].
    + destruct (r !! "concern_details") as [[| |]|]; try discriminate;
      injection Hs as <-; apply lookup_insert_ne; congruence.
    + injection Hs as <-. apply lookup_insert_ne. congruence.
Qed.

Lemma agree_insert_other (r r' : responses) k y v :
  ~ In y read_keys ->
  (forall x, In x read_keys -> x <> k -> r' !! x = r !! x) ->
  forall x, In x read_keys -> x <> k -> <[y := v]> r' !! x = r !! x.
Proof.
  intros Hy H x Hx Hne. rewrite lookup_insert_ne by (intros ->; contradiction). auto.
Qed.

Lemma ordered_steps_sa_len r hp sa L L' :
  _ordered_steps r hp sa = Some L -> _ordered_steps r hp false = Some L' -> length L' <= length L.
Proof.
  intros H H'.
  apply ordered_steps_shape in H as (g & eh & da & Hg & Heh & Hda & ->).
  apply ordered_steps_shape in H' as (g' & eh' & da' & Hg' & Heh' & Hda' & ->).
  rewrite Hg in Hg'. rewrite Heh in Heh'. rewrite Hda in Hda'.
  injection Hg' as <-. injection Heh' as <-. injection Hda' as <-.
  rewrite !steps_rest_split. rewrite !length_app. cbn [length].
  rewrite !length_app. unfold steps_tail. destruct sa; rewrite !length_app; cbn [length]; lia.
Qed.

Lemma nth_last (X : list string) m i :
  ~ In m X -> nth_error (X ++ [m])%list i = Some m -> length (X ++ [m])%list = S i.
Proof.
  intros HX Hi. rewrite length_app. cbn [length].
  destruct (decide (i < length X)) as [Hlt|Hge].
  - rewrite nth_error_app1 in Hi by exact Hlt. apply nth_error_In in Hi. contradiction.
  - rewrite nth_error_app2 in Hi by lia.
    destruct (i - length X) as [|j] eqn:E; [lia|]. cbn in Hi. destruct j; discriminate.
Qed.

Lemma medical_treatment_last r hp L i :
  _ordered_steps r hp false = Some L -> nth_error L i = Some "medical_treatment" ->
  length L = S i.
Proof.
  intros HL Hi.
  apply ordered_steps_shape in HL as (g & eh & da & Hg & _ & _ & ->).
  rewrite steps_rest_split in *.
  assert (Ht : forall veg dr, steps_tail veg dr false
                = (removelast (steps_tail veg dr false) ++ ["medical_treatment"])%list /\
                ~ In "medical_treatment" (removelast (steps_tail veg dr false))).
  { intros veg dr. destruct veg, dr; split; [reflexivity| |reflexivity| |reflexivity| |reflexivity|];
    vm_compute; intros H; repeat (destruct H as [H|H]; [discriminate H|]); exact H. }
  destruct (Ht (str_in eh ["vegetarian"; "vegan"]) (str_in da ["yes"; "y"; "yeah"; "yep"])) as [E HT].
  remember (removelast (steps_tail (str_in eh ["vegetarian"; "vegan"])
             (str_in da ["yes"; "y"; "yeah"; "yep"]) false)) as T eqn:ET. clear ET.
  rewrite E in Hi |- *. rewrite !app_comm_cons, !app_assoc in Hi |- *.
  apply nth_last; [|exact Hi].
  apply gender_segment_cases in Hg. destruct Hg as [Hg|[Hg|[Hg|Hg]]]; subst g;
  destruct hp, (get_or_empty_is r "for_whom" "family"), (get_or_empty_is r "for_whom" "me");
  cbn [steps_prefix app]; rewrite <- !app_assoc; cbn [app];
  let H := fresh "H" in intros H;
  repeat match goal with
  | H : In _ (_ ++ _) |- _ => apply in_app_or in H; destruct H as [H|H]
  | H : In _ (_ :: _) |- _ => destruct H as [H|H]; [discriminate H|]
  | H : In _ [] |- _ => destruct H
  | H : In _ (_concern_followup_steps _) |- _ =>
      apply followup_steps_prefix in H; vm_compute in H; discriminate H
  | H : In _ (steps_prefix _ _ _) |- _ =>
      vm_compute in H; repeat (destruct H as [H|H]; [discriminate H|]); destruct H
  end; contradiction.
Qed.

Lemma ordered_steps_eq r hp sa :
  _ordered_steps r hp sa =
  (g ← gender_segment r;
   eh ← get_lower r "eating_habits";
   da ← get_lower r "drinks_alcohol";
   Some (steps_rest (steps_prefix hp (get_or_empty_is r "for_whom" "family")
                       (get_or_empty_is r "for_whom" "me") ++ g)%list
           (_normalize_concerns (r !! "concern")) (str_in eh ["vegetarian"; "vegan"])
           (str_in da ["yes"; "y"; "yeah"; "yep"]) sa)).
Proof.
  unfold _ordered_steps, gender_segment.
  destruct (get_lower r "gender") as [g|]; [|reflexivity]. cbn [mbind option_bind].
  destruct (str_in g female_genders).
  - destruct (get_lower r "conceive") as [c|]; [|reflexivity]. cbn [mbind option_bind].
    destruct (get_lower r "eating_habits") as [eh|]; [|reflexivity]. cbn [mbind option_bind].
    destruct (get_lower r "drinks_alcohol") as [da|]; [|reflexivity]. cbn [mbind option_bind].
    destruct (c =? "yes").
    + rewrite <- (app_assoc _ ["conceive"] ["situation"]). reflexivity.
    + reflexivity.
  - destruct (get_lower r "eating_habits") as [eh|]; [|reflexivity]. cbn [mbind option_bind].
    destruct (get_lower r "drinks_alcohol") as [da|]; [|reflexivity]. cbn [mbind option_bind].
    destruct (g =? "male"); [reflexivity|]. rewrite app_nil_r. reflexivity.
Qed.

Lemma ordered_steps_some r hp sa hp' sa' L :
  _ordered_steps r hp sa = Some L -> exists L', _ordered_steps r hp' sa' = Some L'.
Proof.
  rewrite !ordered_steps_eq.
  destruct (gender_segment r), (get_lower r "eating_habits"), (get_lower r "drinks_alcohol");
    cbn [mbind option_bind]; try discriminate; eauto.
Qed.

Lemma ordered_steps_hp_len r sa L L' :
  _ordered_steps r true false = Some L -> _ordered_steps r false sa = Some L' ->
  length L <= length L'.
Proof.
  rewrite !ordered_steps_eq.
  destruct (gender_segment r), (get_lower r "eating_habits"), (get_lower r "drinks_alcohol");
    cbn [mbind option_bind]; try discriminate.
  intros [= <-] [= <-]. rewrite !steps_rest_split, !length_app. cbn [length]. rewrite !length_app.
  unfold steps_tail. destruct sa, (get_or_empty_is r "for_whom" "family"),
    (get_or_empty_is r "for_whom" "me"); unfold steps_prefix; cbn [andb]; rewrite ?length_app; cbn [length]; lia.
Qed.

Lemma load_recommendations_shown s : recommendations_shown (_get_onboarding_state s) = false.
Proof. unfold _get_onboarding_state. destruct (md_onboarding s); reflexivity. Qed.


Lemma load_update_metadata s st :
  core (_get_onboarding_state (update_metadata s st)) = core st.
Proof. reflexivity. Qed.

Section Turn.
Variable _question_by_key : string -> string -> responses -> option string.
Variable _build_prompt : string -> responses -> string.
Variable _friendly_question : string -> nat -> option nval -> option string -> responses -> string.
Variable _get_question_options : string -> option (list QuestionOption) * option string.
Variable _get_empathetic_acknowledgment : string -> nval -> responses -> option string.
Variable _check_if_major_concern_same : string -> string -> list string -> bool.
Variable _get_previous_session_concerns_and_products : string -> string -> list string * list string.
Variable find_relevant_products : option string -> responses -> option nat -> list string ->
  option (list string) -> list Catalog.Product * gmap string Catalog.doc.
Variable _format_product_recommendations : list Catalog.Product -> responses -> gmap string Catalog.doc ->
  option bool -> list string -> list string -> string.
Variable generate_reply : list ChatMessage -> string -> responses -> list Catalog.Product -> option string.
Variable max_history_turns product_context_limit : nat.
Variable set_intersection_order : list string -> list string -> list string.

Local Abbreviation SR := (show_recommendations find_relevant_products _format_product_recommendations).
Local Abbreviation MTA := (medical_treatment_answered find_relevant_products _format_product_recommendations).
Local Abbreviation FIN := (finish_onboarding _get_previous_session_concerns_and_products
  find_relevant_products _format_product_recommendations set_intersection_order).
Local Abbreviation FC := (free_chat find_relevant_products generate_reply max_history_turns product_context_limit).
Local Abbreviation ANF := (ask_next_or_finish _build_prompt _friendly_question _get_question_options
  _check_if_major_concern_same _get_previous_session_concerns_and_products
  find_relevant_products _format_product_recommendations set_intersection_order).
Local Abbreviation HM := (handle_message _question_by_key _build_prompt _friendly_question
  _get_question_options _get_empathetic_acknowledgment _check_if_major_concern_same
  _get_previous_session_concerns_and_products find_relevant_products _format_product_recommendations
  generate_reply max_history_turns product_context_limit set_intersection_order).
Local Abbreviation ACF := (answer_current_field _question_by_key _get_question_options
  _get_empathetic_acknowledgment _get_previous_session_concerns_and_products
  find_relevant_products _format_product_recommendations).

Lemma show_recommendations_summary s uid reg st :
  summary (fst (SR s uid reg st)) = summary s \/
  summary (fst (SR s uid reg st)) = (s.(md_has_previous_sessions), core (set_complete true st)).
Proof.
  unfold show_recommendations. destruct (find_recommendations _ _ _ _).
  destruct (assistant _); [right|left]; reflexivity.
Qed.

Lemma medical_treatment_answered_summary s um reg st :
  summary (fst (MTA s um reg st)) = summary s \/
  summary (fst (MTA s um reg st)) = (s.(md_has_previous_sessions), core (set_complete true st)).
Proof.
  unfold medical_treatment_answered. destruct (find_recommendations _ _ _ _) as [ps docs].
  destruct (negb _); [destruct (assistant _)|]; cbv beta iota; [right|left|right]; reflexivity.
Qed.

Lemma free_chat_summary s h m c um reg st :
  summary (fst (FC s h m c um reg st)) = summary s.
Proof.
  unfold free_chat. destruct (find_relevant_products _ _ _ _ _) as [ps docs].
  destruct (generate_reply _ _ _ _); [destruct (assistant _)|]; reflexivity.
Qed.

Lemma finish_onboarding_summary s m um uid reg st :
  summary (fst (FIN s m um uid reg st)) = (s.(md_has_previous_sessions), core (set_complete true st)).
Proof.
  unfold finish_onboarding. cbv zeta.
  repeat match goal with
  | |- context [show_recommendations _ _ ?s0 ?u ?b ?t] =>
      destruct (show_recommendations_summary s0 u b t) as [E|E]; rewrite E
  | |- context [match ?x with _ => _ end] =>
      lazymatch x with context [match _ with _ => _ end] => fail | _ => destruct x end
  end; reflexivity.
Qed.

Ltac destruct_inner :=
  match goal with
  | |- context [match ?x with _ => _ end] =>
      lazymatch x with context [match _ with _ => _ end] => fail | _ => destruct x eqn:? end
  end.

Lemma ask_next_or_finish_summary s m um uid reg hp ack st :
  summary (fst (ANF s m um uid reg hp ack st)) = summary s \/
  (exists sa L x, _ordered_steps st.(ob_responses) hp sa = Some L /\ nth_error L st.(step) = Some x /\
     summary (fst (ANF s m um uid reg hp ack st))
     = (s.(md_has_previous_sessions), core (set_awaiting_answer true st))) \/
  (exists sa L, _ordered_steps st.(ob_responses) hp sa = Some L /\ nth_error L st.(step) = None /\
     summary (fst (ANF s m um uid reg hp ack st))
     = (s.(md_has_previous_sessions), core (set_complete true st))).
Proof.
  unfold ask_next_or_finish. cbv zeta.
  repeat match goal with
  | |- context [finish_onboarding _ _ _ _ ?s0 ?m0 ?u0 ?i0 ?r0 ?t0] =>
      rewrite (finish_onboarding_summary s0 m0 u0 i0 r0 t0)
  | _ => destruct_inner
  end;
  first [ left; reflexivity
        | right; left; do 3 eexists; split; [eassumption|split; [eassumption|reflexivity]]
        | right; right; do 2 eexists; split; [eassumption|split; [eassumption|reflexivity]] ].
Qed.

Lemma ask_next_or_finish_good n s m um uid reg ack st :
  good n (summary s) -> good n (s.(md_has_previous_sessions), core st) ->
  st.(awaiting_answer) = false -> st.(complete) = false ->
  good n (summary (fst (ANF s m um uid reg s.(md_has_previous_sessions) ack st))).
Proof.
  intros Hs [[Hb Hc] Hn] Ha Hcomp.
  destruct (ask_next_or_finish_summary s m um uid reg s.(md_has_previous_sessions) ack st)
    as [E|[(sa & L & x & HL & Hx & E)|(sa & L & HL & Hx & E)]]; rewrite E.
  - exact Hs.
  - unfold good, core_ok, core in *; cbn in *. split; [|exact Hn]. split.
    + intros L' HL'. destruct (Hb L' HL') as (H1 & H2 & H3). rewrite Hcomp in *. repeat split; auto; intros HH; discriminate HH.
    + rewrite Hcomp. intros HH; discriminate HH.
  - unfold good, core_ok, core in *; cbn in *. split; [|exact Hn]. split; [|intros _; exact Ha].
    intros L' HL'. destruct (Hb L' HL') as (H1 & H2 & H3). repeat split; auto.
    intros _. apply nth_error_None in Hx.
    pose proof (ordered_steps_sa_len _ _ _ _ _ HL HL'). lia.
Qed.

Lemma answer_current_field_good n s m um uid reg k st L :
  good n (summary s) -> good n (s.(md_has_previous_sessions), core st) ->
  st.(awaiting_registration_confirmation) = false -> st.(complete) = false ->
  _ordered_steps st.(ob_responses) s.(md_has_previous_sessions) false = Some L ->
  nth_error L st.(step) = Some k ->
  match ACF s m um uid reg k st with
  | inl (s', _) => good n (summary s')
  | inr (s', st', _) =>
      good n (summary s') /\ good n (s'.(md_has_previous_sessions), core st') /\
      s'.(md_has_previous_sessions) = s.(md_has_previous_sessions) /\
      st'.(awaiting_answer) = false /\ st'.(complete) = false /\
      st'.(awaiting_registration_confirmation) = false
  end.
Proof.
  intros Hs Hst Hreg Hcomp HL Hk.
  destruct Hst as [[Hb Hc] Hn]. cbn in Hb, Hc, Hn.
  unfold answer_current_field.
  destruct (_validate_response _question_by_key k (strip m) (ob_responses st)) as [[valid norm] err].
  destruct valid; cbn [negb].
  2:{ destruct (assistant err) as [rep|]; [|exact Hs].
      destruct (_get_question_options k). split; [split|]; assumption. }
  destruct (_save_response k norm (ob_responses st)) as [r'|] eqn:Hsave; [|exact Hs].
  pose proof (save_agree _ _ _ _ Hsave) as Hagree.
  cbv zeta.
  destruct ((k =? "for_whom") && match norm with NStr v => v =? "family" | NList _ => false end)
    eqn:Hfam.
  { destruct (assistant registration_message) as [rep|]; [|exact Hs].
    unfold good, core_ok, summary, core; cbn. rewrite Hcomp. split; [split|exact Hn].
    - intros L' HL'. pose proof (answered_index_in_range _ _ _ _ _ _ _ HL Hk Hagree HL').
      repeat split; [lia|intros _; lia|intros HH; discriminate HH].
    - intros HH; discriminate HH. }
  destruct (String.eqb_spec k "previous_concern_followup") as [->|Hpcf].
  - (* the follow-up field is not among the steps read with [false] *)
    exfalso. apply nth_error_In in Hk.
    apply ordered_steps_shape in HL as (g & eh & da & Hg & _ & _ & ->).
    rewrite steps_rest_split in Hk.
    apply gender_segment_cases in Hg. destruct Hg as [Hg|[Hg|[Hg|Hg]]]; subst g;
    destruct (md_has_previous_sessions s), (get_or_empty_is _ "for_whom" "family"),
      (get_or_empty_is _ "for_whom" "me");
    cbn [steps_prefix app] in Hk; revert Hk; notin_steps.
  - destruct (String.eqb_spec k "medical_treatment") as [->|Hmed].
    + destruct (MTA s um reg _) as [s' o] eqn:E.
      assert (Hsum : summary s' = summary s \/ summary s' = (s.(md_has_previous_sessions),
                core (set_complete true (set_awaiting_answer false (set_step (S (step st))
                  (set_last_field (Some "medical_treatment") (set_last_answer (Some norm)
                    (set_ob_responses r' st)))))))).
      { change s' with (fst (s', o)). rewrite <- E. apply medical_treatment_answered_summary. }
      destruct Hsum as [Hsum|Hsum]; rewrite Hsum; [exact Hs|]. unfold good, core_ok, core; cbn. rewrite Hreg.
      split; [split|lia]; [|reflexivity].
      intros L' HL'.
      rewrite (ordered_steps_ext (ob_responses st) r') in HL'
        by (intros x Hx; apply Hagree; [exact Hx|]; intros ->;
            cbn in Hx; repeat (destruct Hx as [Hx|Hx]; [discriminate Hx|]); exact Hx).
      rewrite HL in HL'. injection HL' as <-.
      pose proof (medical_treatment_last _ _ _ _ HL Hk). lia.
    + split; [exact Hs|]. unfold good, core_ok, core; cbn.
      rewrite Hreg, Hcomp. split; [split; [split|]|].
      * intros L' HL'. pose proof (answered_index_in_range _ _ _ _ _ _ _ HL Hk Hagree HL').
        split; [lia|split; intros HH; discriminate HH].
      * intros HH; discriminate HH.
      * lia.
      * repeat split; assumption || reflexivity.
Qed.

Lemma continue_good n hp s1 st1 L msg ctx um uid reg ack history :
  good n (summary s1) -> good n (hp, core st1) -> s1.(md_has_previous_sessions) = hp ->
  st1.(awaiting_registration_confirmation) = false ->
  _ordered_steps st1.(ob_responses) hp false = Some L ->
  good n (summary (fst (
    if (st1.(step) <? length L)%nat then
      match (if st1.(awaiting_answer) then
               match nth_error L st1.(step) with
               | Some current_field => ACF s1 msg um uid reg current_field st1
               | None => inr (s1, st1, ack)
               end
             else inr (s1, st1, ack)) with
      | inl result => result
      | inr (s, st, acknowledgment) => ANF s msg um uid reg hp acknowledgment st
      end
    else FC s1 history msg ctx um reg st1))).
Proof.
  intros Hs Hst Hhp Hreg HL. subst hp.
  destruct (Nat.ltb_spec (step st1) (length L)) as [Hlt|Hge].
  - assert (Hcomp : complete st1 = false).
    { destruct Hst as [[Hb _] _]. cbn in Hb. destruct (complete st1); [|reflexivity].
      destruct (Hb L HL) as (_ & _ & H3). specialize (H3 eq_refl). lia. }
    destruct (awaiting_answer st1) eqn:Ha.
    + destruct (nth_error L (step st1)) as [k|] eqn:Hk; [|apply nth_error_None in Hk; lia].
      pose proof (answer_current_field_good n s1 msg um uid reg k st1 L Hs Hst Hreg Hcomp HL Hk) as HA.
      destruct (ACF s1 msg um uid reg k st1) as [[s' o]|[[s' st'] ack']]; [exact HA|].
      destruct HA as (H1 & H2 & H3 & H4 & H5 & H6). rewrite <- H3.
      apply ask_next_or_finish_good; assumption.
    + apply ask_next_or_finish_good; assumption.
  - cbn [fst]. rewrite free_chat_summary. exact Hs.
Qed.

Lemma handle_message_good s msg ctx :
  core_ok s.(md_has_previous_sessions) (core (_get_onboarding_state s)) ->
  good (_get_onboarding_state s).(step) (summary (fst (HM s msg ctx))).
Proof.
  intros Hinv.
  assert (Hs : good (_get_onboarding_state s).(step) (summary s)) by (split; [exact Hinv|cbn; lia]).
  destruct Hinv as [Hb Hc]. cbn in Hb, Hc.
  unfold handle_message. cbv zeta.
  destruct (chat_message "user" (Some msg)) as [um|]; [|exact Hs].
  match goal with |- context [if ?g then match _ with _ => _ end else None] => destruct g eqn:G end;
  [destruct (_ordered_steps (ob_responses (_get_onboarding_state s)) (md_has_previous_sessions s) false)
      as [[|f rest]|] eqn:E0; cbv beta iota|].
  2:{ destruct (assistant _) as [fr|]; [|exact Hs].
        destruct (_get_question_options f) as [opts qtype].
        rewrite !andb_true_iff in G. destruct G as [[[[_ G2] _] G4] _].
        apply negb_true_iff in G2. apply Nat.eqb_eq in G4.
        destruct (Hb _ eq_refl) as (H1 & H2 & H3).
        unfold good, core_ok, summary, core; cbn. rewrite G2.
        split; [split|lia]; [|intros HH; discriminate HH].
        intros L' HL'. rewrite E0 in HL'. injection HL' as <-. cbn [length].
        split; [lia|split; [intros _; lia|intros HH; discriminate HH]]. }
  2:{ exact Hs. }
  all: destruct (complete (_get_onboarding_state s) && recommendations_shown (_get_onboarding_state s));
    cbv beta iota; [destruct (assistant _); exact Hs|].
  all: try (destruct (_ordered_steps (ob_responses (_get_onboarding_state s))
                        (md_has_previous_sessions s) false) as [L|] eqn:HL;
            cbv beta iota; [|exact Hs]).
  all: destruct (awaiting_registration_confirmation (_get_onboarding_state s)) eqn:R; cbv beta iota.
  all: try (eapply continue_good; [exact Hs|exact Hs|reflexivity|exact R|eassumption]).
  all: destruct (str_in (lower (strip msg)) ["okay"; "ok"; "yes"; "yep"; "yeah"; "sure"; "alright"; "y"]);
    cbv beta iota.
  all: try (destruct (str_in (lower (strip msg)) ["no"; "nope"; "nah"; "n"]); cbv beta iota; [|exact Hs]).
  all: try (destruct (assistant _) as [?|]; cbv beta iota; [|exact Hs]).
  all: destruct (Hb _ eq_refl) as (H1 & H2 & H3); specialize (H2 eq_refl).
  all: assert (Hcomp : complete (_get_onboarding_state s) = false)
         by (destruct (complete (_get_onboarding_state s)); [specialize (H3 eq_refl); lia|reflexivity]).
  all: lazymatch goal with
  | |- good _ (summary (fst (_, _))) =>
      unfold good, core_ok, summary, core; cbn; split; [split|lia];
      [|rewrite Hcomp; intros HH; discriminate HH];
      intros L' HL'; (try rewrite HL in HL'); (try rewrite E0 in HL'); injection HL' as <-;
      split; [lia|split; [intros HH; discriminate HH|rewrite Hcomp; intros HH; discriminate HH]]
  | _ =>
      eapply continue_good with (hp := md_has_previous_sessions s);
      [ | | reflexivity | reflexivity | first [exact HL|exact E0] ];
      unfold good, core_ok, summary, core; cbn; (split; [split|lia]);
      [|rewrite Hcomp; intros HH; discriminate HH| |rewrite Hcomp; intros HH; discriminate HH];
      intros L' HL'; (try rewrite HL in HL'); (try rewrite E0 in HL'); injection HL' as <-;
      rewrite Hcomp;
      (split; [lia|split; intros HH; discriminate HH])
  end.
Qed.

Local Abbreviation RCH := (reachable _question_by_key _build_prompt _friendly_question
  _get_question_options _get_empathetic_acknowledgment _check_if_major_concern_same
  _get_previous_session_concerns_and_products find_relevant_products _format_product_recommendations
  generate_reply max_history_turns product_context_limit set_intersection_order).

Lemma reachable_core_ok s : RCH s ->
  core_ok s.(md_has_previous_sessions) (core (_get_onboarding_state s)).
Proof.
  induction 1 as [s Hf|s msg ctx _ IH].
  - destruct Hf as (H1 & H2 & H3 & H4). split; cbn.
    + intros L _. rewrite H1, H3, H4. split; [lia|split; intros HH; discriminate HH].
    + rewrite H4. intros HH; discriminate HH.
  - exact (proj1 (handle_message_good s msg ctx IH)).
Qed.

(** C6: in every session an interview passes through, the stored cursor is
    at most the length of the step list of the stored responses (for the
    session's [has_previous_sessions], and also for a first session, with or
    without the previous-concern follow-up), [awaiting_answer] is false once
    the interview is complete, and the next [handle_message] turn stores a
    cursor that is not smaller. *)
Theorem handle_message_state_invariant s :
  RCH s ->
  let st := _get_onboarding_state s in
  (forall sa L, _ordered_steps st.(ob_responses) s.(md_has_previous_sessions) sa = Some L ->
     st.(step) <= length L) /\
  (forall sa L, _ordered_steps st.(ob_responses) false sa = Some L -> st.(step) <= length L) /\
  (st.(complete) = true -> st.(awaiting_answer) = false) /\
  (forall message context,
     st.(step) <= (_get_onboarding_state (fst (HM s message context))).(step)).
Proof.
  intros Hr. pose proof (reachable_core_ok s Hr) as Hinv. cbv zeta.
  destruct Hinv as [Hb Hc]. cbn in Hb, Hc.
  assert (Hhp : forall sa L, _ordered_steps (ob_responses (_get_onboarding_state s))
                  (md_has_previous_sessions s) sa = Some L ->
                step (_get_onboarding_state s) <= length L).
  { intros sa L HL. destruct (ordered_steps_some _ _ _ (md_has_previous_sessions s) false _ HL)
      as [L0 HL0].
    pose proof (ordered_steps_sa_len _ _ _ _ _ HL HL0). destruct (Hb L0 HL0). lia. }
  split; [exact Hhp|]. split; [|split; [exact Hc|]].
  - intros sa L HL. destruct (md_has_previous_sessions s) eqn:Ehp; [|exact (Hhp sa L HL)].
    destruct (ordered_steps_some _ _ _ true false _ HL) as [L0 HL0].
    pose proof (ordered_steps_hp_len _ _ _ _ HL0 HL). specialize (Hhp false L0 HL0). lia.
  - intros message context. apply (handle_message_good s message context). split; assumption.
Qed.

(** C5 (amended): in a turn that answers the current field (an answer is
    awaited, no registration confirmation is pending) with a message that
    [ChatMessage] accepts, and whose answer the validator rejects, the
    stored state keeps its cursor, its responses and its pending answer.
    When the validator's error message is 1 to 2000 characters long, the
    user message and the error message are appended to the session and the
    reply is that error message with the field's options, so the same field
    is asked again; otherwise building the reply raises, the session is left
    as it was and there is no reply. *)
Theorem handle_message_rejected_answer s msg ctx L k v err :
  let st := _get_onboarding_state s in
  valid_content msg = true ->
  st.(awaiting_answer) = true -> st.(awaiting_registration_confirmation) = false ->
  _ordered_steps st.(ob_responses) s.(md_has_previous_sessions) false = Some L ->
  nth_error L st.(step) = Some k ->
  _validate_response _question_by_key k (strip msg) st.(ob_responses) = (false, v, err) ->
  let st' := _get_onboarding_state (fst (HM s msg ctx)) in
  st'.(step) = st.(step) /\ st'.(ob_responses) = st.(ob_responses) /\
  st'.(awaiting_answer) = true /\
  (valid_content err = true ->
     (fst (HM s msg ctx)).(messages)
     = (s.(messages) ++ [mkMsg "user" (Some msg); mkMsg "assistant" (Some err)])%list /\
     snd (HM s msg ctx)
     = Some (mkResp (Some (mkMsg "assistant" (Some err))) (fst (_get_question_options k))
               (snd (_get_question_options k)) None (_get_is_registered_from_session s))) /\
  (valid_content err = false -> HM s msg ctx = (s, None)).
Proof.
  cbv zeta. intros Hm Ha Hreg HL Hk Hv.
  assert (Hlt : (step (_get_onboarding_state s) <? length L)%nat = true)
    by (apply Nat.ltb_lt, nth_error_Some; congruence).
  unfold handle_message. cbv zeta.
  unfold chat_message. rewrite Hm. cbv beta iota.
  rewrite Ha, load_recommendations_shown, andb_false_r. cbv beta iota.
  rewrite andb_false_r. cbv beta iota.
  rewrite HL, Hreg. cbv beta iota. rewrite Hlt, Ha, Hk. cbv beta iota.
  unfold answer_current_field. rewrite Hv. cbv beta iota.
  unfold assistant, chat_message.
  destruct (_get_question_options k) as [opts qtype].
  destruct (valid_content err) eqn:He; cbv beta iota; cbn.
  - split; [reflexivity|]. split; [reflexivity|]. split; [first [exact Ha|reflexivity]|].
    split; [intros _; split; reflexivity|intros HH; discriminate HH].
  - split; [reflexivity|]. split; [reflexivity|]. split; [exact Ha|].
    split; [intros HH; discriminate HH|intros _; reflexivity].
Qed.


End Turn.

(** The session after two turns from a new session ("Hi", then "Ann"). *)
Lemma handle_message_state_invariant_witness :
  reachable demo_question_by_key demo_build_prompt demo_friendly_question
    demo_question_options demo_acknowledgment demo_major_concern_same demo_previous_session
    no_products demo_format_recommendations demo_generate_reply 10%nat 5%nat demo_intersection
    (fst (demo_handle_message no_products
            (fst (demo_handle_message no_products new_session "Hi" None)) "Ann" None)) /\
  forall message context,
    (_get_onboarding_state (fst (demo_handle_message no_products
        (fst (demo_handle_message no_products new_session "Hi" None)) "Ann" None))).(step)
    <= (_get_onboarding_state (fst (demo_handle_message no_products
          (fst (demo_handle_message no_products
            (fst (demo_handle_message no_products new_session "Hi" None)) "Ann" None))
          message context))).(step).
Proof.
  assert (R : reachable demo_question_by_key demo_build_prompt demo_friendly_question
    demo_question_options demo_acknowledgment demo_major_concern_same demo_previous_session
    no_products demo_format_recommendations demo_generate_reply 10%nat 5%nat demo_intersection
    (fst (demo_handle_message no_products
            (fst (demo_handle_message no_products new_session "Hi" None)) "Ann" None))).
  { apply reachable_turn, reachable_turn, reachable_fresh. vm_compute. repeat split. }
  split; [exact R|].
  exact (proj2 (proj2 (proj2 (handle_message_state_invariant demo_question_by_key demo_build_prompt demo_friendly_question
    demo_question_options demo_acknowledgment demo_major_concern_same demo_previous_session
    no_products demo_format_recommendations demo_generate_reply 10%nat 5%nat demo_intersection _ R)))).
Defined.

Lemma handle_message_rejected_answer_witness :
  (_get_onboarding_state (fst (demo_handle_message no_products name_question_session "A" None))).(step)
    = 0%nat /\
  (_get_onboarding_state (fst (demo_handle_message no_products name_question_session "A" None))).(ob_responses)
    = ∅ /\
  snd (demo_handle_message no_products name_question_session "A" None)
  = Some (mkResp (Some (mkMsg "assistant"
              (Some "I want to remember you, can you share a name with at least 2 letters? 😊")))
            None None None false).
Proof.
  pose proof (handle_message_rejected_answer demo_question_by_key demo_build_prompt demo_friendly_question
    demo_question_options demo_acknowledgment demo_major_concern_same demo_previous_session
    no_products demo_format_recommendations demo_generate_reply 10%nat 5%nat demo_intersection name_question_session "A" None empty_steps
    "name" (NStr "A") "I want to remember you, can you share a name with at least 2 letters? 😊"
    ltac:(vm_compute; reflexivity) ltac:(reflexivity) ltac:(reflexivity) ltac:(vm_compute; reflexivity)
    ltac:(vm_compute; reflexivity) ltac:(vm_compute; reflexivity)) as (H1 & H2 & _ & H4 & _).
  destruct (H4 ltac:(vm_compute; reflexivity)) as [_ H5].
  split; [exact H1|split; [exact H2|exact H5]].
Defined.


(** C5 counterexample: with a stored name of 1990 letters, a non-numeric
    answer to [age] is rejected, but the error message names the user and
    is longer than 2000 characters, so building the reply raises: there is
    no reply re-asking the field, and the session is left as it was. *)
Lemma rejected_answer_long_name_counterexample :
  fst (fst (_validate_response demo_question_by_key "age" (strip "abc")
              (_get_onboarding_state long_name_age_session).(ob_responses))) = false /\
  valid_content (snd (_validate_response demo_question_by_key "age" (strip "abc")
              (_get_onboarding_state long_name_age_session).(ob_responses))) = false /\
  demo_handle_message no_products long_name_age_session "abc" None = (long_name_age_session, None).
Proof. vm_compute. repeat split. Qed.


Lemma str_app_cons (x : ascii) (a b : string) : (String x a ++ b) = String x (a ++ b).
Proof. reflexivity. Qed.

Lemma str_app_nil (b : string) : ("" ++ b) = b.
Proof. reflexivity. Qed.

Lemma str_app_nil_r (a : string) : (a ++ "") = a.
Proof. induction a as [|x a IH]; [reflexivity|]. rewrite str_app_cons, IH. reflexivity. Qed.

Lemma substring_all (t : string) : substring 0 (String.length t) t = t.
Proof. induction t as [|a t IH]; cbn; [reflexivity|]. rewrite IH. reflexivity. Qed.

Lemma drop_concern_prefix (t : string) : drop 8 ("concern|" ++ t) = t.
Proof. unfold drop. rewrite !str_app_cons, str_app_nil. simpl. rewrite ?Nat.sub_0_r. apply substring_all. Qed.

Lemma str_app_assoc (a b c : string) : (a ++ b ++ c) = ((a ++ b) ++ c).
Proof. induction a as [|x a IH]; [reflexivity|]. rewrite !str_app_cons, IH. reflexivity. Qed.

Lemma split_bar_once_key (acc c q : string) :
  ~ In "|"%char (list_ascii_of_string c) ->
  split_bar_once acc (c ++ "|" ++ q) = Some (acc ++ c, q).
Proof.
  revert acc; induction c as [|a c IH]; intros acc Hc.
  - rewrite str_app_nil, str_app_nil_r. reflexivity.
  - rewrite str_app_cons. cbn [split_bar_once].
    destruct (Ascii.eqb_spec a "|") as [->|Ha]; [exfalso; apply Hc; left; reflexivity|].
    rewrite IH by (intros H; apply Hc; right; exact H).
    rewrite <- str_app_assoc. reflexivity.
Qed.


Lemma parse_concern_field_key (c q : string) :
  ~ In "|"%char (list_ascii_of_string c) ->
  _parse_concern_field (_concern_field_key c q) = Some (c, q).
Proof.
  intros Hc. unfold _parse_concern_field, _concern_field_key. rewrite prefix_app.
  rewrite drop_concern_prefix. apply split_bar_once_key, Hc.
Qed.


(** C7: when [eating_habits] is ["vegan"] or ["vegetarian"], the step list
    of [_ordered_steps] contains neither [meat_intake] nor [fish_intake],
    for every other response and every flag. *)
Theorem ordered_steps_plant_based r hp sa eh steps :
  r !! "eating_habits" = Some (RStr eh) -> (eh = "vegan" \/ eh = "vegetarian") ->
  _ordered_steps r hp sa = Some steps ->
  ~ In "meat_intake" steps /\ ~ In "fish_intake" steps.
Proof.
  intros Heh Hv HL.
  apply ordered_steps_shape in HL as (g & eh' & da & Hg & Heh' & _ & ->).
  unfold get_lower in Heh'. rewrite Heh in Heh'. injection Heh' as <-.
  assert (Hveg : str_in (lower eh) ["vegetarian"; "vegan"] = true)
    by (destruct Hv as [->| ->]; reflexivity).
  rewrite Hveg, steps_rest_split.
  apply gender_segment_cases in Hg. destruct Hg as [Hg|[Hg|[Hg|Hg]]]; subst g;
  destruct hp, (get_or_empty_is r "for_whom" "family"), (get_or_empty_is r "for_whom" "me");
  cbn [steps_prefix app]; split; notin_steps.
Qed.

Lemma ordered_steps_plant_based_witness :
  _ordered_steps (<["eating_habits" := RStr "vegan"]> ∅) false false
    = Some ["name"; "for_whom"; "age"; "email"; "knowledge"; "vitamin_count"; "protein"; "gender";
            "concern"; "lifestyle_status"; "fruit_intake"; "vegetable_intake"; "dairy_intake";
            "fiber_intake"; "protein_intake"; "eating_habits"; "drinks_alcohol"; "coffee_intake";
            "smokes"; "allergies"; "dietary_preferences"; "sunlight_exposure"; "iron_advised";
            "ayurveda_view"; "new_product_attitude"; "medical_treatment"] /\
  ~ In "meat_intake" ["name"; "for_whom"; "age"; "email"; "knowledge"; "vitamin_count"; "protein"; "gender";
            "concern"; "lifestyle_status"; "fruit_intake"; "vegetable_intake"; "dairy_intake";
            "fiber_intake"; "protein_intake"; "eating_habits"; "drinks_alcohol"; "coffee_intake";
            "smokes"; "allergies"; "dietary_preferences"; "sunlight_exposure"; "iron_advised";
            "ayurveda_view"; "new_product_attitude"; "medical_treatment"] /\
  ~ In "fish_intake" ["name"; "for_whom"; "age"; "email"; "knowledge"; "vitamin_count"; "protein"; "gender";
            "concern"; "lifestyle_status"; "fruit_intake"; "vegetable_intake"; "dairy_intake";
            "fiber_intake"; "protein_intake"; "eating_habits"; "drinks_alcohol"; "coffee_intake";
            "smokes"; "allergies"; "dietary_preferences"; "sunlight_exposure"; "iron_advised";
            "ayurveda_view"; "new_product_attitude"; "medical_treatment"].
Proof.
  assert (H : _ordered_steps (<["eating_habits" := RStr "vegan"]> ∅) false false
    = Some ["name"; "for_whom"; "age"; "email"; "knowledge"; "vitamin_count"; "protein"; "gender";
            "concern"; "lifestyle_status"; "fruit_intake"; "vegetable_intake"; "dairy_intake";
            "fiber_intake"; "protein_intake"; "eating_habits"; "drinks_alcohol"; "coffee_intake";
            "smokes"; "allergies"; "dietary_preferences"; "sunlight_exposure"; "iron_advised";
            "ayurveda_view"; "new_product_attitude"; "medical_treatment"]) by (vm_compute; reflexivity).
  split; [exact H|].
  apply (ordered_steps_plant_based (<["eating_habits" := RStr "vegan"]> ∅) false false "vegan" _); [reflexivity|left; reflexivity|exact H].
Defined.


(** C3 counterexample: saving an answer to [concern|sleep|hours] does not
    store it under the key [concern|sleep|hours]. *)
Lemma save_response_concern_key_counterexample :
  option_map (fun r => r !! "concern|sleep|hours") (_save_response "concern|sleep|hours" (NStr "7") ∅)
  = Some None.
Proof. vm_compute. reflexivity. Qed.

(** C3 (amended): saving an answer to the follow-up field
    [concern|<c>|<q>] (with no bar in [c]) stores the value in the nested
    dict [concern_details[c][q]], keeps the other questions of [c] and the
    other concerns' buckets, and leaves every other response key unchanged;
    answers to follow-ups of different concerns go to different buckets. *)
Theorem save_response_concern_nested c q v r :
  ~ In "|"%char (list_ascii_of_string c) ->
  (r !! "concern_details" = None \/ exists d, r !! "concern_details" = Some (RDetails d)) ->
  exists r',
    _save_response (_concern_field_key c q) v r = Some r' /\
    r' !! "concern_details"
      = Some (RDetails (<[c := <[q := v]> (default ∅ (details_of r !! c))]> (details_of r))) /\
    (forall x, x <> "concern_details" -> r' !! x = r !! x).
Proof.
  intros Hc Hd. unfold _save_response.
  assert (E : String.eqb (_concern_field_key c q) "concern" = false) by reflexivity. rewrite E.
  rewrite parse_concern_field_key by exact Hc.
  unfold details_of.
  destruct Hd as [Hd|[d Hd]]; rewrite Hd; eexists; (split; [reflexivity|]);
    (split; [apply lookup_insert_eq|intros x Hx; apply lookup_insert_ne; congruence]).
Qed.

Lemma save_response_concern_nested_witness :
  exists r',
    _save_response (_concern_field_key "sleep" "hours") (NStr "7") ∅ = Some r' /\
    r' !! "concern_details"
      = Some (RDetails (<["sleep" := <["hours" := NStr "7"]> (default ∅ (details_of ∅ !! "sleep"))]> (details_of ∅))) /\
    (forall x, x <> "concern_details" -> r' !! x = (∅ : responses) !! x).
Proof.
  apply save_response_concern_nested.
  - vm_compute. intros [H|[H|[H|[H|[H|[]]]]]]; discriminate H.
  - left. reflexivity.
Defined.

(** ** Product recommendations and safety *)

Import Catalog.

(** C4: a product containing retinol, for a pregnant woman, gets no
    pregnancy warning from [get_safety_warnings]: [_detect_pregnancy_concerns]
    returns [None] unless the text mentions "high dose" or "megadose"; with
    "high dose" in its description the same product gets the vitamin A
    warning. *)
Theorem pregnancy_warning_needs_high_dose :
  get_safety_warnings retinol_supplement pregnant_context = Some [] /\
  get_safety_warnings high_dose_retinol_supplement pregnant_context
  = Some ["This product contains Vitamin A (retinol). High doses of Vitamin A can be harmful during pregnancy. Please consult your healthcare provider before use."].
Proof. split; vm_compute; reflexivity. Qed.

Lemma shellfish_allergy_contains p :
  any_in SHELLFISH_TERMS (lower (_get_all_product_text_for_allergen_check p)) = true ->
  _product_contains_allergens p "shellfish and crustaceans" = true.
Proof.
  intros H. unfold _product_contains_allergens. cbv zeta.
  assert (E : map strip (split "," (replace "shellfish and crustaceans" "shellfish,crustaceans"
                (lower "shellfish and crustaceans"))) = ["shellfish"; "crustaceans"])
    by (vm_compute; reflexivity).
  rewrite E. apply existsb_exists. exists "shellfish". split; [left; reflexivity|]. exact H.
Qed.

(** C9: a product whose allergen-check text contains a term of the
    shellfish set is not accepted by [_is_safe_and_suitable] when the
    allergies answer is "shellfish and crustaceans"; with the allergies
    answer "no" the filter gives the same result as with no allergies
    answer at all, so it never rejects on allergen grounds. *)
Theorem shellfish_allergy_filter p ctx :
  ctx !! "allergies" = Some (RStr "shellfish and crustaceans") ->
  any_in SHELLFISH_TERMS (lower (_get_all_product_text_for_allergen_check p)) = true ->
  _is_safe_and_suitable p ctx <> Some true /\
  (forall ctx', _is_safe_and_suitable p (<["allergies" := RStr "no"]> ctx')
                = _is_safe_and_suitable p (delete "allergies" ctx')).
Proof.
  intros Ha Hp. split.
  - unfold _is_safe_and_suitable.
    assert (Hne : empty_ctx ctx = false).
    { unfold empty_ctx. apply bool_decide_eq_false. intros ->. rewrite lookup_empty in Ha. discriminate. }
    rewrite Hne. destruct (get_lower ctx "eating_habits") as [eh|]; cbn [mbind option_bind]; [|discriminate].
    destruct (_ && _ && _); [discriminate|].
    rewrite Ha, shellfish_allergy_contains by exact Hp. cbn. discriminate.
  - intros ctx'. unfold _is_safe_and_suitable, get_lower.
    assert (Hne : empty_ctx (<["allergies" := RStr "no"]> ctx') = false).
    { unfold empty_ctx. apply bool_decide_eq_false. apply insert_non_empty. }
    rewrite Hne, lookup_insert_eq, lookup_delete_eq.
    rewrite !(lookup_insert_ne ctx' "allergies") by discriminate.
    rewrite !(lookup_delete_ne ctx' "allergies") by discriminate.
    unfold empty_ctx. destruct (bool_decide (delete "allergies" ctx' = ∅)) eqn:Hd.
    + apply bool_decide_eq_true in Hd.
      assert (Hk : forall k, k <> "allergies" -> ctx' !! k = None).
      { intros k Hk. rewrite <- (lookup_delete_ne ctx' "allergies" k) by congruence.
        rewrite Hd. apply lookup_empty. }
      rewrite !Hk by discriminate. reflexivity.
    + cbn. reflexivity.
Qed.

Lemma shellfish_allergy_filter_witness :
  _is_safe_and_suitable shrimp_product shellfish_allergy_context <> Some true.
Proof.
  exact (proj1 (shellfish_allergy_filter shrimp_product shellfish_allergy_context
    ltac:(vm_compute; reflexivity) ltac:(vm_compute; reflexivity))).
Defined.


Lemma score_products_spec mongo kw cs ctx crit l :
  score_products mongo kw cs ctx crit = Some l ->
  forall x, In x l -> In (snd x) mongo /\ is_active (snd x) = true /\
    effective_score (snd x) kw cs ctx crit = Some (fst x) /\ 1 <= fst x.
Proof.
  revert l; induction mongo as [|p t IH]; intros l; cbn [score_products].
  - intros [= <-] x [].
  - destruct (is_active p) eqn:Ha; cbn [negb].
    + destruct (effective_score p kw cs ctx crit) as [sc|] eqn:Hs; [|discriminate].
      destruct (score_products t kw cs ctx crit) as [rest|] eqn:Hr; cbn [mbind option_bind]; [|discriminate].
      intros [= <-] x Hx. destruct (Nat.ltb_spec 0 sc) as [Hlt|_].
      * destruct Hx as [<-|Hx]; [cbn; repeat split; auto; lia|].
        destruct (IH rest eq_refl x Hx) as (H1 & H2 & H3 & H4). repeat split; auto. right; exact H1.
      * destruct (IH rest eq_refl x Hx) as (H1 & H2 & H3 & H4). repeat split; auto. right; exact H1.
    + intros Hr x Hx. destruct (IH l Hr x Hx) as (H1 & H2 & H3 & H4). repeat split; auto. right; exact H1.
Qed.

Lemma insert_desc_In x y l : In y (insert_desc x l) -> y = x \/ In y l.
Proof.
  induction l as [|z t IH]; cbn [insert_desc].
  - intros [<-|[]]. left; reflexivity.
  - destruct (fst z <? fst x)%nat.
    + intros [<-|H]; [left; reflexivity|right; exact H].
    + intros [<-|H]; [right; left; reflexivity|]. destruct (IH H) as [->|H']; [left; reflexivity|right; right; exact H'].
Qed.

Lemma sort_desc_In l y : In y (sort_desc l) -> In y l.
Proof.
  unfold sort_desc. intros H. apply in_rev.
  induction (rev l) as [|z t IH]; cbn [fold_right] in H; [destruct H|].
  destruct (insert_desc_In _ _ _ H) as [->|H']; [left; reflexivity|right; apply IH, H'].
Qed.

Lemma filter_products_spec l ctx inc exc ea acc res :
  filter_products l ctx inc exc ea acc = Some res ->
  forall prod, In prod res -> In prod acc \/
    exists x, In x l /\ 1 <= fst x /\ prod = _mongo_to_product (snd x).
Proof.
  revert acc; induction l as [|[sc p] t IH]; intros acc; cbn [filter_products].
  - intros [= <-] prod H. left; exact H.
  - destruct (Nat.ltb_spec sc 1) as [Hlt|Hge].
    + destruct (1 <=? length acc)%nat.
      * intros [= <-] prod H. left; exact H.
      * intros Hf prod H. destruct (IH acc Hf prod H) as [H'|(x & Hx & H1 & H2)]; [left; exact H'|].
        right. exists x. split; [right; exact Hx|auto].
    + assert (Hskip : filter_products t ctx inc exc ea acc = Some res -> forall prod, In prod res ->
                In prod acc \/ exists x, In x ((sc, p) :: t) /\ 1 <= fst x /\ prod = _mongo_to_product (snd x)).
      { intros Hf prod H. destruct (IH acc Hf prod H) as [H'|(x & Hx & H1 & H2)]; [left; exact H'|].
        right. exists x. split; [right; exact Hx|auto]. }
      destruct (match inc with Some inc => negb (str_in (p_title (_mongo_to_product p)) inc) | None => false end);
        [exact Hskip|].
      destruct (str_in (p_title (_mongo_to_product p)) exc); [exact Hskip|].
      destruct (ea && _is_ayurveda_product p); [exact Hskip|].
      destruct (_is_safe_and_suitable p ctx) as [[|]|]; [|exact Hskip|discriminate].
      assert (Hnew : forall prod, In prod (acc ++ [_mongo_to_product p])%list -> In prod acc \/
                exists x, In x ((sc, p) :: t) /\ 1 <= fst x /\ prod = _mongo_to_product (snd x)).
      { intros prod H. apply in_app_or in H as [H|[<-|[]]]; [left; exact H|].
        right. exists (sc, p). split; [left; reflexivity|cbn; split; [lia|reflexivity]]. }
      destruct (3 <=? length (acc ++ [_mongo_to_product p]))%nat.
      * intros [= <-]. exact Hnew.
      * intros Hf prod H. destruct (IH _ Hf prod H) as [H'|(x & Hx & H1 & H2)].
        -- exact (Hnew prod H').
        -- right. exists x. split; [right; exact Hx|auto].
Qed.

(** C1: [find_relevant_products] returns at most 3 products, and each of
    them comes from an active document of the catalog search (queried with
    the message terms and health goals the function computes) whose ranking
    score, with [search_used_criteria] as the function computes it, is at
    least 1 half point, i.e. at least 0.5: it is the document's
    [_score_product] score, raised to the 0.5 floor only when that score is
    0. *)
Theorem find_relevant_products_cap search message ctx limit exclude include :
  let concerns := _extract_concerns ctx in
  let keywords := _extract_keywords concerns message in
  let health_goals := _concerns_to_health_goals concerns in
  let message_terms := match message with
                       | Some m => if String.eqb m "" then [] else _extract_terms m
                       | None => []
                       end in
  let search_used_criteria :=
    negb (bool_decide (health_goals = [])) || negb (bool_decide (message_terms = []))
    || match include with Some (_ :: _) => true | _ => false end in
  let result := fst (find_relevant_products search message ctx limit exclude include) in
  length result <= 3 /\
  forall prod, In prod result ->
    exists n mongo d raw sc,
      search message_terms health_goals n include = Some mongo /\ In d mongo /\ is_active d = true /\
      _score_product d keywords concerns ctx = Some raw /\
      effective_score d keywords concerns ctx search_used_criteria = Some sc /\
      sc = (if (raw =? 0)%nat then 1 else raw) /\
      1 <= sc /\ prod = _mongo_to_product d.
Proof.
  cbv zeta. unfold find_relevant_products. cbv zeta.
  match goal with |- context [search ?a ?b ?c include] =>
    destruct (search a b c include) as [[|p0 t0]|] eqn:Hs end;
    [cbn; split; [lia|intros _ []]| |cbn; split; [lia|intros _ []]].
  match goal with |- context [score_products ?m ?kw ?cs ctx ?cr] =>
    destruct (score_products m kw cs ctx cr) as [scored|] eqn:Hsc end;
    [|cbn; split; [lia|intros _ []]].
  destruct (_should_exclude_ayurveda ctx) as [excl|]; [|cbn; split; [lia|intros _ []]].
  match goal with |- context [filter_products ?l ctx ?i exclude excl []] =>
    destruct (filter_products l ctx i exclude excl []) as [filtered|] eqn:Hf end;
    [|cbn; split; [lia|intros _ []]].
  cbn [fst]. split; [rewrite length_firstn; lia|].
  intros prod Hin0.
  assert (Hin : In prod filtered) by (rewrite <- (firstn_skipn 3 filtered); apply in_or_app; left; exact Hin0).
  destruct (filter_products_spec _ _ _ _ _ _ _ Hf prod Hin) as [[]|(x & Hx & H1 & ->)].
  apply sort_desc_In in Hx.
  destruct (score_products_spec _ _ _ _ _ _ Hsc x Hx) as (H2 & H3 & H4 & H5).
  assert (Hcrit : match include with Some (_ :: _) => true | _ => false end
                  = match match include with Some ((_ :: _) as l) => Some l | _ => None end with
                    | Some _ => true | None => false end)
    by (destruct include as [[|]|]; reflexivity).
  rewrite Hcrit.
  pose proof H4 as H4'. unfold effective_score in H4'.
  destruct (_score_product (snd x) _ _ ctx) as [raw|] eqn:Hraw; [|discriminate H4'].
  cbn [mbind option_bind] in H4'. injection H4' as H4'.
  exists (2 * match limit with Some (S n) => S n | _ => 20 end)%nat, (p0 :: t0), (snd x), raw, (fst x).
  split; [exact Hs|]. split; [exact H2|]. split; [exact H3|].
  split; [exact Hraw|]. split; [exact H4|]. split; [|split; [lia|reflexivity]].
  rewrite <- H4'. destruct (raw =? 0)%nat; [|reflexivity].
  destruct (_ || _); [reflexivity|].
  destruct (_extract_keywords _ _), (_extract_concerns ctx); cbn in H4' |- *; lia.
Qed.

(* ------------------------------------------------------------------ *)
(** * Further properties of the code *)

(** *** Stripping *)

Lemma lstrip_cases s :
  lstrip s = EmptyString \/ exists c t, lstrip s = String c t /\ is_space c = false.
Proof.
  induction s as [|c t IH]; cbn [lstrip]; [left; reflexivity|].
  destruct (is_space c) eqn:Hc; [exact IH|right; exists c, t; auto].
Qed.

Lemma lstrip_nonspace c t : is_space c = false -> lstrip (String c t) = String c t.
Proof. intros H. cbn [lstrip]. rewrite H. reflexivity. Qed.

Lemma lstrip_app_last x c :
  is_space c = false -> exists x', lstrip (x ++ String c "") = x' ++ String c "".
Proof.
  intros Hc. induction x as [|d t IH]; cbn [lstrip].
  - rewrite str_app_nil. cbn [lstrip]. rewrite Hc. exists "". reflexivity.
  - rewrite str_app_cons. cbn [lstrip]. destruct (is_space d); [exact IH|].
    exists (String d t). rewrite str_app_cons. reflexivity.
Qed.

Lemma string_of_list_ascii_app l1 l2 :
  string_of_list_ascii (l1 ++ l2) = string_of_list_ascii l1 ++ string_of_list_ascii l2.
Proof.
  induction l1 as [|c t IH]; cbn; [rewrite str_app_nil; reflexivity|].
  rewrite IH, str_app_cons. reflexivity.
Qed.

Lemma list_ascii_of_string_app s1 s2 :
  list_ascii_of_string (s1 ++ s2) = (list_ascii_of_string s1 ++ list_ascii_of_string s2)%list.
Proof.
  induction s1 as [|c t IH]; [rewrite str_app_nil; reflexivity|].
  rewrite str_app_cons. cbn. rewrite IH. reflexivity.
Qed.

Lemma rev_str_involutive s : rev_str (rev_str s) = s.
Proof.
  unfold rev_str. rewrite list_ascii_of_string_of_list_ascii, rev_involutive.
  apply string_of_list_ascii_of_string.
Qed.

Lemma rev_str_cons c t : rev_str (String c t) = rev_str t ++ String c "".
Proof. unfold rev_str. cbn. rewrite string_of_list_ascii_app. reflexivity. Qed.

Lemma rev_str_snoc x c : rev_str (x ++ String c "") = String c (rev_str x).
Proof.
  unfold rev_str. rewrite list_ascii_of_string_app. cbn.
  rewrite rev_app_distr. reflexivity.
Qed.

Lemma rev_str_empty : rev_str "" = "".
Proof. reflexivity. Qed.

Lemma strip_trimmed s : trimmed (strip s).
Proof.
  unfold strip. destruct (lstrip_cases s) as [->|(c & t & -> & Hc)].
  - left. reflexivity.
  - rewrite rev_str_cons. destruct (lstrip_app_last (rev_str t) c Hc) as [x' Hx'].
    rewrite Hx'. destruct (lstrip_cases (rev_str t ++ String c "")) as [H0|(d & u & Hd & Hdu)].
    + rewrite Hx' in H0. destruct x'; discriminate.
    + right. exists c, (rev_str x'), (rev_str u), d. rewrite rev_str_snoc.
      split; [reflexivity|]. split; [|auto]. rewrite <- rev_str_cons, <- Hd, Hx'.
      rewrite rev_str_snoc. reflexivity.
Qed.

Lemma strip_trimmed_fix s : trimmed s -> strip s = s.
Proof.
  intros [->|(c & t & x & d & H1 & H2 & Hc & Hd)]; [reflexivity|].
  unfold strip. rewrite H1, lstrip_nonspace by exact Hc. rewrite <- H1, H2.
  rewrite rev_str_snoc, lstrip_nonspace by exact Hd. rewrite <- rev_str_snoc.
  apply rev_str_involutive.
Qed.

Lemma strip_idempotent s : strip (strip s) = strip s.
Proof. apply strip_trimmed_fix, strip_trimmed. Qed.

(** Every character of a string that strip removes is a blank. *)
Lemma lstrip_in s c : In c (list_ascii_of_string s) ->
  is_space c = true \/ In c (list_ascii_of_string (lstrip s)).
Proof.
  induction s as [|d t IH]; cbn; [intros []|].
  destruct (is_space d) eqn:Hd.
  - intros [<-|H]; [left; exact Hd|exact (IH H)].
  - intros H. right. exact H.
Qed.

Lemma rev_str_in s c : In c (list_ascii_of_string (rev_str s)) <-> In c (list_ascii_of_string s).
Proof. unfold rev_str. rewrite list_ascii_of_string_of_list_ascii, <- in_rev. reflexivity. Qed.

Lemma strip_in s c : In c (list_ascii_of_string s) ->
  is_space c = true \/ In c (list_ascii_of_string (strip s)).
Proof.
  intros H. destruct (lstrip_in s c H) as [Hs|H1]; [left; exact Hs|].
  apply rev_str_in in H1. destruct (lstrip_in _ c H1) as [Hs|H2]; [left; exact Hs|].
  right. unfold strip. apply rev_str_in. exact H2.
Qed.

Lemma strip_all_space s : forallb is_space (list_ascii_of_string s) = true -> strip s = "".
Proof.
  intros H. assert (lstrip s = "") as E.
  { induction s as [|c t IH]; [reflexivity|]. cbn in H |- *.
    apply andb_prop in H as [-> H]. exact (IH H). }
  unfold strip. rewrite E. reflexivity.
Qed.

(** *** Lower case *)

Lemma lower_char_idem c : lower_char (lower_char c) = lower_char c.
Proof. destruct c as [[] [] [] [] [] [] [] []]; reflexivity. Qed.

Lemma is_space_lower_char c : is_space (lower_char c) = is_space c.
Proof. destruct c as [[] [] [] [] [] [] [] []]; reflexivity. Qed.

Lemma lower_idem s : lower (lower s) = lower s.
Proof. induction s as [|c t IH]; cbn; [reflexivity|]. rewrite lower_char_idem, IH. reflexivity. Qed.

Lemma lower_app s1 s2 : lower (s1 ++ s2) = lower s1 ++ lower s2.
Proof.
  induction s1 as [|c t IH]; [rewrite !str_app_nil; reflexivity|].
  rewrite str_app_cons. cbn. rewrite IH, str_app_cons. reflexivity.
Qed.

Lemma lower_length s : String.length (lower s) = String.length s.
Proof. induction s as [|c t IH]; cbn; congruence. Qed.

Lemma lower_trimmed s : trimmed s -> trimmed (lower s).
Proof.
  intros [->|(c & t & x & d & H1 & H2 & Hc & Hd)]; [left; reflexivity|].
  right. exists (lower_char c), (lower t), (lower x), (lower_char d).
  rewrite !is_space_lower_char. split; [rewrite H1; reflexivity|].
  split; [|auto]. rewrite H2, lower_app. reflexivity.
Qed.

Lemma lower_strip_fix s : strip (lower (strip s)) = lower (strip s).
Proof. apply strip_trimmed_fix, lower_trimmed, strip_trimmed. Qed.


Import Validation.

Lemma substring_snoc x d : substring (String.length x) 1 (x ++ String d "") = String d "".
Proof. induction x as [|c t IH]; [reflexivity|]. rewrite str_app_cons. cbn. exact IH. Qed.

Lemma length_app_snoc x d : String.length (x ++ String d "") = S (String.length x).
Proof. induction x as [|c t IH]; [reflexivity|]. rewrite str_app_cons. cbn. rewrite IH. reflexivity. Qed.

Lemma match_hex_trimmed n s : trimmed s ->
  match_hex n s = ((String.length s =? n)%nat && all_hex s).
Proof.
  intros Ht. unfold match_hex.
  destruct ((String.length s =? S n)%nat) eqn:Hl; [|rewrite !andb_false_l, orb_false_r; reflexivity].
  apply Nat.eqb_eq in Hl.
  destruct Ht as [->|(c & t & x & d & _ & H2 & _ & Hd)]; [discriminate|].
  subst s. rewrite length_app_snoc in Hl. injection Hl as Hl. rewrite <- Hl, substring_snoc.
  replace (String.eqb (String d "") (String "010" "")) with false.
  - rewrite andb_false_r, orb_false_r. reflexivity.
  - symmetry. apply String.eqb_neq. intros [= ->]. discriminate.
Qed.

Lemma is_hex_lower_char c : is_hex (lower_char c) = is_hex c.
Proof. destruct c as [[] [] [] [] [] [] [] []]; reflexivity. Qed.

Lemma all_hex_lower s : all_hex (lower s) = all_hex s.
Proof.
  unfold all_hex. induction s as [|c t IH]; [reflexivity|]. cbn.
  rewrite is_hex_lower_char. cbn in IH. rewrite IH. reflexivity.
Qed.

Lemma length_list_ascii s : length (list_ascii_of_string s) = String.length s.
Proof. induction s as [|c t IH]; cbn; congruence. Qed.

Lemma eqb_nonempty_length s n : String.length s = S n -> String.eqb s "" = false.
Proof. destruct s; [discriminate|reflexivity]. Qed.

Lemma sub_aux_filter (p : ascii -> bool) s :
  list_ascii_of_string
    (sub_aux (fun t => match t with
                       | String c _ => if p c then Some 1%nat else None
                       | EmptyString => None
                       end) "" 0 s)
  = List.filter (fun c => negb (p c)) (list_ascii_of_string s).
Proof.
  induction s as [|c t IH]; [reflexivity|]. cbn [sub_aux].
  cbn [list_ascii_of_string List.filter]. destruct (p c) eqn:Hc; cbn [negb].
  - rewrite str_app_nil. exact IH.
  - cbn [list_ascii_of_string]. f_equal. exact IH.
Qed.

Lemma sub_aux_filter_neg (p : ascii -> bool) s :
  list_ascii_of_string
    (sub_aux (fun t => match t with
                       | String c _ => if p c then None else Some 1%nat
                       | EmptyString => None
                       end) "" 0 s)
  = List.filter p (list_ascii_of_string s).
Proof.
  induction s as [|c t IH]; [reflexivity|]. cbn [sub_aux].
  cbn [list_ascii_of_string List.filter]. destruct (p c) eqn:Hc.
  - cbn [list_ascii_of_string]. f_equal. exact IH.
  - rewrite str_app_nil. exact IH.
Qed.

(** [validate_session_id] returns the input stripped and lower-cased, and
    only when that is 24 or 32 hexadecimal characters; the value returned is
    already lower case and is accepted again unchanged. *)
Theorem validate_session_id_normal_form s r :
  validate_session_id s = Ok r ->
  r = lower (strip s) /\
  (String.length r = 24 \/ String.length r = 32)%nat /\ all_hex r = true /\ lower r = r /\
  validate_session_id r = Ok r.
Proof.
  unfold validate_session_id. destruct (String.eqb s "") eqn:He; [discriminate|].
  destruct (String.eqb (strip s) "") eqn:He2; [discriminate|].
  rewrite !(match_hex_trimmed _ _ (strip_trimmed s)).
  destruct ((String.length (strip s) =? 24)%nat && all_hex (strip s)) eqn:H24;
  destruct ((String.length (strip s) =? 32)%nat && all_hex (strip s)) eqn:H32;
    cbn [negb andb]; try discriminate; intros [= <-];
    (assert (Hlen : (String.length (strip s) = 24 \/ String.length (strip s) = 32)%nat /\
                    all_hex (strip s) = true)
       by (apply andb_prop in H24 as [H1 H2] || apply andb_prop in H32 as [H1 H2];
           apply Nat.eqb_eq in H1; split; [lia|exact H2]));
    destruct Hlen as [Hlen Hhex];
    (split; [reflexivity|]);
    (split; [rewrite lower_length; exact Hlen|]);
    (split; [rewrite all_hex_lower; exact Hhex|]);
    (split; [apply lower_idem|]);
    rewrite lower_strip_fix;
    (destruct Hlen as [Hlen|Hlen];
     rewrite (eqb_nonempty_length _ _ (eq_trans (lower_length _) Hlen));
     rewrite !(match_hex_trimmed _ _ (lower_trimmed _ (strip_trimmed s)));
     rewrite lower_length, Hlen, all_hex_lower, Hhex; cbn; rewrite lower_idem; reflexivity).
Qed.

(** A user id accepted by [validate_user_id] is the input stripped and
    lower-cased, 24 hexadecimal characters long; it is accepted again
    unchanged by [validate_user_id] and by [validate_session_id], and
    [normalize_user_id] maps the raw input to the same value. *)
Theorem validate_user_id_compat u r :
  validate_user_id u = Ok r ->
  r = lower (strip u) /\ String.length r = 24%nat /\ all_hex r = true /\
  validate_user_id r = Ok r /\ validate_session_id r = Ok r /\
  normalize_user_id (Some u) = Some r.
Proof.
  unfold validate_user_id. destruct (String.eqb u "") eqn:He; [discriminate|].
  rewrite (match_hex_trimmed _ _ (strip_trimmed u)).
  destruct ((String.length (strip u) =? 24)%nat && all_hex (strip u)) eqn:H24; [|discriminate].
  cbn [negb]. intros [= <-]. apply andb_prop in H24 as [Hl Hhex]. apply Nat.eqb_eq in Hl.
  assert (Hne : String.eqb (lower (strip u)) "" = false)
    by exact (eqb_nonempty_length _ _ (eq_trans (lower_length _) Hl)).
  assert (Hm : forall n, match_hex n (lower (strip u)) = (24 =? n)%nat)
    by (intros n; rewrite (match_hex_trimmed _ _ (lower_trimmed _ (strip_trimmed u))),
          lower_length, Hl, all_hex_lower, Hhex, andb_true_r; reflexivity).
  split; [reflexivity|]. split; [rewrite lower_length; exact Hl|].
  split; [rewrite all_hex_lower; exact Hhex|].
  split; [rewrite Hne, lower_strip_fix, Hm; cbn; rewrite lower_idem; reflexivity|].
  split; [unfold validate_session_id; rewrite Hne, lower_strip_fix, Hne, !Hm; cbn;
          rewrite lower_idem; reflexivity|].
  cbn. rewrite He, (eqb_nonempty_length _ _ Hl), (match_hex_trimmed _ _ (strip_trimmed u)), Hl, Hhex.
  reflexivity.
Qed.

(** [normalize_user_id] maps a string to [None] exactly when the string is
    blank; a value it returns is non-empty, already stripped, and mapped to
    itself. *)
Theorem normalize_user_id_spec :
  (forall u, normalize_user_id (Some u) = None <-> strip u = "") /\
  (forall u r, normalize_user_id u = Some r ->
     r <> "" /\ strip r = r /\ normalize_user_id (Some r) = Some r).
Proof.
  split.
  - intros u. cbn. destruct (String.eqb u "") eqn:He.
    + apply String.eqb_eq in He. subst u. split; reflexivity.
    + destruct (String.eqb (strip u) "") eqn:He2.
      * apply String.eqb_eq in He2. split; [intros _; exact He2|reflexivity].
      * apply String.eqb_neq in He2. destruct (match_hex 24 (strip u)); split; congruence.
  - intros [u|] r; cbn; [|discriminate].
    destruct (String.eqb u "") eqn:He; [discriminate|].
    destruct (String.eqb (strip u) "") eqn:He2; [discriminate|].
    rewrite (match_hex_trimmed _ _ (strip_trimmed u)).
    destruct ((String.length (strip u) =? 24)%nat && all_hex (strip u)) eqn:H24; intros [= <-].
    + apply andb_prop in H24 as [Hl Hhex]. apply Nat.eqb_eq in Hl.
      assert (Hne : String.eqb (lower (strip u)) "" = false)
        by exact (eqb_nonempty_length _ _ (eq_trans (lower_length _) Hl)).
      split; [apply String.eqb_neq, Hne|]. split; [apply lower_strip_fix|].
      rewrite Hne, lower_strip_fix, Hne,
        (match_hex_trimmed _ _ (lower_trimmed _ (strip_trimmed u))),
        lower_length, Hl, all_hex_lower, Hhex, lower_idem. reflexivity.
    + split; [apply String.eqb_neq, He2|]. split; [apply strip_idempotent|].
      rewrite He2, strip_idempotent, He2, (match_hex_trimmed _ _ (strip_trimmed u)), H24.
      reflexivity.
Qed.

(** The text [sanitize_message] accepts is the stripped message with its
    control characters removed, and it is at most [max_length] characters
    long. *)
Theorem sanitize_message_spec message max_length r :
  sanitize_message message max_length = Ok r ->
  list_ascii_of_string r
    = List.filter (fun c => negb (is_control c)) (list_ascii_of_string (strip message)) /\
  (Z.of_nat (String.length r) <= max_length)%Z.
Proof.
  unfold sanitize_message. destruct (String.eqb message "") eqn:He; [discriminate|].
  destruct (Z.ltb_spec max_length (Z.of_nat (String.length (strip message)))) as [Hl|Hl];
    [discriminate|].
  intros [= <-]. unfold re_sub. rewrite sub_aux_filter. split; [reflexivity|].
  rewrite <- length_list_ascii, sub_aux_filter.
  pose proof (List.filter_length_le (fun c => negb (is_control c)) (list_ascii_of_string (strip message))) as Hf.
  rewrite length_list_ascii in Hf. lia.
Qed.

(** A non-empty message made only of whitespace is not rejected by
    [sanitize_message]: it is accepted as the empty string. *)
Theorem sanitize_message_blank message max_length :
  message <> "" -> forallb is_space (list_ascii_of_string message) = true ->
  (0 <= max_length)%Z ->
  sanitize_message message max_length = Ok "".
Proof.
  intros Hne Hsp Hmax. unfold sanitize_message.
  rewrite (proj2 (String.eqb_neq _ _) Hne), (strip_all_space _ Hsp).
  cbn [String.length]. change (Z.of_nat 0) with 0%Z.
  destruct (Z.ltb_spec max_length 0); [lia|]. reflexivity.
Qed.

Lemma sanitize_message_blank_witness : sanitize_message "  " 2000 = Ok "".
Proof.
  exact (sanitize_message_blank "  " 2000 ltac:(discriminate) ltac:(reflexivity) ltac:(lia)).
Defined.

(** The word [validate_search_word] accepts is the stripped word keeping
    only word characters, whitespace and '-'; the length bounds hold for the
    stripped word before that filtering, and the result is at most
    [max_length] long. *)
Theorem validate_search_word_spec word min_length max_length r :
  validate_search_word word min_length max_length = Ok r ->
  list_ascii_of_string r = List.filter is_search_char (list_ascii_of_string (strip word)) /\
  (min_length <= Z.of_nat (String.length (strip word)) <= max_length)%Z /\
  (Z.of_nat (String.length r) <= max_length)%Z.
Proof.
  unfold validate_search_word. destruct (String.eqb word "") eqn:He; [discriminate|].
  destruct (Z.ltb_spec (Z.of_nat (String.length (strip word))) min_length) as [H1|H1]; [discriminate|].
  destruct (Z.ltb_spec max_length (Z.of_nat (String.length (strip word)))) as [H2|H2]; [discriminate|].
  intros [= <-]. unfold re_sub. rewrite sub_aux_filter_neg. split; [reflexivity|].
  split; [lia|].
  rewrite <- length_list_ascii, sub_aux_filter_neg.
  pose proof (List.filter_length_le is_search_char (list_ascii_of_string (strip word))) as Hf.
  rewrite length_list_ascii in Hf. lia.
Qed.

(** A stripped, non-empty word within the length bounds made only of
    characters that [validate_search_word] removes is accepted as the empty
    string, whatever [min_length] is. *)
Theorem validate_search_word_punctuation word min_length max_length :
  strip word <> "" ->
  forallb (fun c => negb (is_search_char c)) (list_ascii_of_string (strip word)) = true ->
  (min_length <= Z.of_nat (String.length (strip word)) <= max_length)%Z ->
  validate_search_word word min_length max_length = Ok "".
Proof.
  intros Hne Hp [H1 H2]. unfold validate_search_word.
  assert (String.eqb word "" = false) as ->.
  { apply String.eqb_neq. intros ->. apply Hne. reflexivity. }
  destruct (Z.ltb_spec (Z.of_nat (String.length (strip word))) min_length); [lia|].
  destruct (Z.ltb_spec max_length (Z.of_nat (String.length (strip word)))); [lia|].
  f_equal. unfold re_sub.
  rewrite <- (string_of_list_ascii_of_string (sub_aux _ _ _ _)), sub_aux_filter_neg.
  induction (list_ascii_of_string (strip word)) as [|c t IH]; [reflexivity|].
  cbn in Hp |- *. apply andb_prop in Hp as [Hc Ht]. destruct (is_search_char c); [discriminate|].
  exact (IH Ht).
Qed.

Lemma validate_search_word_punctuation_witness : validate_search_word "?!" 1 100 = Ok "".
Proof.
  exact (validate_search_word_punctuation "?!" 1 100 ltac:(discriminate)
           ltac:(reflexivity) ltac:(vm_compute; split; discriminate)).
Defined.


Import Retry.

Section RetryProofs.
Context {A E : Type}.

(** The events of attempts [a], ..., [a + n - 1] that all failed and were
    followed by a sleep. *)
Lemma retry_loop_failures (func : nat -> outcome A E) caught max_retries n :
  forall fuel a last,
  (n < fuel)%nat ->
  (forall i, (a <= i < a + n)%nat ->
     exists e, func i = Raised e /\ caught e = true /\ (Z.of_nat i < max_retries)%Z) ->
  exists last',
  retry_loop func caught max_retries fuel a last =
    let '(tr, r) := retry_loop func caught max_retries (fuel - n) (a + n) last' in
    ((flat_map (fun i => [Call i; Sleep i]) (seq a n) ++ tr)%list, r).
Proof.
  induction n as [|n IH]; intros fuel a last Hf Hi.
  - exists last. rewrite Nat.sub_0_r, Nat.add_0_r. cbn.
    destruct (retry_loop func caught max_retries fuel a last); reflexivity.
  - destruct fuel as [|f]; [lia|].
    destruct (Hi a ltac:(lia)) as (e & He & Hc & Hm).
    cbn [retry_loop]. rewrite He, Hc. cbn [negb].
    destruct (Z.ltb_spec (Z.of_nat a) max_retries) as [_|]; [|lia].
    destruct (IH f (S a) (Some e) ltac:(lia)
                 ltac:(intros i Hi'; apply Hi; lia)) as [last' Heq].
    exists last'. rewrite Heq. replace (a + S n)%nat with (S a + n)%nat by lia.
    cbn [Nat.sub]. destruct (retry_loop func caught max_retries (f - n) (S a + n) last').
    reflexivity.
Qed.

End RetryProofs.

(** When the first [n] calls raise retried exceptions, [n <= max_retries],
    and call [n] returns [v], [retry_async] makes the calls 0..n, sleeps
    after each failed one, and returns [v]. *)
Theorem retry_async_returns {A E} (func : nat -> outcome A E) caught max_retries n v :
  (Z.of_nat n <= max_retries)%Z ->
  (forall i, (i < n)%nat -> exists e, func i = Raised e /\ caught e = true) ->
  func n = Returned v ->
  retry_async func caught max_retries =
    ((flat_map (fun i => [Call i; Sleep i]) (seq 0 n) ++ [Call n])%list, Value v).
Proof.
  intros Hn Hi Hv. unfold retry_async.
  destruct (retry_loop_failures func caught max_retries n (Z.to_nat (max_retries + 1)) 0 None
              ltac:(lia) ltac:(intros i Hi'; destruct (Hi i ltac:(lia)) as (e & H1 & H2);
                               exists e; split; [exact H1|split; [exact H2|lia]]))
    as [last' ->].
  destruct (Z.to_nat (max_retries + 1) - n)%nat as [|f] eqn:Hf; [lia|].
  cbn [retry_loop]. rewrite Nat.add_0_l, Hv. reflexivity.
Qed.

(** When the first [n] calls raise retried exceptions, [n <= max_retries],
    and call [n] raises an exception that is not retried, [retry_async]
    re-raises it at once, after the calls 0..n. *)
Theorem retry_async_not_retried {A E} (func : nat -> outcome A E) caught max_retries n e :
  (Z.of_nat n <= max_retries)%Z ->
  (forall i, (i < n)%nat -> exists e', func i = Raised e' /\ caught e' = true) ->
  func n = Raised e -> caught e = false ->
  retry_async func caught max_retries =
    ((flat_map (fun i => [Call i; Sleep i]) (seq 0 n) ++ [Call n])%list, Reraised e).
Proof.
  intros Hn Hi He Hc. unfold retry_async.
  destruct (retry_loop_failures func caught max_retries n (Z.to_nat (max_retries + 1)) 0 None
              ltac:(lia) ltac:(intros i Hi'; destruct (Hi i ltac:(lia)) as (e' & H1 & H2);
                               exists e'; split; [exact H1|split; [exact H2|lia]]))
    as [last' ->].
  destruct (Z.to_nat (max_retries + 1) - n)%nat as [|f] eqn:Hf; [lia|].
  cbn [retry_loop]. rewrite Nat.add_0_l, He, Hc. reflexivity.
Qed.

(** When every call up to [max_retries] raises a retried exception,
    [retry_async] makes [max_retries + 1] calls with a sleep between each
    two, and re-raises the last exception. *)
Theorem retry_async_exhausted {A E} (func : nat -> outcome A E) caught max_retries e :
  (0 <= max_retries)%Z ->
  (forall i, (i < Z.to_nat max_retries)%nat -> exists e', func i = Raised e' /\ caught e' = true) ->
  func (Z.to_nat max_retries) = Raised e ->
  retry_async func caught max_retries =
    ((flat_map (fun i => [Call i; Sleep i]) (seq 0 (Z.to_nat max_retries))
      ++ [Call (Z.to_nat max_retries)])%list, Reraised e).
Proof.
  intros Hm Hi He. unfold retry_async.
  destruct (retry_loop_failures func caught max_retries (Z.to_nat max_retries)
              (Z.to_nat (max_retries + 1)) 0 None
              ltac:(lia) ltac:(intros i Hi'; destruct (Hi i ltac:(lia)) as (e' & H1 & H2);
                               exists e'; split; [exact H1|split; [exact H2|lia]]))
    as [last' ->].
  destruct (Z.to_nat (max_retries + 1) - Z.to_nat max_retries)%nat as [|f] eqn:Hf; [lia|].
  cbn [retry_loop]. rewrite Nat.add_0_l, He.
  destruct (caught e); cbn [negb]; [|reflexivity].
  rewrite Z2Nat.id by exact Hm. rewrite Z.ltb_irrefl. reflexivity.
Qed.

(** With a negative [max_retries], [retry_async] never calls the function
    and raises [RuntimeError]. *)
Theorem retry_async_no_attempts {A E} (func : nat -> outcome A E) caught max_retries :
  (max_retries < 0)%Z -> retry_async func caught max_retries = ([], RuntimeError).
Proof.
  intros Hm. unfold retry_async. replace (Z.to_nat (max_retries + 1)) with 0%nat by lia.
  reflexivity.
Qed.


Lemma retry_async_returns_witness :
  retry_async flaky_call (fun _ => true) 3
  = ([Call 0; Sleep 0; Call 1; Sleep 1; Call 2], Value 42%nat).
Proof.
  apply (retry_async_returns flaky_call (fun _ => true) 3 2 42).
  - lia.
  - intros i Hi. exists "timeout". split; [|reflexivity].
    unfold flaky_call. destruct (Nat.ltb_spec i 2); [reflexivity|lia].
  - reflexivity.
Defined.

Lemma retry_async_not_retried_witness :
  retry_async rejecting_call (fun e => String.eqb e "timeout") 3
  = ([Call 0; Sleep 0; Call 1], Reraised "invalid").
Proof.
  apply (retry_async_not_retried rejecting_call (fun e => String.eqb e "timeout") 3 1 "invalid").
  - lia.
  - intros i Hi. exists "timeout". split; [|reflexivity].
    unfold rejecting_call. destruct (Nat.eqb_spec i 0); [reflexivity|lia].
  - reflexivity.
  - reflexivity.
Defined.

Lemma retry_async_exhausted_witness :
  retry_async failing_call (fun _ => true) 2
  = ([Call 0; Sleep 0; Call 1; Sleep 1; Call 2], Reraised "timeout").
Proof.
  apply (retry_async_exhausted failing_call (fun _ => true) 2 "timeout").
  - lia.
  - intros i _. exists "timeout". split; reflexivity.
  - reflexivity.
Defined.

Lemma retry_async_no_attempts_witness :
  retry_async flaky_call (fun _ => true) (-1) = ([], RuntimeError).
Proof. apply retry_async_no_attempts. lia. Defined.


Lemma prefix_chars t h c : String.prefix t h = true ->
  In c (list_ascii_of_string t) -> In c (list_ascii_of_string h).
Proof.
  revert h; induction t as [|d t IH]; intros h; [intros _ []|].
  destruct h as [|e h]; [discriminate|]. cbn [String.prefix].
  destruct (ascii_dec d e) as [->|]; [|discriminate].
  intros Hp [<-|Hc]; [left; reflexivity|right; exact (IH h Hp Hc)].
Qed.

Lemma contains_chars t h c : contains t h = true ->
  In c (list_ascii_of_string t) -> In c (list_ascii_of_string h).
Proof.
  induction h as [|e h IH]; cbn [contains].
  - rewrite orb_false_r. intros Hp Hc. exact (prefix_chars _ _ _ Hp Hc).
  - intros [Hp|Hr]%orb_true_iff Hc; [exact (prefix_chars _ _ _ Hp Hc)|].
    right. exact (IH Hr Hc).
Qed.

(** Each positive token has a non-blank character outside "yeahsp". *)
Lemma positive_tokens_marker :
  forallb (fun t => existsb (fun c => negb (is_space c)
                                      && negb (existsb (Ascii.eqb c) (list_ascii_of_string "yeahsp")))
                            (list_ascii_of_string t)) positive_tokens = true.
Proof. vm_compute. reflexivity. Qed.

Lemma yes_like_chars text c :
  str_in (strip text) ["yes"; "yeah"; "yep"; "y"] = true ->
  In c (list_ascii_of_string text) ->
  is_space c = true \/ existsb (Ascii.eqb c) (list_ascii_of_string "yeahsp") = true.
Proof.
  intros Hy Hc. destruct (strip_in text c Hc) as [H|H]; [left; exact H|right].
  unfold str_in in Hy. apply existsb_exists in Hy as (y & Hy & Heq).
  apply String.eqb_eq in Heq. rewrite Heq in H.
  destruct Hy as [<-|[<-|[<-|[<-|[]]]]]; cbn in H;
    repeat (destruct H as [<-|H]; [reflexivity|]); destruct H.
Qed.

Lemma positive_not_yes_like text :
  any_in positive_tokens text = true -> str_in (strip text) ["yes"; "yeah"; "yep"; "y"] = false.
Proof.
  intros Hp. destruct (str_in (strip text) _) eqn:Hy; [|reflexivity]. exfalso.
  apply existsb_exists in Hp as (t & Ht & Hct).
  pose proof positive_tokens_marker as Hm. rewrite forallb_forall in Hm.
  specialize (Hm t Ht). apply existsb_exists in Hm as (c & Hc & Hcm).
  apply andb_prop in Hcm as [Hs Hn].
  destruct (yes_like_chars text c Hy (contains_chars _ _ _ Hct Hc)) as [H|H];
    [rewrite H in Hs; discriminate|rewrite H in Hn; discriminate].
Qed.

(** [_tone_from_answer] returns "celebrate" for an answer exactly when its
    lower-cased text has a positive token and no severe-concern token,
    whatever the field: the yes-on-a-sensitive-field test inside the
    positive branch never fires. *)
Theorem tone_from_answer_celebrate answer field :
  _tone_from_answer (Some answer) field = "celebrate" <->
  any_in severe_concerns (lower answer) = false /\ any_in positive_tokens (lower answer) = true.
Proof.
  cbn [_tone_from_answer]. destruct (any_in severe_concerns (lower answer)).
  { split; [discriminate|intros [H _]; discriminate]. }
  destruct (any_in positive_tokens (lower answer)) eqn:Hp.
  - rewrite (positive_not_yes_like _ Hp), andb_false_r. split; auto.
  - split; [|intros [_ H]; discriminate].
    destruct (any_in supportive_tokens _); [discriminate|].
    destruct (existsb _ _); discriminate.
Qed.

(** [_tone_from_answer] returns "neutral" exactly when there is no answer,
    or the lower-cased answer has no severe, positive or supportive token
    and the field is not sensitive. *)
Theorem tone_from_answer_neutral answer field :
  _tone_from_answer answer field = "neutral" <->
  match answer with
  | None => True
  | Some a =>
      any_in severe_concerns (lower a) = false /\ any_in positive_tokens (lower a) = false /\
      any_in supportive_tokens (lower a) = false /\
      existsb (fun key => contains key (default "" field)) sensitive_fields = false
  end.
Proof.
  destruct answer as [a|]; cbn [_tone_from_answer]; [|split; auto].
  destruct (any_in severe_concerns (lower a)); [split; [discriminate|intros (H & _); discriminate]|].
  destruct (existsb (fun key => contains key (default "" field)) sensitive_fields);
  destruct (any_in positive_tokens (lower a)); destruct (any_in supportive_tokens (lower a));
  cbn [andb]; try (destruct (str_in _ _));
  split; try discriminate; try (intros (_ & H1 & H2 & H3); discriminate); auto.
Qed.


(** *** What the filtering loop lets through *)

Lemma filter_products_guard l ctx inc exc ea acc res :
  filter_products l ctx inc exc ea acc = Some res ->
  forall prod, In prod res -> In prod acc \/
    exists x, In x l /\ prod = _mongo_to_product (snd x) /\
      match inc with Some i => str_in (p_title prod) i = true | None => True end /\
      str_in (p_title prod) exc = false /\
      (ea = true -> _is_ayurveda_product (snd x) = false) /\
      _is_safe_and_suitable (snd x) ctx = Some true.
Proof.
  revert acc; induction l as [|[sc p] t IH]; intros acc; cbn [filter_products].
  - intros [= <-] prod H. left; exact H.
  - assert (Hskip : forall acc', acc' = acc ->
              filter_products t ctx inc exc ea acc' = Some res -> forall prod, In prod res ->
              In prod acc \/ exists x, In x ((sc, p) :: t) /\ prod = _mongo_to_product (snd x) /\
                match inc with Some i => str_in (p_title prod) i = true | None => True end /\
                str_in (p_title prod) exc = false /\
                (ea = true -> _is_ayurveda_product (snd x) = false) /\
                _is_safe_and_suitable (snd x) ctx = Some true).
    { intros acc' -> Hf prod H. destruct (IH acc Hf prod H) as [H'|(x & Hx & Hrest)]; [left; exact H'|].
      right. exists x. split; [right; exact Hx|exact Hrest]. }
    destruct (Nat.ltb_spec sc 1) as [Hlt|Hge].
    + destruct (1 <=? length acc)%nat.
      * intros [= <-] prod H. left; exact H.
      * exact (Hskip acc eq_refl).
    + destruct (match inc with Some inc => negb (str_in (p_title (_mongo_to_product p)) inc) | None => false end)
        eqn:Hinc; [exact (Hskip acc eq_refl)|].
      destruct (str_in (p_title (_mongo_to_product p)) exc) eqn:Hexc; [exact (Hskip acc eq_refl)|].
      destruct (ea && _is_ayurveda_product p) eqn:Hay; [exact (Hskip acc eq_refl)|].
      destruct (_is_safe_and_suitable p ctx) as [[|]|] eqn:Hsafe; [|exact (Hskip acc eq_refl)|discriminate].
      assert (Hnew : forall prod, In prod (acc ++ [_mongo_to_product p])%list -> In prod acc \/
                exists x, In x ((sc, p) :: t) /\ prod = _mongo_to_product (snd x) /\
                  match inc with Some i => str_in (p_title prod) i = true | None => True end /\
                  str_in (p_title prod) exc = false /\
                  (ea = true -> _is_ayurveda_product (snd x) = false) /\
                  _is_safe_and_suitable (snd x) ctx = Some true).
      { intros prod H. apply in_app_or in H as [H|[<-|[]]]; [left; exact H|].
        right. exists (sc, p). split; [left; reflexivity|]. cbn [snd].
        split; [reflexivity|]. split.
        { destruct inc as [i|]; [|exact I]. apply negb_false_iff, Hinc. }
        split; [exact Hexc|]. split; [|exact Hsafe].
        intros ->. exact Hay. }
      destruct (3 <=? length (acc ++ [_mongo_to_product p]))%nat.
      * intros [= <-]. exact Hnew.
      * intros Hf prod H. destruct (IH _ Hf prod H) as [H'|(x & Hx & Hrest)].
        -- exact (Hnew prod H').
        -- right. exists x. split; [right; exact Hx|exact Hrest].
Qed.

(** Every product [find_relevant_products] returns comes from a catalog
    document that is safe and suitable for the context, is not Ayurvedic
    when the context excludes Ayurveda, has a title outside
    [exclude_product_titles], and a title in [include_product_titles] when
    that list is given and non-empty. *)
Theorem find_relevant_products_filters search message ctx limit exclude include :
  forall prod, In prod (fst (find_relevant_products search message ctx limit exclude include)) ->
  exists d,
    prod = _mongo_to_product d /\
    str_in (p_title prod) exclude = false /\
    match include with Some ((_ :: _) as i) => str_in (p_title prod) i = true | _ => True end /\
    (_should_exclude_ayurveda ctx = Some true -> _is_ayurveda_product d = false) /\
    _is_safe_and_suitable d ctx = Some true.
Proof.
  intros prod. unfold find_relevant_products. cbv zeta.
  match goal with |- context [search ?a ?b ?c include] =>
    destruct (search a b c include) as [[|p0 t0]|] eqn:Hs end; [intros []| |intros []].
  match goal with |- context [score_products ?m ?kw ?cs ctx ?cr] =>
    destruct (score_products m kw cs ctx cr) as [scored|] eqn:Hsc end; [|intros []].
  destruct (_should_exclude_ayurveda ctx) as [excl|] eqn:Hex; [|intros []].
  match goal with |- context [filter_products ?l ctx ?i exclude excl []] =>
    destruct (filter_products l ctx i exclude excl []) as [filtered|] eqn:Hf end; [|intros []].
  cbn [fst]. intros Hin0.
  assert (Hin : In prod filtered) by (rewrite <- (firstn_skipn 3 filtered); apply in_or_app; left; exact Hin0).
  destruct (filter_products_guard _ _ _ _ _ _ _ Hf prod Hin) as [[]|(x & _ & -> & Hi & He & Ha & Hsafe)].
  exists (snd x). split; [reflexivity|]. split; [exact He|]. split.
  - destruct include as [[|i0 it]|]; exact Hi.
  - split; [|exact Hsafe]. intros [= ->]. exact (Ha eq_refl).
Qed.

(** *** Safety warnings *)

(** With an empty context, [get_safety_warnings] returns no warning for any
    product. *)
Theorem get_safety_warnings_no_context p : get_safety_warnings p ∅ = Some [].
Proof.
  unfold get_safety_warnings. assert (empty_ctx ∅ = true) as -> by reflexivity.
  cbn [negb andb mbind option_bind]. cbv zeta.
  assert (String.eqb "" "" = true) as -> by reflexivity. reflexivity.
Qed.

(** When the context answers yes to [medical_treatment], the last warning
    [get_safety_warnings] returns is the medical-treatment notice. *)
Theorem get_safety_warnings_medical_notice p ctx ws :
  get_safety_warnings p ctx = Some ws ->
  get_lower ctx "medical_treatment" = Some "yes" ->
  last ws = Some MEDICAL_NOTICE.
Proof.
  intros H Hm. unfold get_safety_warnings in H.
  destruct (empty_ctx ctx) eqn:He.
  { unfold empty_ctx in He. apply bool_decide_eq_true in He. subst ctx. discriminate. }
  cbn [negb andb] in H.
  destruct (get_lower ctx "gender"); [|discriminate]. cbn [mbind option_bind] in H.
  destruct (match ctx !! "age" with
            | Some (RStr a) => Some (if isdigit a then Some (int_of_digits a) else None)
            | Some w => if truthy w then None else Some None
            | None => Some None end); [|discriminate]. cbn [mbind option_bind] in H.
  destruct (get_lower ctx "situation"); [|discriminate]. cbn [mbind option_bind] in H.
  rewrite Hm in H. cbn [mbind option_bind] in H.
  match type of H with context [if ?c then get_lower ctx "allergies" else Some ""] =>
    destruct c; [destruct (get_lower ctx "allergies")|] end;
    cbn [mbind option_bind] in H; try discriminate;
  injection H as <-; rewrite !app_assoc; apply last_snoc.
Qed.

(** *** Concern follow-up field names *)

Lemma split_bar_once_inv (acc s c q : string) :
  split_bar_once acc s = Some (c, q) ->
  exists c', c = acc ++ c' /\ s = c' ++ "|" ++ q /\ ~ In "|"%char (list_ascii_of_string c').
Proof.
  revert acc; induction s as [|a t IH]; intros acc; cbn [split_bar_once]; [discriminate|].
  destruct (Ascii.eqb_spec a "|") as [->|Ha].
  - intros [= <- <-]. exists "". rewrite str_app_nil_r. split; [reflexivity|]. split; [reflexivity|].
    intros [].
  - intros H. destruct (IH _ H) as (c' & -> & -> & Hc). exists (String a c'). split.
    + rewrite <- str_app_assoc. reflexivity.
    + split; [reflexivity|]. intros [Hx|Hx]; [congruence|auto].
Qed.

Lemma prefix_inv (s f : string) : String.prefix s f = true -> exists t, f = s ++ t.
Proof.
  revert f; induction s as [|a s IH]; intros f.
  - intros _. exists f. reflexivity.
  - destruct f as [|b f]; simpl; [discriminate|].
    destruct (ascii_dec a b) as [<-|]; [|discriminate].
    intros H. destruct (IH f H) as [t ->]. exists t. reflexivity.
Qed.

Lemma assoc_In_fst {A} (x : string) (d : list (string * A)) (v : A) :
  assoc x d = Some v -> In x (map fst d).
Proof.
  induction d as [|[k w] t IH]; simpl; [discriminate|].
  destruct (String.eqb_spec x k) as [->|]; [intros _; left; reflexivity | intros H; right; auto].
Qed.

Lemma concern_questions_no_bar c v :
  assoc c CONCERN_QUESTIONS = Some v -> ~ In "|"%char (list_ascii_of_string c).
Proof.
  intros H. apply assoc_In_fst in H.
  assert (Hall : forallb (fun k => negb (existsb (Ascii.eqb "|") (list_ascii_of_string k)))
                   (map fst CONCERN_QUESTIONS) = true) by (vm_compute; reflexivity).
  rewrite forallb_forall in Hall. specialize (Hall c H). apply negb_true_iff in Hall.
  intros Hin. assert (Hex : existsb (Ascii.eqb "|") (list_ascii_of_string c) = true).
  { apply existsb_exists. exists "|"%char. split; [exact Hin|]. apply Ascii.eqb_refl. }
  rewrite Hex in Hall. discriminate.
Qed.

(** [_parse_concern_field] inverts [_concern_field_key] for a concern
    without '|', and a field it parses is the key of the parsed concern and
    question, with a concern without '|'. *)
Theorem concern_field_round_trip :
  (forall c q, ~ In "|"%char (list_ascii_of_string c) ->
     _parse_concern_field (_concern_field_key c q) = Some (c, q)) /\
  (forall f c q, _parse_concern_field f = Some (c, q) ->
     f = _concern_field_key c q /\ ~ In "|"%char (list_ascii_of_string c)).
Proof.
  split; [intros c q; apply parse_concern_field_key|].
  intros f c q. unfold _parse_concern_field.
  destruct (String.prefix "concern|" f) eqn:Hp; [|discriminate].
  destruct (prefix_inv _ _ Hp) as [t ->]. rewrite drop_concern_prefix.
  intros H. destruct (split_bar_once_inv _ _ _ _ H) as (c' & -> & -> & Hc).
  rewrite str_app_nil. split; [reflexivity|exact Hc].
Qed.

Lemma concern_field_round_trip_witness :
  _parse_concern_field (_concern_field_key "hair_nails" "nails") = Some ("hair_nails", "nails").
Proof. apply (proj1 concern_field_round_trip). simpl. intuition discriminate. Defined.

(** Every step of [_concern_followup_steps] parses with
    [_parse_concern_field] into one of the given concerns and a question id
    listed for that concern in [CONCERN_QUESTIONS]. *)
Theorem concern_followup_steps_parse cs x :
  In x (_concern_followup_steps cs) ->
  exists c q label ids, _parse_concern_field x = Some (c, q) /\ In c cs /\
    assoc c CONCERN_QUESTIONS = Some (label, ids) /\ In q ids.
Proof.
  unfold _concern_followup_steps. intros Hx. apply in_flat_map in Hx as (c & Hc & Hx).
  destruct (assoc c CONCERN_QUESTIONS) as [[label ids]|] eqn:E; [|destruct Hx].
  apply in_map_iff in Hx as (q & <- & Hq).
  exists c, q, label, ids. split; [|auto].
  apply parse_concern_field_key. eapply concern_questions_no_bar; exact E.
Qed.

Lemma concern_followup_steps_parse_witness :
  exists c q label ids, _parse_concern_field "concern|sleep|refreshed" = Some (c, q) /\
    In c ["sleep"] /\ assoc c CONCERN_QUESTIONS = Some (label, ids) /\ In q ids.
Proof.
  apply (concern_followup_steps_parse ["sleep"]). vm_compute. auto 20.
Defined.

(** [_normalize_concerns] returns canonical concern keys only, each at most
    once, for a string, a list or any other stored value. *)
Theorem normalize_concerns_canonical v :
  NoDup (_normalize_concerns v) /\
  Forall (fun c => In c (map snd CONCERN_SYNONYMS)) (_normalize_concerns v).
Proof.
  assert (Hparse : forall raw, NoDup (_parse_concerns raw) /\
            forall x, In x (_parse_concerns raw) -> In x (map snd CONCERN_SYNONYMS)).
  { intros raw. rewrite parse_concerns_mentions. unfold dedup_first.
    destruct (dedup_first_aux_spec (concern_mentions raw) []) as [Hnd Hin].
    split; [exact Hnd|]. intros x Hx. apply concern_mentions_canonical with raw. apply Hin, Hx. }
  unfold _normalize_concerns. destruct v as [[s|items|d]|].
  - destruct (Hparse s) as [Hnd Hin]. split; [exact Hnd|].
    apply Forall_forall. intros x Hx. apply Hin. rewrite <- list_elem_of_In. exact Hx.
  - rewrite fold_add_new. simpl.
    destruct (dedup_first_aux_spec (flat_map _parse_concerns items) []) as [Hnd Hin].
    split; [exact Hnd|]. apply Forall_forall. intros x Hx. rewrite list_elem_of_In in Hx.
    destruct (Hin x Hx) as [_ Hx']. apply in_flat_map in Hx' as (raw & _ & Hr).
    apply (proj2 (Hparse raw)), Hr.
  - split; constructor.
  - split; constructor.
Qed.


Lemma session_extends_refl s : session_extends s s.
Proof. repeat split. exists []. rewrite app_nil_r. reflexivity. Qed.

Lemma session_extends_append s0 s ms :
  session_extends s0 s -> session_extends s0 (append_messages s ms).
Proof.
  intros ([m Hm] & H1 & H2 & H3 & H4). repeat split; simpl; auto.
  exists (m ++ ms)%list. rewrite Hm, app_assoc. reflexivity.
Qed.

Lemma session_extends_update s0 s st :
  session_extends s0 s -> session_extends s0 (update_metadata s st).
Proof. intros H. exact H. Qed.

Ltac destruct_innermost :=
  match goal with
  | |- context [match ?x with _ => _ end] =>
      lazymatch x with context [match _ with _ => _ end] => fail | _ => destruct x end
  end.

Section Growth.
Variable _question_by_key : string -> string -> responses -> option string.
Variable _build_prompt : string -> responses -> string.
Variable _friendly_question : string -> nat -> option nval -> option string -> responses -> string.
Variable _get_question_options : string -> option (list QuestionOption) * option string.
Variable _get_empathetic_acknowledgment : string -> nval -> responses -> option string.
Variable _check_if_major_concern_same : string -> string -> list string -> bool.
Variable _get_previous_session_concerns_and_products : string -> string -> list string * list string.
Variable find_relevant_products : option string -> responses -> option nat -> list string ->
  option (list string) -> list Catalog.Product * gmap string Catalog.doc.
Variable _format_product_recommendations : list Catalog.Product -> responses -> gmap string Catalog.doc ->
  option bool -> list string -> list string -> string.
Variable generate_reply : list ChatMessage -> string -> responses -> list Catalog.Product -> option string.
Variable max_history_turns product_context_limit : nat.
Variable set_intersection_order : list string -> list string -> list string.

Local Abbreviation SR := (show_recommendations find_relevant_products _format_product_recommendations).
Local Abbreviation MTA := (medical_treatment_answered find_relevant_products _format_product_recommendations).
Local Abbreviation FIN := (finish_onboarding _get_previous_session_concerns_and_products
  find_relevant_products _format_product_recommendations set_intersection_order).
Local Abbreviation FC := (free_chat find_relevant_products generate_reply max_history_turns product_context_limit).
Local Abbreviation ANF := (ask_next_or_finish _build_prompt _friendly_question _get_question_options
  _check_if_major_concern_same _get_previous_session_concerns_and_products
  find_relevant_products _format_product_recommendations set_intersection_order).
Local Abbreviation HM := (handle_message _question_by_key _build_prompt _friendly_question
  _get_question_options _get_empathetic_acknowledgment _check_if_major_concern_same
  _get_previous_session_concerns_and_products find_relevant_products _format_product_recommendations
  generate_reply max_history_turns product_context_limit set_intersection_order).
Local Abbreviation ACF := (answer_current_field _question_by_key _get_question_options
  _get_empathetic_acknowledgment _get_previous_session_concerns_and_products
  find_relevant_products _format_product_recommendations).

Ltac grow :=
  repeat (cbv beta iota zeta; cbn [fst snd];
    first [ apply session_extends_append | apply session_extends_update
          | assumption | destruct_innermost ]).

Lemma show_recommendations_extends s0 s uid reg st :
  session_extends s0 s -> session_extends s0 (fst (SR s uid reg st)).
Proof. intros H. unfold show_recommendations. grow. Qed.

Lemma medical_treatment_answered_extends s0 s um reg st :
  session_extends s0 s -> session_extends s0 (fst (MTA s um reg st)).
Proof. intros H. unfold medical_treatment_answered. grow. Qed.

Lemma free_chat_extends s0 s h m c um reg st :
  session_extends s0 s -> session_extends s0 (fst (FC s h m c um reg st)).
Proof. intros H. unfold free_chat. grow. Qed.

Lemma finish_onboarding_extends s0 s m um uid reg st :
  session_extends s0 s -> session_extends s0 (fst (FIN s m um uid reg st)).
Proof.
  intros H. unfold finish_onboarding.
  repeat (cbv beta iota zeta; cbn [fst snd];
    first [ apply session_extends_append | apply session_extends_update
          | apply show_recommendations_extends
          | assumption | destruct_innermost ]).
Qed.

Ltac grow_all :=
  repeat (cbv beta iota zeta; cbn [fst snd];
    first [ apply session_extends_append | apply session_extends_update
          | apply show_recommendations_extends | apply medical_treatment_answered_extends
          | apply finish_onboarding_extends | apply free_chat_extends
          | assumption | destruct_innermost ]).

Lemma ask_next_or_finish_extends s0 s m um uid reg hp ack st :
  session_extends s0 s -> session_extends s0 (fst (ANF s m um uid reg hp ack st)).
Proof. intros H. unfold ask_next_or_finish. grow_all. Qed.

Lemma answer_current_field_extends s0 s m um uid reg k st :
  session_extends s0 s ->
  match ACF s m um uid reg k st with
  | inl r => session_extends s0 (fst r)
  | inr (s', _, _) => session_extends s0 s'
  end.
Proof. intros H. unfold answer_current_field. grow_all. Qed.

(** [handle_message] only appends to the stored transcript: the messages
    stored before the turn are kept, in order, at the head of the messages
    stored after it, and the session id and the [user_id],
    [is_registered] and [has_previous_sessions] metadata are unchanged. *)
Theorem handle_message_appends_only s message context :
  session_extends s (fst (HM s message context)).
Proof.
  pose proof (session_extends_refl s) as H. unfold handle_message.
  repeat (cbv beta iota zeta; cbn [fst snd];
    first [ apply session_extends_append | apply session_extends_update
          | apply ask_next_or_finish_extends | apply free_chat_extends
          | assumption
          | match goal with
            | |- context [answer_current_field _ _ _ _ _ _ ?s1 ?m1 ?u1 ?i1 ?r1 ?k1 ?t1] =>
                let Hs := fresh in
                assert (Hs : session_extends s s1) by grow_all;
                pose proof (answer_current_field_extends s s1 m1 u1 i1 r1 k1 t1 Hs);
                destruct (answer_current_field _ _ _ _ _ _ s1 m1 u1 i1 r1 k1 t1) as [?|[[? ?] ?]]
            end
          | destruct_innermost ]).
Qed.

(** Once the stored interview is complete (its cursor at or past the end of
    the step list, no registration confirmation pending), [handle_message]
    hands every message to free chat, whatever the stored
    [recommendations_shown] flag says: the closing "Thank you for
    completing the quiz!" branch is never taken, since
    [_get_onboarding_state] does not load that flag. This holds for
    every message that [ChatMessage] accepts (1 to 2000 characters). *)
Theorem handle_message_after_completion s message context st0 L :
  valid_content message = true ->
  md_onboarding s = Some st0 -> complete st0 = true ->
  awaiting_registration_confirmation st0 = false ->
  _ordered_steps (ob_responses st0) (md_has_previous_sessions s) false = Some L ->
  length L <= step st0 ->
  HM s message context
  = FC s (messages s) message context (mkMsg "user" (Some message))
      (_get_is_registered_from_session s) (_get_onboarding_state s).
Proof.
  intros Hm Hon Hc Hreg HL Hlen.
  assert (Hc' : complete (_get_onboarding_state s) = true)
    by (unfold _get_onboarding_state; rewrite Hon; exact Hc).
  assert (Hreg' : awaiting_registration_confirmation (_get_onboarding_state s) = false)
    by (unfold _get_onboarding_state; rewrite Hon; exact Hreg).
  assert (HL' : _ordered_steps (ob_responses (_get_onboarding_state s)) (md_has_previous_sessions s) false = Some L)
    by (unfold _get_onboarding_state; rewrite Hon; exact HL).
  assert (Hlen' : (step (_get_onboarding_state s) <? length L)%nat = false)
    by (unfold _get_onboarding_state; rewrite Hon; apply Nat.ltb_ge; exact Hlen).
  unfold handle_message. cbv zeta.
  unfold chat_message. rewrite Hm. cbv beta iota.
  rewrite Hc', load_recommendations_shown, andb_false_r. cbn [negb andb].
  rewrite HL', Hreg'. cbv iota. rewrite Hlen'. reflexivity.
Qed.

End Growth.


Lemma handle_message_after_completion_witness :
  demo_handle_message no_products completed_session "Which product helps me sleep?" None
  = free_chat no_products demo_generate_reply 10 5 completed_session []
      "Which product helps me sleep?" None (mkMsg "user" (Some "Which product helps me sleep?"))
      false (_get_onboarding_state completed_session).
Proof.
  unfold demo_handle_message.
  apply (handle_message_after_completion demo_question_by_key demo_build_prompt demo_friendly_question
    demo_question_options demo_acknowledgment demo_major_concern_same demo_previous_session
    no_products demo_format_recommendations demo_generate_reply 10 5 demo_intersection
    completed_session _ _
    (set_recommendations_shown true (set_complete true (set_step 28 (_get_onboarding_state new_session))))
    empty_steps); reflexivity.
Defined.


Lemma validate_session_id_normal_form_witness :
  "507f1f77bcf86cd799439011" = lower (strip " 507F1F77BCF86CD799439011 ") /\
  (String.length "507f1f77bcf86cd799439011" = 24 \/ String.length "507f1f77bcf86cd799439011" = 32)%nat /\
  all_hex "507f1f77bcf86cd799439011" = true /\
  lower "507f1f77bcf86cd799439011" = "507f1f77bcf86cd799439011" /\
  validate_session_id "507f1f77bcf86cd799439011" = Ok "507f1f77bcf86cd799439011".
Proof.
  apply (validate_session_id_normal_form " 507F1F77BCF86CD799439011 " "507f1f77bcf86cd799439011").
  vm_compute. reflexivity.
Defined.

Lemma validate_user_id_compat_witness :
  "507f1f77bcf86cd799439011" = lower (strip " 507F1F77BCF86CD799439011 ") /\
  String.length "507f1f77bcf86cd799439011" = 24%nat /\
  all_hex "507f1f77bcf86cd799439011" = true /\
  validate_user_id "507f1f77bcf86cd799439011" = Ok "507f1f77bcf86cd799439011" /\
  validate_session_id "507f1f77bcf86cd799439011" = Ok "507f1f77bcf86cd799439011" /\
  normalize_user_id (Some " 507F1F77BCF86CD799439011 ") = Some "507f1f77bcf86cd799439011".
Proof.
  apply (validate_user_id_compat " 507F1F77BCF86CD799439011 " "507f1f77bcf86cd799439011").
  vm_compute. reflexivity.
Defined.

Lemma normalize_user_id_spec_witness :
  "abc" <> "" /\ strip "abc" = "abc" /\ normalize_user_id (Some "abc") = Some "abc".
Proof. apply ((proj2 normalize_user_id_spec) (Some " abc ") "abc"). vm_compute. reflexivity. Defined.

Lemma sanitize_message_spec_witness :
  list_ascii_of_string "hi there"
    = List.filter (fun c => negb (is_control c)) (list_ascii_of_string (strip " hi there ")) /\
  (Z.of_nat (String.length "hi there") <= 2000)%Z.
Proof. apply (sanitize_message_spec " hi there " 2000 "hi there"). vm_compute. reflexivity. Defined.

Lemma validate_search_word_spec_witness :
  list_ascii_of_string "vitamin-d"
    = List.filter is_search_char (list_ascii_of_string (strip " vitamin-d! ")) /\
  (2 <= Z.of_nat (String.length (strip " vitamin-d! ")) <= 50)%Z /\
  (Z.of_nat (String.length "vitamin-d") <= 50)%Z.
Proof. apply (validate_search_word_spec " vitamin-d! " 2 50 "vitamin-d"). vm_compute. reflexivity. Defined.

Lemma find_relevant_products_filters_witness :
  exists d,
    {| p_title := "Omega Complex"; p_description := "" |} = _mongo_to_product d /\
    str_in "Omega Complex" [] = false /\
    True /\
    (_should_exclude_ayurveda ∅ = Some true -> _is_ayurveda_product d = false) /\
    _is_safe_and_suitable d ∅ = Some true.
Proof.
  apply (find_relevant_products_filters catalog_search (Some "omega complex vitamin") ∅ None [] None).
  vm_compute. left. reflexivity.
Defined.

Lemma get_safety_warnings_medical_notice_witness :
  last ["Please consult with your healthcare provider before starting any new supplements, especially if you're currently undergoing medical treatment."]
  = Some MEDICAL_NOTICE.
Proof.
  apply (get_safety_warnings_medical_notice retinol_supplement medical_treatment_context);
    vm_compute; reflexivity.
Defined.

